(** * doctool: job validation, input gathering and conversion orchestration

    A shallow embedding of the Python sources
      - [src/docconvert/job/job_parser.py]   (module [JobParser])
      - [src/docconvert/core/converter.py]   (module [ConversionManager])
      - [src/docconvert/converters/pdf_combiner.py] (module [PdfCombiner])
      - [src/doctool.py]                     (module [Cli])
    together with the properties the specification states about them.

    Job descriptions are the untyped trees that [yaml.safe_load] and
    [json.load] produce; Python exceptions are values of [exn]; what is
    printed, the directories created and the entries into the methods of
    the orchestrator are recorded in a chronological trace.  The file
    system and [str()] of non-strings are parameters ([Platform]).
    Strings are the UTF-8 encodings of Python's strings.  [str.lower] is
    computed on ASCII strings; on a string with other characters it is
    what the Unicode database of the interpreter gives, a parameter
    ([Unicode]).  Floating point numbers are left out of [value]. *)

From stdpp Require Import gmap strings list fin_maps pretty sorting.

Set Warnings "-register-all".

(** ** Python values *)

Inductive value :=
  | VNone
  | VBool (b : bool)
  | VNum (n : Z)
  | VStr (s : string)
  | VList (l : list value)
  | VDict (d : gmap string value).

Inductive exn :=
  | ValueError (msg : string)
  | KeyError (key : string)
  | TypeError
  | AttributeError
  | OverflowError
  | FileNotFoundError (msg : string)
  | OSError (msg : string)
  | IOError (msg : string).

Inductive result (A : Type) :=
  | Ok (a : A)
  | Raise (e : exn).
Arguments Ok {A} a.
Arguments Raise {A} e.

(** What a run leaves behind, in order of occurrence. *)
Inductive event :=
  | EPrint (line : string)
  | EMakedirs (path : string)
  | ECall (method : string) (args : list value).

(** ** The host: file system and interpreter services *)

Record Platform := {
  (** [os.path.exists] on a path *)
  exists_path : string → bool;
  (** [os.path.exists] on an integer, which Python reads as a descriptor *)
  fd_open : Z → bool;
  (** [glob.glob]: the matches of a pattern, in the order the OS lists them *)
  glob : string → list string;
  (** [os.makedirs(_, exist_ok=True)]: [Some msg] when it raises [OSError] *)
  makedirs_err : string → option string;
  (** [str()] of a value that is not a string *)
  py_repr : value → string
}.

(** ** A state-and-exception monad *)

Definition M (St A : Type) : Type := St → result A * St.

Definition ret {St A} (a : A) : M St A := λ s, (Ok a, s).
Definition bind {St A B} (c : M St A) (k : A → M St B) : M St B :=
  λ s, match c s with
       | (Ok a, s') => k a s'
       | (Raise e, s') => (Raise e, s')
       end.
Definition raise {St A} (e : exn) : M St A := λ s, (Raise e, s).
Definition lift {St A} (r : result A) : M St A := λ s, (r, s).
Definition gets {St A} (f : St → A) : M St A := λ s, (Ok (f s), s).
Definition modify {St} (f : St → St) : M St unit := λ s, (Ok (), f s).

Declare Scope py_scope.
Delimit Scope py_scope with py.
Notation "x <- c ;; k" := (bind c (λ x, k))
  (at level 100, c at next level, right associativity) : py_scope.
Notation "c ;;; k" := (bind c (λ _, k))
  (at level 100, right associativity) : py_scope.
Open Scope py_scope.

Class Traced (St : Type) := record_event : event → St → St.

Definition emit {St} `{Traced St} (e : event) : M St unit := modify (record_event e).
Definition print {St} `{Traced St} (line : string) : M St unit := emit (EPrint line).
Definition when {St} (b : bool) (c : M St unit) : M St unit := if b then c else ret ().

Fixpoint for_each {St A} (l : list A) (body : A → M St unit) : M St unit :=
  match l with
  | [] => ret ()
  | x :: l' => body x ;;; for_each l' body
  end.

(** [for i, x in enumerate(l)] starting at index [i] *)
Fixpoint for_enumerate {St A} (i : nat) (l : list A) (body : nat → A → M St unit)
    : M St unit :=
  match l with
  | [] => ret ()
  | x :: l' => body i x ;;; for_enumerate (S i) l' body
  end.

#[global] Instance trace_traced : Traced (list event) := λ e t, t ++ [e].

(** ** Strings *)

Definition to_lower (c : Ascii.ascii) : Ascii.ascii :=
  let n := Ascii.nat_of_ascii c in
  if (65 <=? n) && (n <=? 90) then Ascii.ascii_of_nat (n + 32) else c.

(** [str.lower] on a string of ASCII characters *)
Fixpoint ascii_lower (s : string) : string :=
  match s with
  | EmptyString => EmptyString
  | String c s' => String (to_lower c) (ascii_lower s')
  end.

Fixpoint is_ascii (s : string) : bool :=
  match s with
  | EmptyString => true
  | String c s' => (Ascii.nat_of_ascii c <? 128) && is_ascii s'
  end.

(** The case mapping of the interpreter's Unicode database: [str.lower]
    of a string that has a character outside ASCII.  It lower-cases
    letters of every script, and it takes the Kelvin sign U+212A to the
    ASCII letter [k]. *)
Class Unicode := { unicode_lower : string → string }.

(** [s.lower()] *)
Definition lower `{Unicode} (s : string) : string :=
  if is_ascii s then ascii_lower s else unicode_lower s.

(** The characters of a string: in UTF-8 a byte from 128 to 191 continues
    the character that the bytes before it began. *)
Definition is_continuation (c : Ascii.ascii) : bool :=
  let n := Ascii.nat_of_ascii c in (128 <=? n) && (n <? 192).

Fixpoint characters (s : string) : list string :=
  match s with
  | EmptyString => []
  | String c s' =>
      match characters s' with
      | String c' tail :: others =>
          if is_continuation c' then String c (String c' tail) :: others
          else String c EmptyString :: String c' tail :: others
      | others => String c EmptyString :: others
      end
  end.

Fixpoint is_substring (needle hay : string) : bool :=
  String.prefix needle hay ||
  match hay with
  | EmptyString => false
  | String _ hay' => is_substring needle hay'
  end.

Fixpoint ends_with_slash (s : string) : bool :=
  match s with
  | EmptyString => false
  | String c EmptyString => String.eqb (String c EmptyString) "/"
  | String _ s' => ends_with_slash s'
  end.

(** [sep.join(l)] *)
Fixpoint join_with (sep : string) (l : list string) : string :=
  match l with
  | [] => ""
  | [x] => x
  | x :: l' => x +:+ sep +:+ join_with sep l'
  end.

(** Order of [list.sort()] on strings. *)
Definition str_le (a b : string) : Prop := String.leb a b = true.

#[global] Instance str_le_dec a b : Decision (str_le a b).
Proof. unfold str_le. apply _. Defined.

#[global] Instance str_le_total : Total str_le.
Proof. intros a b. apply String.leb_total. Qed.

(** [l.sort()] *)
Definition sort_strings (l : list string) : list string := merge_sort str_le l.

(** [os.path.join(a, b)] on POSIX *)
Definition path_join (a b : string) : string :=
  if String.prefix "/" b then b
  else if String.eqb a "" || ends_with_slash a then a +:+ b
  else a +:+ "/" +:+ b.

(** ** Python primitives on values *)

Definition truthy (v : value) : bool :=
  match v with
  | VNone => false
  | VBool b => b
  | VNum n => negb (n =? 0)%Z
  | VStr s => negb (String.eqb s "")
  | VList l => match l with [] => false | _ => true end
  | VDict d => negb (size d =? 0)
  end.

Definition is_str (key : string) (v : value) : bool :=
  match v with VStr s => String.eqb s key | _ => false end.

(** [key in d] for a dict [d] *)
Definition has_key (key : string) (d : gmap string value) : bool :=
  match d !! key with Some _ => true | None => false end.

(** [key in v] for a string [key] *)
Definition py_contains (key : string) (v : value) : result bool :=
  match v with
  | VDict d => Ok (has_key key d)
  | VList l => Ok (existsb (is_str key) l)
  | VStr s => Ok (is_substring key s)
  | _ => Raise TypeError
  end.

(** [v[key]] for a string [key] *)
Definition py_getitem (v : value) (key : string) : result value :=
  match v with
  | VDict d => match d !! key with Some x => Ok x | None => Raise (KeyError key) end
  | _ => Raise TypeError
  end.

(** [v.lower()] *)
Definition py_lower `{Unicode} (v : value) : result string :=
  match v with
  | VStr s => Ok (lower s)
  | _ => Raise AttributeError
  end.

(** The values a [for] loop over [v] visits.  A dict yields its keys, here
    in the order of [map_to_list] (Python: insertion order). *)
Definition py_iter (v : value) : result (list value) :=
  match v with
  | VList l => Ok l
  | VDict d => Ok (VStr <$> (map_to_list d).*1)
  | VStr s => Ok (VStr <$> characters s)
  | _ => Raise TypeError
  end.

Definition isinstance_bool (v : value) : bool :=
  match v with VBool _ => true | _ => false end.
Definition isinstance_list (v : value) : bool :=
  match v with VList _ => true | _ => false end.
Definition isinstance_dict (v : value) : bool :=
  match v with VDict _ => true | _ => false end.

Section Host.
Context (P : Platform).

(** [str(v)], as an f-string interpolates it *)
Definition fmt (v : value) : string :=
  match v with VStr s => s | _ => py_repr P v end.

(** [os.path.exists(v)]: a path, or an integer read as a descriptor, which
    has to fit a C [int] *)
Definition os_path_exists (v : value) : result bool :=
  match v with
  | VStr s => Ok (exists_path P s)
  | VNum n =>
      if bool_decide (-2147483648 ≤ n < 2147483648)%Z then Ok (fd_open P n)
      else Raise OverflowError
  | VBool b => Ok (fd_open P (Z.b2z b))
  | _ => Raise TypeError
  end.

(** One warning per path that does not exist, in order. *)
Definition missing_warnings (warning : string) (paths : list string) : list event :=
  (λ path, EPrint (warning +:+ path)) <$>
    List.filter (λ path, negb (exists_path P path)) paths.

(** [os.makedirs(v, exist_ok=True)] *)
Definition os_makedirs {St} `{Traced St} (v : value) : M St unit :=
  match v with
  | VStr d =>
      match makedirs_err P d with
      | Some msg => raise (OSError msg)
      | None => emit (EMakedirs d)
      end
  | _ => raise TypeError
  end.
End Host.

(** [os.path.join(a, b)] on values *)
Definition os_path_join (a b : value) : result string :=
  match a, b with
  | VStr x, VStr y => Ok (path_join x y)
  | _, _ => Raise TypeError
  end.

(** ** job_parser.py: class [JobParser] *)

Module JobParser.
Section Validator.
Context `{U : Unicode}.
Context (P : Platform).

Definition valid_formats : list string :=
  ["markdown"; "md"; "html"; "pdf"; "odt"].
Definition valid_image_formats : list string :=
  ["jpg"; "jpeg"; "png"; "webp"; "svg"].

Definition must_be_one_of (l : list string) : string :=
  ". Must be one of: " +:+ join_with ", " l.

Definition _validate_input_section (job_data : value) : M (list event) unit :=
  input_data <- lift (py_getitem job_data "input") ;;
  has_format <- lift (py_contains "format" input_data) ;;
  when (negb has_format)
    (raise (ValueError "Missing required field: input.format")) ;;;
  has_directory <- lift (py_contains "directory" input_data) ;;
  neither <- (if has_directory then ret false
              else has_files <- lift (py_contains "files" input_data) ;;
                   ret (negb has_files)) ;;
  when neither
    (raise (ValueError "Either input.directory or input.files must be specified")) ;;;
  format <- lift (py_getitem input_data "format") ;;
  lowered <- lift (py_lower format) ;;
  when (negb (bool_decide (lowered ∈ valid_formats)))
    (raise (ValueError ("Invalid input format: " +:+ fmt P format
                        +:+ must_be_one_of valid_formats))).

Definition _validate_output_section (job_data : value) : M (list event) unit :=
  output_data <- lift (py_getitem job_data "output") ;;
  has_format <- lift (py_contains "format" output_data) ;;
  when (negb has_format)
    (raise (ValueError "Missing required field: output.format")) ;;;
  has_directory <- lift (py_contains "directory" output_data) ;;
  neither <- (if has_directory then ret false
              else has_file <- lift (py_contains "file" output_data) ;;
                   ret (negb has_file)) ;;
  when neither
    (raise (ValueError "Either output.directory or output.file must be specified")) ;;;
  format <- lift (py_getitem output_data "format") ;;
  lowered <- lift (py_lower format) ;;
  when (negb (bool_decide (lowered ∈ valid_formats)))
    (raise (ValueError ("Invalid output format: " +:+ fmt P format
                        +:+ must_be_one_of valid_formats))).

Definition _validate_images_section (images_data : value) : M (list event) unit :=
  has_embed <- lift (py_contains "embed" images_data) ;;
  (if has_embed then
     embed <- lift (py_getitem images_data "embed") ;;
     when (negb (isinstance_bool embed))
       (raise (ValueError "options.images.embed must be a boolean"))
   else ret ()) ;;;
  has_formats <- lift (py_contains "formats" images_data) ;;
  if has_formats then
    formats <- lift (py_getitem images_data "formats") ;;
    when (negb (isinstance_list formats))
      (raise (ValueError "options.images.formats must be a list")) ;;;
    items <- lift (py_iter formats) ;;
    for_each items (λ f,
      lowered <- lift (py_lower f) ;;
      when (negb (bool_decide (lowered ∈ valid_image_formats)))
        (raise (ValueError ("Invalid image format: " +:+ fmt P f
                            +:+ must_be_one_of valid_image_formats))))
  else ret ().

(** [if key in data and not os.path.exists(data[key]): print(warning)] *)
Definition warn_if_missing (data : value) (key warning : string)
    : M (list event) unit :=
  present <- lift (py_contains key data) ;;
  if present then
    path <- lift (py_getitem data key) ;;
    found <- lift (os_path_exists P path) ;;
    when (negb found) (print (warning +:+ fmt P path))
  else ret ().

Definition _validate_options_section (job_data : value) : M (list event) unit :=
  options_data <- lift (py_getitem job_data "options") ;;
  warn_if_missing options_data "css" "Warning: CSS file not found: " ;;;
  warn_if_missing options_data "cover_page" "Warning: Cover page file not found: " ;;;
  has_images <- lift (py_contains "images" options_data) ;;
  if has_images then
    images_data <- lift (py_getitem options_data "images") ;;
    _validate_images_section images_data
  else ret ().

Definition _validate_documents_section (job_data : value) : M (list event) unit :=
  documents_data <- lift (py_getitem job_data "documents") ;;
  when (negb (isinstance_list documents_data))
    (raise (ValueError "documents section must be a list")) ;;;
  docs <- lift (py_iter documents_data) ;;
  for_enumerate 0 docs (λ i doc,
    when (negb (isinstance_dict doc))
      (raise (ValueError ("Document at index " +:+ pretty i
                          +:+ " must be an object"))) ;;;
    has_file <- lift (py_contains "file" doc) ;;
    when (negb has_file)
      (raise (ValueError ("Missing required field: documents[" +:+ pretty i
                          +:+ "].file"))) ;;;
    input_data <- lift (py_getitem job_data "input") ;;
    has_directory <- lift (py_contains "directory" input_data) ;;
    if has_directory then
      input_data <- lift (py_getitem job_data "input") ;;
      directory <- lift (py_getitem input_data "directory") ;;
      file <- lift (py_getitem doc "file") ;;
      file_path <- lift (os_path_join directory file) ;;
      found <- lift (os_path_exists P (VStr file_path)) ;;
      when (negb found)
        (print ("Warning: Document file not found: " +:+ file_path))
    else ret ()).

Definition _validate_combine_section (job_data : value) : M (list event) unit :=
  combine_data <- lift (py_getitem job_data "combine") ;;
  when (negb (isinstance_dict combine_data))
    (raise (ValueError "combine section must be an object")) ;;;
  has_enabled <- lift (py_contains "enabled" combine_data) ;;
  when (negb has_enabled)
    (raise (ValueError "Missing required field: combine.enabled")) ;;;
  enabled <- lift (py_getitem combine_data "enabled") ;;
  when (negb (isinstance_bool enabled))
    (raise (ValueError "combine.enabled must be a boolean")) ;;;
  enabled <- lift (py_getitem combine_data "enabled") ;;
  lacks_output <- (if truthy enabled then
                     has_output <- lift (py_contains "output_file" combine_data) ;;
                     ret (negb has_output)
                   else ret false) ;;
  when lacks_output
    (raise (ValueError
      "Missing required field: combine.output_file when combine.enabled is true")).

Definition required_sections : list string := ["input"; "output"].

Definition _validate_job_data (job_data : value) : M (list event) unit :=
  when (negb (truthy job_data)) (raise (ValueError "Job data is empty")) ;;;
  for_each required_sections (λ section,
    present <- lift (py_contains section job_data) ;;
    when (negb present)
      (raise (ValueError ("Missing required section: " +:+ section)))) ;;;
  _validate_input_section job_data ;;;
  _validate_output_section job_data ;;;
  has_options <- lift (py_contains "options" job_data) ;;
  when has_options (_validate_options_section job_data) ;;;
  has_documents <- lift (py_contains "documents" job_data) ;;
  when has_documents (_validate_documents_section job_data) ;;;
  has_combine <- lift (py_contains "combine" job_data) ;;
  when has_combine (_validate_combine_section job_data).

(** The outcome of validating [job_data], started with nothing printed. *)
Definition validate (job_data : value) : result unit :=
  fst (_validate_job_data job_data []).
End Validator.
End JobParser.

(** ** converter.py: class [ConversionManager] *)

Module ConversionManager.

Record manager := {
  job_data : value;
  input_files : list value;
  output_files : list value
}.

(** The object together with everything the run has emitted so far. *)
Record world := { self : manager; trace : list event }.

#[global] Instance world_traced : Traced world :=
  λ e w, {| self := self w; trace := trace w ++ [e] |}.

Definition __init__ (job_data : value) : manager :=
  {| job_data := job_data; input_files := []; output_files := [] |}.

(** The world after [self.input_files = files]. *)
Definition with_input_files (files : list value) (w : world) : world :=
  {| self := {| job_data := job_data (self w);
                input_files := files;
                output_files := output_files (self w) |};
     trace := trace w |}.

(** The world after [self.output_files = files]. *)
Definition with_output_files (files : list value) (w : world) : world :=
  {| self := {| job_data := job_data (self w);
                input_files := input_files (self w);
                output_files := files |};
     trace := trace w |}.

Definition set_input_files (files : list value) : M world unit :=
  modify (with_input_files files).

Definition set_output_files (files : list value) : M world unit :=
  modify (with_output_files files).

(** [if fmt == 'md': fmt = 'markdown'] *)
Definition normalize (format : string) : string :=
  if String.eqb format "md" then "markdown" else format.

Definition ext_map : gmap string string :=
  list_to_map [("markdown", ".md"); ("html", ".html");
               ("pdf", ".pdf"); ("odt", ".odt")].

Definition direct_paths : list ((string * string) * list string) :=
  [ (("markdown", "html"), ["markdown"; "html"]);
    (("markdown", "pdf"), ["markdown"; "html"; "pdf"]);
    (("markdown", "odt"), ["markdown"; "odt"]);
    (("html", "markdown"), ["html"; "markdown"]);
    (("html", "pdf"), ["html"; "pdf"]);
    (("html", "odt"), ["html"; "odt"]);
    (("pdf", "html"), ["pdf"; "html"]);
    (("pdf", "markdown"), ["pdf"; "html"; "markdown"]);
    (("pdf", "odt"), ["pdf"; "odt"]);
    (("odt", "html"), ["odt"; "html"]);
    (("odt", "markdown"), ["odt"; "html"; "markdown"]);
    (("odt", "pdf"), ["odt"; "pdf"]) ].

Definition direct_paths_dict : gmap (string * string) (list string) :=
  list_to_map direct_paths.

Definition no_path_message (input_format output_format : string) : string :=
  "No conversion path available from " +:+ input_format
  +:+ " to " +:+ output_format.

Definition _determine_conversion_path (input_format output_format : string)
    : M world (list string) :=
  emit (ECall "_determine_conversion_path" [VStr input_format; VStr output_format]) ;;;
  match direct_paths_dict !! (input_format, output_format) with
  | Some (step :: steps) => ret (step :: steps)
  | Some [] | None =>
      raise (ValueError (no_path_message input_format output_format))
  end.

(** The four document formats of the path table. *)
Definition formats : list string := ["markdown"; "html"; "pdf"; "odt"].

(** The outcome of resolving a path in world [w]. *)
Definition resolve (w : world) (src dst : string) : result (list string) :=
  fst (_determine_conversion_path src dst w).

(** [v.get(key, default)] *)
Definition py_get (v : value) (key : string) (default : value) : result value :=
  match v with
  | VDict d => Ok (match d !! key with Some x => x | None => default end)
  | _ => Raise AttributeError
  end.

(** The world after the events [evs]. *)
Definition emitted (evs : list event) (w : world) : world :=
  {| self := self w; trace := trace w ++ evs |}.

(** Entries of the trace that are calls of the path resolver. *)
Definition is_resolver_call (e : event) : bool :=
  match e with
  | ECall method _ => String.eqb method "_determine_conversion_path"
  | _ => false
  end.

(** [c] extends the trace, and with no call of the path resolver. *)
Definition resolver_free {A} (c : M world A) : Prop :=
  ∀ w, ∃ evs, trace (snd (c w)) = trace w ++ evs ∧
              Forall (λ e, is_resolver_call e = false) evs.

(** What the copy pass for [format] adds to the trace. *)
Definition copy_events (format : string) : list event :=
  [EPrint ("Input and output formats are the same (" +:+ format
           +:+ "). Copying files...");
   ECall "_copy_files" [];
   EPrint "Copying files"].

(** A [documents] entry that declares the file [name]. *)
Definition declares (doc : value) (name : string) : Prop :=
  ∃ fields : gmap string value, doc = VDict fields ∧ fields !! "file" = Some (VStr name).

(** The extension searched for an input format as the job spells it. *)
Definition extension_of `{Unicode} (format : string) : string :=
  default ".md" (ext_map !! normalize (lower format)).

Section Orchestrator.
Context `{U : Unicode}.
Context (P : Platform).

(** The event that closes a gathering of [n] files. *)
Definition found_message (n : nat) : event :=
  EPrint ("Found " +:+ pretty n +:+ " input files").

(** The [for doc in documents] loop of the directory branch, with the
    local list [ordered_files] as accumulator. *)
Fixpoint order_documents (input_dir : value) (docs : list value)
    (ordered_files : list (string * value)) : M world (list (string * value)) :=
  match docs with
  | [] => ret ordered_files
  | doc :: docs' =>
      file <- lift (py_getitem doc "file") ;;
      file_path <- lift (os_path_join input_dir file) ;;
      found <- lift (os_path_exists P (VStr file_path)) ;;
      if found then
        title <- lift (py_get doc "title" VNone) ;;
        order_documents input_dir docs' (ordered_files ++ [(file_path, title)])
      else
        print ("Warning: Document file not found: " +:+ file_path) ;;;
        order_documents input_dir docs' ordered_files
  end.

(** [self.input_files.append(file_path)] *)
Definition append_input_file (file_path : value) : M world unit :=
  files <- gets (λ w, input_files (self w)) ;;
  set_input_files (files ++ [file_path]).

Definition _gather_input_files : M world unit :=
  emit (ECall "_gather_input_files" []) ;;;
  job <- gets (λ w, job_data (self w)) ;;
  input_data <- lift (py_getitem job "input") ;;
  format <- lift (py_getitem input_data "format") ;;
  input_format <- lift (py_lower format) ;;
  let input_format := normalize input_format in
  let file_ext := default ".md" (ext_map !! input_format) in
  has_directory <- lift (py_contains "directory" input_data) ;;
  (if has_directory then
     input_dir <- lift (py_getitem input_data "directory") ;;
     found <- lift (os_path_exists P input_dir) ;;
     when (negb found)
       (raise (ValueError ("Input directory does not exist: " +:+ fmt P input_dir))) ;;;
     pattern <- lift (os_path_join input_dir (VStr ("*" +:+ file_ext))) ;;
     set_input_files (VStr <$> glob P pattern) ;;;
     has_documents <- lift (py_contains "documents" job) ;;
     if has_documents then
       documents <- lift (py_getitem job "documents") ;;
       docs <- lift (py_iter documents) ;;
       ordered_files <- order_documents input_dir docs [] ;;
       set_input_files ((λ f, VStr f.1) <$> ordered_files)
     else ret ()
   else
     has_files <- lift (py_contains "files" input_data) ;;
     if has_files then
       set_input_files [] ;;;
       files <- lift (py_getitem input_data "files") ;;
       items <- lift (py_iter files) ;;
       for_each items (λ file_path,
         found <- lift (os_path_exists P file_path) ;;
         if found then append_input_file file_path
         else print ("Warning: Input file not found: " +:+ fmt P file_path))
     else ret ()) ;;;
  files <- gets (λ w, input_files (self w)) ;;
  print ("Found " +:+ pretty (length files) +:+ " input files").

Definition _prepare_output_directories : M world unit :=
  emit (ECall "_prepare_output_directories" []) ;;;
  job <- gets (λ w, job_data (self w)) ;;
  output_data <- lift (py_getitem job "output") ;;
  has_directory <- lift (py_contains "directory" output_data) ;;
  if has_directory then
    output_dir <- lift (py_getitem output_data "directory") ;;
    os_makedirs P output_dir ;;;
    print ("Created output directory: " +:+ fmt P output_dir)
  else ret ().

Definition job_not_set : exn :=
  ValueError "Job data not set. Load a job file or set job data directly.".

Definition prepare_conversion : M world unit :=
  emit (ECall "prepare_conversion" []) ;;;
  job <- gets (λ w, job_data (self w)) ;;
  when (negb (truthy job)) (raise job_not_set) ;;;
  _gather_input_files ;;;
  _prepare_output_directories.

Definition _convert_files (conversion_path : list string) : M world unit :=
  emit (ECall "_convert_files" [VList (VStr <$> conversion_path)]) ;;;
  print ("Converting files: " +:+ py_repr P (VList (VStr <$> conversion_path))) ;;;
  files <- gets (λ w, input_files (self w)) ;;
  set_output_files files.

Definition _copy_files : M world unit :=
  emit (ECall "_copy_files" []) ;;;
  print "Copying files" ;;;
  files <- gets (λ w, input_files (self w)) ;;
  set_output_files files.

Definition _combine_files : M world unit :=
  emit (ECall "_combine_files" []) ;;;
  print "Combining files" ;;;
  job <- gets (λ w, job_data (self w)) ;;
  combine_data <- lift (py_getitem job "combine") ;;
  output_file <- lift (py_getitem combine_data "output_file") ;;
  print ("Combined output file: " +:+ fmt P output_file).

(** [self.job_data[section]['format'].lower()] *)
Definition section_format (job : value) (section : string) : result string :=
  match py_getitem job section with
  | Ok data =>
      match py_getitem data "format" with
      | Ok format =>
          match py_lower format with
          | Ok lowered => Ok lowered
          | Raise e => Raise e
          end
      | Raise e => Raise e
      end
  | Raise e => Raise e
  end.

Definition run_conversion : M world (list value) :=
  emit (ECall "run_conversion" []) ;;;
  job <- gets (λ w, job_data (self w)) ;;
  when (negb (truthy job)) (raise job_not_set) ;;;
  files <- gets (λ w, input_files (self w)) ;;
  when (match files with [] => true | _ => false end) prepare_conversion ;;;
  input_format <- lift (section_format job "input") ;;
  output_format <- lift (section_format job "output") ;;
  let input_format := normalize input_format in
  let output_format := normalize output_format in
  if String.eqb input_format output_format then
    print ("Input and output formats are the same (" +:+ input_format
           +:+ "). Copying files...") ;;;
    _copy_files ;;;
    gets (λ w, output_files (self w))
  else
    conversion_path <- _determine_conversion_path input_format output_format ;;
    print ("Conversion path: " +:+ join_with " -> " conversion_path) ;;;
    _convert_files conversion_path ;;;
    has_combine <- lift (py_contains "combine" job) ;;
    enabled <- (if has_combine then
                  combine_data <- lift (py_getitem job "combine") ;;
                  flag <- lift (py_get combine_data "enabled" (VBool false)) ;;
                  ret (truthy flag)
                else ret false) ;;
    when enabled _combine_files ;;;
    gets (λ w, output_files (self w)).

(** A run on a manager built by [ConversionManager(job_data)]. *)
Definition run (job : value) : result (list value) * world :=
  run_conversion {| self := __init__ job; trace := [] |}.
End Orchestrator.
End ConversionManager.

(** ** pdf_combiner.py: class [PdfCombiner] *)

Module PdfCombiner.

(** [for file_path in pdf_files: if file_path not in ordered_files:
    ordered_files.append(file_path)] *)
Fixpoint add_remaining (pdf_files ordered_files : list string) : list string :=
  match pdf_files with
  | [] => ordered_files
  | file_path :: rest =>
      if bool_decide (file_path ∈ ordered_files)
      then add_remaining rest ordered_files
      else add_remaining rest (ordered_files ++ [file_path])
  end.

Section Combiner.
Context (P : Platform).
(** [self.combine_files], the method that merges the files it is given *)
Context (combine_files : list string → string → M (list event) string).

(** [for filename in file_order], with [ordered_files] as accumulator *)
Fixpoint order_files (input_dir : string) (file_order ordered_files : list string)
    : M (list event) (list string) :=
  match file_order with
  | [] => ret ordered_files
  | filename :: rest =>
      let file_path := path_join input_dir filename in
      if exists_path P file_path then
        order_files input_dir rest (ordered_files ++ [file_path])
      else
        print ("Warning: Ordered file not found: " +:+ file_path) ;;;
        order_files input_dir rest ordered_files
  end.

Definition combine_directory (input_dir output_file file_pattern : string)
    (file_order : option (list string)) : M (list event) string :=
  when (negb (exists_path P input_dir))
    (raise (FileNotFoundError ("Input directory not found: " +:+ input_dir))) ;;;
  let pdf_files := glob P (path_join input_dir file_pattern) in
  pdf_files <- match file_order with
               | None | Some [] => ret (sort_strings pdf_files)
               | Some file_order =>
                   ordered_files <- order_files input_dir file_order [] ;;
                   ret (add_remaining pdf_files ordered_files)
               end ;;
  combine_files pdf_files output_file.
End Combiner.
End PdfCombiner.

(** ** doctool.py: the command line *)

Module Cli.

(** The namespace [argparse] returns. *)
Record args := {
  job_file : option string;
  input_dir : option string;
  input_file : option string;
  from_format : option string;
  output_dir : option string;
  output_file : option string;
  to_format : option string;
  combine : bool;
  files : option (list string);
  css : option string;
  toc : bool;
  embed_images : bool
}.

(** The [choices] of [--from] and [--to]. *)
Definition format_choices : list string :=
  ["md"; "markdown"; "html"; "pdf"; "odt"].

(** Truth value of an optional string argument: [None] and [''] are false. *)
Definition given (a : option string) : bool :=
  match a with
  | Some s => negb (String.eqb s "")
  | None => false
  end.

Definition given_list (a : option (list string)) : bool :=
  match a with
  | Some (_ :: _) => true
  | _ => false
  end.

(** [d[key] = VStr s] when the argument is given, [d] otherwise *)
Definition set_if_given (key : string) (a : option string)
    (d : gmap string value) : gmap string value :=
  match a with
  | Some s => if given a then <[key := VStr s]> d else d
  | None => d
  end.

Definition create_job_data_from_args (a : args) : value :=
  let input : gmap string value := ∅ in
  let input :=
    if given (input_dir a) then set_if_given "directory" (input_dir a) input
    else match input_file a with
         | Some f => if given (input_file a)
                     then <["files" := VList [VStr f]]> input else input
         | None => input
         end in
  let input := set_if_given "format" (from_format a) input in
  let output : gmap string value := ∅ in
  let output :=
    if given (output_dir a) then set_if_given "directory" (output_dir a) output
    else set_if_given "file" (output_file a) output in
  let output := set_if_given "format" (to_format a) output in
  let options : gmap string value := ∅ in
  let options := set_if_given "css" (css a) options in
  let options := if toc a then <["toc" := VBool true]> options else options in
  let options :=
    if embed_images a then
      <["images" := VDict (<["formats" := VList (VStr <$> ["jpg"; "jpeg"; "png"; "webp"; "svg"])]>
                            (<["embed" := VBool true]> ∅))]> options
    else options in
  let job_data : gmap string value :=
    <["options" := VDict options]>
      (<["output" := VDict output]> (<["input" := VDict input]> ∅)) in
  let job_data :=
    if combine a then
      let combine_data : gmap string value := <["enabled" := VBool true]> ∅ in
      let combine_data := set_if_given "output_file" (output_file a) combine_data in
      let job_data := <["combine" := VDict combine_data]> job_data in
      match files a with
      | Some l =>
          if given_list (files a) then
            <["documents" := VList ((λ file, VDict (<["file" := VStr file]> ∅)) <$> l)]>
              job_data
          else job_data
      | None => job_data
      end
    else job_data in
  VDict job_data.

Definition validate_args (a : args) : bool :=
  if given (job_file a) then true
  else if negb (given (input_dir a) || given (input_file a)) then false
  else if negb (given (output_dir a) || given (output_file a)) then false
  else if negb (given (from_format a) && given (to_format a)) then false
  else true.

(** What [parse_args] can return: formats among the declared choices. *)
Definition parsed (a : args) : Prop :=
  (∀ f, from_format a = Some f → f ∈ format_choices) ∧
  (∀ f, to_format a = Some f → f ∈ format_choices).

(** [--input-dir docs --from md --output-dir out --to pdf --combine] *)
Definition combine_to_directory : args := {|
  job_file := None;
  input_dir := Some "docs";
  input_file := None;
  from_format := Some "md";
  output_dir := Some "out";
  output_file := None;
  to_format := Some "pdf";
  combine := true;
  files := None;
  css := None;
  toc := false;
  embed_images := false
|}.
End Cli.

(** ** A host for the examples *)

Module Example.

(** [str()] of scalars; containers are not rendered. *)
Definition repr (v : value) : string :=
  match v with
  | VNone => "None"
  | VBool true => "True"
  | VBool false => "False"
  | VNum n => pretty n
  | VStr s => s
  | VList _ => "[...]"
  | VDict _ => "{...}"
  end.

(** The Kelvin sign U+212A, in UTF-8. *)
Definition kelvin : string :=
  String (Ascii.ascii_of_nat 226)
    (String (Ascii.ascii_of_nat 132) (String (Ascii.ascii_of_nat 170) EmptyString)).

(** The part of the case mapping that the examples use: the Kelvin sign
    becomes [k], the capital letters of Latin-1 (U+00C0 to U+00DE, in UTF-8
    the byte 195 and one more) become their small letters, ASCII letters
    are folded, and every other character is kept. *)
Fixpoint fold_case (s : string) : string :=
  match s with
  | EmptyString => EmptyString
  | String c rest =>
      let n := Ascii.nat_of_ascii c in
      if n =? 226 then
        match rest with
        | String c2 (String c3 rest') =>
            if (Ascii.nat_of_ascii c2 =? 132) && (Ascii.nat_of_ascii c3 =? 170)
            then String (Ascii.ascii_of_nat 107) (fold_case rest')
            else String c (fold_case rest)
        | _ => String c (fold_case rest)
        end
      else if n =? 195 then
        match rest with
        | String c2 rest' =>
            let m := Ascii.nat_of_ascii c2 in
            String c
              (String (if (128 <=? m) && (m <=? 158) && negb (m =? 151)
                       then Ascii.ascii_of_nat (m + 32) else c2)
                 (fold_case rest'))
        | EmptyString => String c EmptyString
        end
      else String (to_lower c) (fold_case rest)
  end.

#[export] Instance unicode : Unicode := {| unicode_lower := fold_case |}.

(** A directory [docs] that the OS lists as [b.md], [a.md], [c.md], and a
    directory [pdfs] with [1.pdf], [2.pdf] and [3.pdf]. *)
Definition host : Platform := {|
  exists_path := λ path, bool_decide (path ∈
    ["docs"; "docs/a.md"; "docs/b.md"; "docs/c.md";
     "pdfs"; "pdfs/1.pdf"; "pdfs/2.pdf"; "pdfs/3.pdf"]);
  fd_open := λ n, bool_decide (0 ≤ n ≤ 2)%Z;
  glob := λ pattern,
    if String.eqb pattern "docs/*.md" then ["docs/b.md"; "docs/a.md"; "docs/c.md"]
    else if String.eqb pattern "pdfs/*.pdf" then ["pdfs/1.pdf"; "pdfs/2.pdf"; "pdfs/3.pdf"]
    else [];
  makedirs_err := λ _, None;
  py_repr := repr
|}.

Definition section (fields : list (string * value)) : value :=
  VDict (list_to_map fields).

(** No input section, and an output format outside the valid set. *)
Definition job_without_input : gmap string value :=
  list_to_map [("output", section [("directory", VStr "out"); ("format", VStr "docx")])].

Definition md_to_pdf_job : gmap string value :=
  list_to_map [("input", section [("directory", VStr "docs"); ("format", VStr "md")]);
               ("output", section [("file", VStr "out/book.pdf"); ("format", VStr "pdf")])].

Definition docs_input : value :=
  section [("directory", VStr "docs"); ("format", VStr "markdown")].

Definition docs_job : gmap string value :=
  list_to_map [("input", docs_input);
               ("output", section [("directory", VStr "out"); ("format", VStr "html")])].

(** [documents] names [c.md], a missing file and [a.md]; [b.md] is in the
    directory but not declared. *)
Definition ordered_docs : list value :=
  [section [("file", VStr "c.md"); ("title", VStr "Closing")];
   section [("file", VStr "missing.md")];
   section [("file", VStr "a.md")]].

Definition ordered_job : gmap string value := <["documents" := VList ordered_docs]> docs_job.

(** An input section that lists files, next to a [documents] section. *)
Definition listed_job : gmap string value :=
  list_to_map
    [("input", section [("files", VList [VStr "docs/c.md"; VStr "notes/x.md"; VStr "docs/a.md"]);
                        ("format", VStr "md")]);
     ("output", section [("directory", VStr "out"); ("format", VStr "html")]);
     ("documents", VList [section [("file", VStr "b.md")]])].

(** Markdown to markdown, spelled differently on the two sides. *)
Definition copy_job : gmap string value :=
  list_to_map [("input", section [("directory", VStr "docs"); ("format", VStr "Markdown")]);
               ("output", section [("directory", VStr "out"); ("format", VStr "md")])].

(** A stand-in for [combine_files] that records what it is handed. *)
Definition record_combine (files : list string) (out : string) : M (list event) string :=
  emit (ECall "combine_files" [VList (VStr <$> files); VStr out]) ;;; ret out.
End Example.

(** ** posixpath *)

Module PosixPath.

Definition is_slash (c : Ascii.ascii) : bool := Ascii.eqb c (Ascii.ascii_of_nat 47).
Definition is_dot (c : Ascii.ascii) : bool := Ascii.eqb c (Ascii.ascii_of_nat 46).

(** the characters after the last slash *)
Fixpoint last_segment (l : list Ascii.ascii) : list Ascii.ascii :=
  match l with
  | [] => []
  | c :: l' =>
      if existsb is_slash l' then last_segment l'
      else if is_slash c then l' else c :: l'
  end.

(** [os.path.basename(p)] *)
Definition basename (p : string) : string :=
  String.string_of_list_ascii (last_segment (String.list_ascii_of_string p)).

(** The extension within a file name: from its last dot, provided some
    character before that dot is not a dot. *)
Fixpoint extension_from (seen_other : bool) (l : list Ascii.ascii)
    : option (list Ascii.ascii) :=
  match l with
  | [] => None
  | c :: l' =>
      match extension_from (seen_other || negb (is_dot c)) l' with
      | Some ext => Some ext
      | None => if is_dot c && seen_other then Some (c :: l') else None
      end
  end.

(** [os.path.splitext(p)] *)
Definition splitext (p : string) : string * string :=
  let chars := String.list_ascii_of_string p in
  match extension_from false (last_segment chars) with
  | Some ext =>
      (String.string_of_list_ascii (take (length chars - length ext) chars),
       String.string_of_list_ascii ext)
  | None => (p, "")
  end.

(** [s.endswith(suffix)] *)
Fixpoint ends_with (suffix s : string) : bool :=
  String.eqb s suffix ||
  match s with
  | EmptyString => false
  | String _ s' => ends_with suffix s'
  end.

(** [s.rstrip('/')] on characters *)
Fixpoint rstrip_slashes (l : list Ascii.ascii) : list Ascii.ascii :=
  match l with
  | [] => []
  | c :: l' =>
      match rstrip_slashes l' with
      | [] => if is_slash c then [] else [c]
      | rest => c :: rest
      end
  end.

(** [os.path.dirname(p)] *)
Definition dirname (p : string) : string :=
  let chars := String.list_ascii_of_string p in
  let head := take (length chars - length (last_segment chars)) chars in
  String.string_of_list_ascii
    (if forallb is_slash head then head else rstrip_slashes head).

End PosixPath.

(** ** Libraries the code calls *)

(** What a YAML or JSON loader does with a file. *)
Inductive loaded :=
  | Loaded (data : value)
  (** the loader's own error, [yaml.YAMLError] or [json.JSONDecodeError],
      with its text *)
  | Malformed (text : string)
  (** any other exception *)
  | Broken (e : exn).

Record Library := {
  (** [os.listdir] *)
  listdir : string → result (list string);
  (** [open(path, 'r')]: the exception it raises, if any *)
  open_err : string → option exn;
  (** [yaml.safe_load] and [json.load] on the file at a path *)
  yaml_safe_load : string → loaded;
  json_load : string → loaded;
  (** [str(e)] for an exception that carries no message here *)
  exn_text : exn → string;
  (** [os.path.abspath] *)
  abspath : string → string;
  (** [PyPDF2.PdfMerger]: for each call, the text of the exception it
      raises, if any *)
  merger_new_err : option string;
  add_metadata_err : string → value → option string;
  append_err : string → option string;
  write_err : string → option string;
  close_err : option string
}.

(** [try: c except Exception as e: handler(e)] *)
Definition try_except {St A} (c : M St A) (handler : exn → M St A) : M St A :=
  λ s, match c s with
       | (Ok a, s') => (Ok a, s')
       | (Raise e, s') => handler e s'
       end.

Section Foreign.
Context (L : Library).

(** [str(e)] *)
Definition exn_str (e : exn) : string :=
  match e with
  | ValueError msg | FileNotFoundError msg | OSError msg | IOError msg => msg
  | _ => exn_text L e
  end.

(** A call into a library, recorded when it returns.  An exception of the
    library is only ever formatted with [str()] by the code here, and is
    carried as an [OSError] of that text. *)
Definition foreign_call {St} `{Traced St} (name : string) (args : list value)
    (err : option string) : M St unit :=
  match err with
  | Some text => raise (OSError text)
  | None => emit (ECall name args)
  end.
End Foreign.

(** ** job_parser.py: loading job files *)

Module JobFile.
Section Loading.
Context `{U : Unicode}.
Context (P : Platform) (L : Library).

Definition job_file_extensions : list string := [".yaml"; ".yml"; ".json"].

(** [for file in names: if file.endswith(ext): return join(directory, file)] *)
Fixpoint first_with_extension (directory ext : string) (names : list string)
    : option string :=
  match names with
  | [] => None
  | file :: names' =>
      if PosixPath.ends_with ext file then Some (path_join directory file)
      else first_with_extension directory ext names'
  end.

(** [for ext in exts], listing the directory anew for each extension *)
Fixpoint find_with_extensions (directory : string) (exts : list string)
    : result (option string) :=
  match exts with
  | [] => Ok None
  | ext :: exts' =>
      match listdir L directory with
      | Raise e => Raise e
      | Ok names =>
          match first_with_extension directory ext names with
          | Some path => Ok (Some path)
          | None => find_with_extensions directory exts'
          end
      end
  end.

Definition find_job_file (directory : string) : result (option string) :=
  find_with_extensions directory job_file_extensions.

(** One loader call, with its own error turned into a [ValueError]. *)
Definition load_with {St} (outcome : loaded) (invalid : string) : M St value :=
  match outcome with
  | Loaded data => ret data
  | Malformed text => raise (ValueError (invalid +:+ text))
  | Broken e => raise e
  end.

(** [JobParser.parse_file], on a parser that has just been created *)
Definition parse_file (file_path : string) : M (list event) value :=
  when (negb (exists_path P file_path))
    (raise (FileNotFoundError ("Job file not found: " +:+ file_path))) ;;;
  let file_ext := lower (PosixPath.splitext file_path).2 in
  match open_err L file_path with Some e => raise e | None => ret () end ;;;
  job_data <-
    (if String.eqb file_ext ".yaml" || String.eqb file_ext ".yml" then
       load_with (yaml_safe_load L file_path) "Invalid YAML format: "
     else if String.eqb file_ext ".json" then
       load_with (json_load L file_path) "Invalid JSON format: "
     else raise (ValueError ("Unsupported job file format: " +:+ file_ext))) ;;
  JobParser._validate_job_data P job_data ;;;
  ret job_data.

Definition load_job_file (file_path : string) : M (list event) value :=
  parse_file file_path.
End Loading.
End JobFile.

(** ** converter.py: loading the job, and [convert_documents] *)

Module Driver.
Import ConversionManager.

(** An optional path that is true in a condition: neither [None] nor ['']. *)
Definition given_path (a : option string) : option string :=
  match a with
  | Some path => if String.eqb path "" then None else Some path
  | None => None
  end.

(** A program of the job parser, run on the trace of the manager's world. *)
Definition on_trace {A} (c : M (list event) A) : M world A :=
  λ w, let (r, t) := c (trace w) in (r, {| self := self w; trace := t |}).

(** The world after [self.job_data = job]. *)
Definition with_job_data (job : value) (w : world) : world :=
  {| self := {| job_data := job;
                input_files := input_files (self w);
                output_files := output_files (self w) |};
     trace := trace w |}.

(** [ConversionManager.set_job_data] *)
Definition set_job_data (job : value) : M world unit :=
  emit (ECall "set_job_data" [job]) ;;;
  modify (with_job_data job).

Definition nothing_provided : exn := ValueError "No job file or job data provided".

(** What [parse_args()] does with the command line of the process: it
    returns a namespace, or argparse prints a message and leaves through
    [SystemExit], with status 2 for arguments it refuses and 0 after
    [--help]. *)
Inductive parsing :=
  | Namespace (a : Cli.args)
  | ArgparseExit (printed : list event) (status : Z).

(** How a call ends.  [SystemExit] is no [Exception]: no [except Exception]
    catches it. *)
Inductive ending :=
  | Returned (code : Z)
  | Raised (e : exn)
  | SystemExit (status : Z).

Section Driving.
Context `{U : Unicode}.
Context (P : Platform) (L : Library).

(** [ConversionManager.load_job_file] *)
Definition load_job_file (file_path : string) : M world unit :=
  emit (ECall "load_job_file" [VStr file_path]) ;;;
  job <- on_trace (JobFile.load_job_file P L file_path) ;;
  modify (with_job_data job).

(** [ConversionManager.auto_detect_job_file] *)
Definition auto_detect_job_file : M world bool :=
  emit (ECall "auto_detect_job_file" []) ;;;
  job_file <- lift (JobFile.find_job_file L ".") ;;
  match given_path job_file with
  | Some path => load_job_file path ;;; ret true
  | None => ret false
  end.

(** What [convert_documents] does with the manager it creates. *)
Definition convert_with_manager (job_file : option string) (job : value)
    : M world (list value) :=
  match given_path job_file with
  | Some path => load_job_file path
  | None =>
      if truthy job then set_job_data job
      else found <- auto_detect_job_file ;;
           when (negb found) (raise nothing_provided)
  end ;;;
  run_conversion P.

(** [convert_documents(job_file, job_data)]: the manager is local to it. *)
Definition convert_documents (job_file : option string) (job : value)
    : M (list event) (list value) :=
  λ t, let (r, w) := convert_with_manager job_file job
                       {| self := __init__ VNone; trace := t |} in
       (r, trace w).

(** *** doctool.py: [main] *)

(** [print(line, file=sys.stderr)] *)
Definition print_stderr (line : string) : M (list event) unit :=
  emit (ECall "print_stderr" [VStr line]).

(** [traceback.print_exc()] *)
Definition print_exc : M (list event) unit :=
  emit (ECall "traceback.print_exc" []).

Definition completed (output_files : list value) : string :=
  "Conversion completed. Output files: " +:+ py_repr P (VList output_files).

Definition usage : M (list event) Z :=
  print "Error: No job file found and insufficient command-line arguments provided." ;;;
  print "Please specify a job file or provide the required command-line arguments." ;;;
  print "Run 'python doctool.py --help' for more information." ;;;
  ret 1%Z.

(** The [try] statement of [main()], on the namespace [a] *)
Definition main_try (a : Cli.args) : M (list event) Z :=
  try_except
    (match given_path (Cli.job_file a) with
     | Some path =>
         output_files <- convert_documents (Some path) VNone ;;
         print (completed output_files) ;;;
         ret 0%Z
     | None =>
         if Cli.validate_args a then
           output_files <- convert_documents None (Cli.create_job_data_from_args a) ;;
           print (completed output_files) ;;;
           ret 0%Z
         else
           job_file <- lift (JobFile.find_job_file L ".") ;;
           match given_path job_file with
           | Some path =>
               print ("Using job file: " +:+ path) ;;;
               output_files <- convert_documents (Some path) VNone ;;
               print (completed output_files) ;;;
               ret 0%Z
           | None => usage
           end
     end)
    (λ e, print_stderr ("Error: " +:+ exn_str L e) ;;;
          print_exc ;;;
          ret 1%Z).

(** [main()]: [args = parse_args()] comes before the [try] *)
Definition main (command_line : parsing) (t : list event) : ending * list event :=
  match command_line with
  | ArgparseExit printed status => (SystemExit status, t ++ printed)
  | Namespace a =>
      match main_try a t with
      | (Ok code, t') => (Returned code, t')
      | (Raise e, t') => (Raised e, t')
      end
  end.
End Driving.
End Driver.

(** ** pdf_combiner.py: [PdfCombiner.combine_files] *)

Module CombineFiles.

(** [self.options = options or {}] *)
Definition __init__ (options : value) : value :=
  if truthy options then options else VDict ∅.

Section Merging.
Context (P : Platform) (L : Library).

(** [if key in metadata: merger.add_metadata({name: metadata[key]})] *)
Definition add_metadata_if (metadata : value) (key name : string)
    : M (list event) unit :=
  present <- lift (py_contains key metadata) ;;
  if present then
    v <- lift (py_getitem metadata key) ;;
    foreign_call "add_metadata" [VStr name; v] (add_metadata_err L name v)
  else ret ().

(** The body of the [try] block. *)
Definition merge (options : value) (input_files : list string) (output_file : string)
    : M (list event) string :=
  os_makedirs P (VStr (PosixPath.dirname (abspath L output_file))) ;;;
  foreign_call "PdfMerger" [] (merger_new_err L) ;;;
  has_metadata <- lift (py_contains "metadata" options) ;;
  (if has_metadata then
     metadata <- lift (py_getitem options "metadata") ;;
     add_metadata_if metadata "title" "/Title" ;;;
     add_metadata_if metadata "author" "/Author" ;;;
     add_metadata_if metadata "subject" "/Subject" ;;;
     add_metadata_if metadata "keywords" "/Keywords"
   else ret ()) ;;;
  for_each input_files (λ input_file,
    print ("Adding " +:+ input_file +:+ " to the combined PDF") ;;;
    try_except
      (foreign_call "append" [VStr input_file] (append_err L input_file))
      (λ e, print ("Error adding " +:+ input_file +:+ ": " +:+ exn_str L e) ;;;
            raise e)) ;;;
  print ("Writing combined PDF to " +:+ output_file) ;;;
  foreign_call "write" [VStr output_file] (write_err L output_file) ;;;
  foreign_call "close" [] (close_err L) ;;;
  ret output_file.

(** [combine_files], with [options] the combiner's [self.options] *)
Definition combine_files (options : value) (input_files : list string)
    (output_file : string) : M (list event) string :=
  for_each input_files (λ input_file,
    when (negb (exists_path P input_file))
      (raise (FileNotFoundError ("Input file not found: " +:+ input_file)))) ;;;
  try_except (merge options input_files output_file)
    (λ e, raise (IOError ("Error combining PDF files: " +:+ exn_str L e))).
End Merging.
End CombineFiles.

(** ** More example data *)

Module Samples.
Import Example.

(** The letters U+00C4 and U+00E4, A and a with diaeresis, in UTF-8. *)
Definition capital_a_diaeresis : string :=
  String (Ascii.ascii_of_nat 195) (String (Ascii.ascii_of_nat 132) EmptyString).
Definition small_a_diaeresis : string :=
  String (Ascii.ascii_of_nat 195) (String (Ascii.ascii_of_nat 164) EmptyString).

(** The host of [Example], with a directory [jobs] of job files and a
    style sheet. *)
Definition workdir : Platform := {|
  exists_path := λ path,
    exists_path host path
    || bool_decide (path ∈ ["jobs"; "jobs/b.json"; "jobs/a.yml"; "jobs/z.yaml";
                            "jobs/c.yaml"; "jobs/broken.yaml"; "jobs/broken.json";
                            "jobs/job.toml"; "style.css";
                            "jobs/x." +:+ capital_a_diaeresis +:+ "ML"]);
  fd_open := fd_open host;
  glob := glob host;
  makedirs_err := makedirs_err host;
  py_repr := repr
|}.

(** A host on which nothing exists and no directory can be created. *)
Definition blank : Platform := {|
  exists_path := λ _, false;
  fd_open := λ _, false;
  glob := λ _, [];
  makedirs_err := λ _, Some "Permission denied";
  py_repr := repr
|}.

(** A manager that has gathered two files for [docs_job]. *)
Definition gathered : ConversionManager.world :=
  {| ConversionManager.self :=
       {| ConversionManager.job_data := VDict docs_job;
          ConversionManager.input_files := [VStr "docs/b.md"; VStr "docs/a.md"];
          ConversionManager.output_files := [] |};
     ConversionManager.trace := [] |}.

(** The job files hold [docs_job], except the two broken ones; the current
    directory holds no job file, and [pdfs/2.pdf] is not a readable PDF. *)
Definition library : Library := {|
  listdir := λ directory,
    if String.eqb directory "jobs" then Ok ["b.json"; "a.yml"; "z.yaml"; "c.yaml"]
    else if String.eqb directory "." then Ok ["README.md"; "docs"; "pdfs"; "jobs"]
    else Raise (FileNotFoundError directory);
  open_err := λ _, None;
  yaml_safe_load := λ path,
    if String.eqb path "jobs/broken.yaml"
    then Malformed "mapping values are not allowed here"
    else Loaded (VDict docs_job);
  json_load := λ path,
    if String.eqb path "jobs/broken.json"
    then Malformed "Expecting value: line 1 column 1 (char 0)"
    else Loaded (VDict docs_job);
  exn_text := λ _, "";
  abspath := λ path, "/work/" +:+ path;
  merger_new_err := None;
  add_metadata_err := λ _ _, None;
  append_err := λ path,
    if String.eqb path "pdfs/2.pdf" then Some "EOF marker not found" else None;
  write_err := λ _, None;
  close_err := None
|}.

(** [docs_job] with options: a style sheet that exists, a cover page that
    does not, and embedded images. *)
Definition styled_options : gmap string value :=
  list_to_map [("css", VStr "style.css"); ("cover_page", VStr "cover.html");
               ("images", section [("embed", VBool true);
                                   ("formats", VList [VStr "PNG"; VStr "svg"])])].

Definition styled_job : gmap string value := <["options" := VDict styled_options]> docs_job.

(** Markdown to markdown, the input format spelled with the Kelvin sign in
    the place of its [k]. *)
Definition kelvin_job : gmap string value :=
  list_to_map
    [("input", section [("directory", VStr "docs");
                        ("format", VStr ("mar" +:+ kelvin +:+ "down"))]);
     ("output", section [("directory", VStr "out"); ("format", VStr "markdown")])].

(** [docs_job] reading from a directory that does not exist. *)
Definition lost_job : gmap string value :=
  <["input" := section [("directory", VStr "drafts"); ("format", VStr "md")]]> docs_job.

(** [md_to_pdf_job] with an enabled combine section. *)
Definition book_job : gmap string value :=
  <["combine" := section [("enabled", VBool true); ("output_file", VStr "out/book.pdf")]]>
    md_to_pdf_job.

(** [--input-dir pdfs --from pdf --output-file combined.pdf --to pdf
    --combine --files 3.pdf 1.pdf] *)
Definition combine_to_file : Cli.args :=
  {| Cli.job_file := None; Cli.input_dir := Some "pdfs"; Cli.input_file := None;
     Cli.from_format := Some "pdf"; Cli.output_dir := None;
     Cli.output_file := Some "combined.pdf"; Cli.to_format := Some "pdf";
     Cli.combine := true; Cli.files := Some ["3.pdf"; "1.pdf"];
     Cli.css := None; Cli.toc := false; Cli.embed_images := false |}.

(** [--job-file jobs/z.yaml] *)
Definition with_job_file : Cli.args :=
  {| Cli.job_file := Some "jobs/z.yaml"; Cli.input_dir := None; Cli.input_file := None;
     Cli.from_format := None; Cli.output_dir := None;
     Cli.output_file := None; Cli.to_format := None;
     Cli.combine := false; Cli.files := None;
     Cli.css := None; Cli.toc := false; Cli.embed_images := false |}.

(** [--input-dir docs], and nothing else *)
Definition only_input_dir : Cli.args :=
  {| Cli.job_file := None; Cli.input_dir := Some "docs"; Cli.input_file := None;
     Cli.from_format := None; Cli.output_dir := None;
     Cli.output_file := None; Cli.to_format := None;
     Cli.combine := false; Cli.files := None;
     Cli.css := None; Cli.toc := false; Cli.embed_images := false |}.
End Samples.

(** * Vocabulary of the statements *)

Section Vocabulary.
Import ConversionManager.
Context `{U : Unicode}.
Context (P : Platform).

(** The path named under [key], when it is a string. *)
Definition option_path (options : gmap string value) (key : string) : list string :=
  match options !! key with
  | Some (VStr path) => [path]
  | _ => []
  end.

(** The body of the [for i, doc in enumerate(documents_data)] loop. *)
Definition check_document (job_data : value) (i : nat) (doc : value)
    : M (list event) unit :=
  when (negb (isinstance_dict doc))
    (raise (ValueError ("Document at index " +:+ pretty i
                        +:+ " must be an object"))) ;;;
  has_file <- lift (py_contains "file" doc) ;;
  when (negb has_file)
    (raise (ValueError ("Missing required field: documents[" +:+ pretty i
                        +:+ "].file"))) ;;;
  input_data <- lift (py_getitem job_data "input") ;;
  has_directory <- lift (py_contains "directory" input_data) ;;
  if has_directory then
    input_data <- lift (py_getitem job_data "input") ;;
    directory <- lift (py_getitem input_data "directory") ;;
    file <- lift (py_getitem doc "file") ;;
    file_path <- lift (os_path_join directory file) ;;
    found <- lift (os_path_exists P (VStr file_path)) ;;
    when (negb found)
      (print ("Warning: Document file not found: " +:+ file_path))
  else ret ().

(** [c] leaves [self.job_data] as it finds it. *)
Definition keeps_job {A} (c : M world A) : Prop :=
  ∀ w, job_data (self (snd (c w))) = job_data (self w).

(** What the conversion pass along [route] adds to the trace. *)
Definition convert_events (src dst : string) (route : list string) : list event :=
  [ECall "_determine_conversion_path" [VStr src; VStr dst];
   EPrint ("Conversion path: " +:+ join_with " -> " route);
   ECall "_convert_files" [VList (VStr <$> route)];
   EPrint ("Converting files: " +:+ py_repr P (VList (VStr <$> route)))].

(** What the combine step adds to the trace. *)
Definition combine_events (output_file : value) : list event :=
  [ECall "_combine_files" [];
   EPrint "Combining files";
   EPrint ("Combined output file: " +:+ fmt P output_file)].

(** Preparation, when no file has been gathered yet. *)
Definition prepare_if_needed : M world unit :=
  files <- gets (λ w, input_files (self w)) ;;
  when (match files with [] => true | _ => false end) (prepare_conversion P).

(** The existence check that opens [combine_files]. *)
Definition check_inputs (input_files : list string) : M (list event) unit :=
  for_each input_files (λ input_file,
    when (negb (exists_path P input_file))
      (raise (FileNotFoundError ("Input file not found: " +:+ input_file)))).

(** The trace of appending [files] to the merger. *)
Definition append_events (files : list string) : list event :=
  flat_map (λ f, [EPrint ("Adding " +:+ f +:+ " to the combined PDF");
                  ECall "append" [VStr f]]) files.

End Vocabulary.

(** * Properties *)

Example path_join_plain : path_join "docs" "a.md" = "docs/a.md".
Proof. reflexivity. Qed.
Example path_join_slash : path_join "docs/" "a.md" = "docs/a.md".
Proof. reflexivity. Qed.
Example path_join_absolute : path_join "docs" "/tmp/a.md" = "/tmp/a.md".
Proof. reflexivity. Qed.
Example lower_mixed `{Unicode} : lower "MarkDown" = "markdown".
Proof. reflexivity. Qed.

(** ** The conversion path table *)

Section PathTable.
Import ConversionManager.

Lemma direct_paths_keys (src dst : string) :
  (src, dst) ∈ direct_paths.*1 → src ∈ formats ∧ dst ∈ formats ∧ src ≠ dst.
Proof.
  unfold direct_paths, formats. cbn [fmap list_fmap fst].
  rewrite !elem_of_cons, elem_of_nil.
  intros H. repeat destruct H as [H | H]; try done;
    injection H as -> ->; (split; [set_solver | split; [set_solver | done]]).
Qed.

Lemma resolve_outside_table (w : world) (src dst : string) :
  ¬ (src ∈ formats ∧ dst ∈ formats ∧ src ≠ dst) →
  resolve w src dst = Raise (ValueError (no_path_message src dst)).
Proof.
  intros Hout. unfold resolve, _determine_conversion_path, bind, emit, modify.
  cbn [fst]. unfold direct_paths_dict.
  rewrite (not_elem_of_list_to_map_1 (M := gmap (string * string))).
  - reflexivity.
  - intros Hin. apply Hout, direct_paths_keys, Hin.
Qed.

(** C1.  Every ordered pair of distinct formats among markdown, html, pdf
    and odt resolves to the documented literal route, and every other
    pair raises the no-path error whose message names both formats. *)
Theorem determine_conversion_path_routes (w : world) :
  resolve w "markdown" "html" = Ok ["markdown"; "html"] ∧
  resolve w "markdown" "pdf" = Ok ["markdown"; "html"; "pdf"] ∧
  resolve w "markdown" "odt" = Ok ["markdown"; "odt"] ∧
  resolve w "html" "markdown" = Ok ["html"; "markdown"] ∧
  resolve w "html" "pdf" = Ok ["html"; "pdf"] ∧
  resolve w "html" "odt" = Ok ["html"; "odt"] ∧
  resolve w "pdf" "html" = Ok ["pdf"; "html"] ∧
  resolve w "pdf" "markdown" = Ok ["pdf"; "html"; "markdown"] ∧
  resolve w "pdf" "odt" = Ok ["pdf"; "odt"] ∧
  resolve w "odt" "html" = Ok ["odt"; "html"] ∧
  resolve w "odt" "markdown" = Ok ["odt"; "html"; "markdown"] ∧
  resolve w "odt" "pdf" = Ok ["odt"; "pdf"] ∧
  (∀ src dst : string,
     ¬ (src ∈ formats ∧ dst ∈ formats ∧ src ≠ dst) →
     resolve w src dst =
       Raise (ValueError ("No conversion path available from " +:+ src
                          +:+ " to " +:+ dst))).
Proof.
  repeat split; try reflexivity.
  intros src dst Hout. apply resolve_outside_table, Hout.
Qed.

(** A pair outside the table: a format the table does not know. *)
Lemma determine_conversion_path_routes_witness :
  resolve {| self := __init__ VNone; trace := [] |} "docx" "pdf" =
    Raise (ValueError "No conversion path available from docx to pdf").
Proof.
  apply (determine_conversion_path_routes {| self := __init__ VNone; trace := [] |}).
  intros (Hsrc & _). unfold formats in Hsrc.
  rewrite !elem_of_cons, elem_of_nil in Hsrc.
  destruct Hsrc as [? | [? | [? | [? | []]]]]; discriminate.
Defined.
End PathTable.

(** ** Reasoning about the monad *)

Lemma bind_ok {St A B} (c : M St A) (k : A → M St B) (s s1 : St) (a : A) :
  c s = (Ok a, s1) → bind c k s = k a s1.
Proof. intros H. unfold bind. rewrite H. reflexivity. Qed.

Lemma bind_ok_inv {St A B} (c : M St A) (k : A → M St B) (s s' : St) (b : B) :
  bind c k s = (Ok b, s') → ∃ a s1, c s = (Ok a, s1) ∧ k a s1 = (Ok b, s').
Proof.
  unfold bind. destruct (c s) as [[a | e] s1]; intros H.
  - exists a, s1. split; [reflexivity | exact H].
  - discriminate H.
Qed.

Lemma lift_ok_inv {St A} (r : result A) (s s' : St) (a : A) :
  lift r s = (Ok a, s') → r = Ok a ∧ s' = s.
Proof. unfold lift. intros H. injection H as -> ->. done. Qed.

Lemma when_ok_inv {St} (b : bool) (e : exn) (s s' : St) (u : unit) :
  when b (raise e) s = (Ok u, s') → b = false ∧ s' = s.
Proof.
  destruct b; unfold when, raise, ret; intros H; [discriminate H |].
  injection H as _ ->. done.
Qed.

(** Equations that run a program one step. *)
Lemma bind_ret {St A B} (a : A) (k : A → M St B) (s : St) :
  bind (ret a) k s = k a s.
Proof. reflexivity. Qed.

Lemma bind_lift_ok {St A B} (a : A) (k : A → M St B) (s : St) :
  bind (lift (Ok a)) k s = k a s.
Proof. reflexivity. Qed.

Lemma bind_gets {St A B} (f : St → A) (k : A → M St B) (s : St) :
  bind (gets f) k s = k (f s) s.
Proof. reflexivity. Qed.

Lemma bind_modify {St B} (f : St → St) (k : unit → M St B) (s : St) :
  bind (modify f) k s = k () (f s).
Proof. reflexivity. Qed.

Lemma bind_emit {St B} `{Traced St} (e : event) (k : unit → M St B) (s : St) :
  bind (emit e) k s = k () (record_event e s).
Proof. reflexivity. Qed.

Lemma bind_print {St B} `{Traced St} (line : string) (k : unit → M St B) (s : St) :
  bind (print line) k s = k () (record_event (EPrint line) s).
Proof. reflexivity. Qed.

Lemma bind_when_false {St B} (c : M St unit) (k : unit → M St B) (s : St) :
  bind (when false c) k s = k () s.
Proof. reflexivity. Qed.

Lemma bind_when_true {St B} (c : M St unit) (k : unit → M St B) (s : St) :
  bind (when true c) k s = bind c k s.
Proof. reflexivity. Qed.

Lemma bind_assoc {St A B C} (c : M St A) (k1 : A → M St B) (k2 : B → M St C) (s : St) :
  bind (bind c k1) k2 s = bind c (λ a, bind (k1 a) k2) s.
Proof. unfold bind. destruct (c s) as [[a | e] s1]; reflexivity. Qed.

Lemma bind_ext {St A B} (c : M St A) (k1 k2 : A → M St B) (s : St) :
  (∀ a s1, k1 a s1 = k2 a s1) → bind c k1 s = bind c k2 s.
Proof. intros H. unfold bind. destruct (c s) as [[a | e] s1]; [apply H | reflexivity]. Qed.

Lemma getitem_ok (d : gmap string value) (key : string) (v : value) :
  d !! key = Some v → py_getitem (VDict d) key = Ok v.
Proof. intros H. unfold py_getitem. rewrite H. reflexivity. Qed.

Lemma contains_some (d : gmap string value) (key : string) (v : value) :
  d !! key = Some v → py_contains key (VDict d) = Ok true.
Proof. intros H. unfold py_contains, has_key. rewrite H. reflexivity. Qed.

Lemma contains_none (d : gmap string value) (key : string) :
  d !! key = None → py_contains key (VDict d) = Ok false.
Proof. intros H. unfold py_contains, has_key. rewrite H. reflexivity. Qed.

Ltac run_step :=
  first [ rewrite bind_lift_ok | rewrite bind_gets | rewrite bind_emit
        | rewrite bind_print | rewrite bind_modify | rewrite bind_ret
        | rewrite bind_when_false | rewrite bind_when_true ];
  cbn beta.

(** Runs as far as the next step that needs a fact about the job. *)
Ltac run := repeat (first [ rewrite bind_assoc | run_step ]; cbn beta iota).

Lemma size_lookup_nonzero (d : gmap string value) (k : string) (v : value) :
  d !! k = Some v → (size d =? 0) = false.
Proof.
  intros H. apply Nat.eqb_neq. intros Hz.
  apply map_size_empty_iff in Hz. subst d. rewrite lookup_empty in H. discriminate H.
Qed.

(** ** Validation *)

Section Validation.
Import JobParser.
Context `{U : Unicode}.
Context (P : Platform).

(** C10.  A null job description and an empty mapping are false in a
    condition, and validating any such job raises the empty-job error with
    nothing checked or printed before it. *)
Theorem validate_empty_job :
  truthy VNone = false ∧ truthy (VDict ∅) = false ∧
  ∀ (job_data : value) (t : list event),
    truthy job_data = false →
    _validate_job_data P job_data t = (Raise (ValueError "Job data is empty"), t).
Proof.
  split; [reflexivity | split; [reflexivity |]].
  intros job_data t Hfalsy. unfold _validate_job_data.
  rewrite Hfalsy. reflexivity.
Qed.

(** C6.  The sections are checked for presence in the order input, output,
    before any field of a section is looked at: a job without an input
    section raises the missing-input error whatever its output section
    holds, an invalid format included, and a job with an input section of
    any content but no output section raises the missing-output error.
    Input comes first: a job that is not empty and has no input section
    raises the missing-input error also when it has no output section
    either. *)
Theorem validate_missing_section_first (d : gmap string value) (t : list event) :
  (∀ output_data : value,
     d !! "input" = None →
     d !! "output" = Some output_data →
     _validate_job_data P (VDict d) t =
       (Raise (ValueError "Missing required section: input"), t)) ∧
  (∀ input_data : value,
     d !! "input" = Some input_data →
     d !! "output" = None →
     _validate_job_data P (VDict d) t =
       (Raise (ValueError "Missing required section: output"), t)) ∧
  (d ≠ ∅ →
   d !! "input" = None →
   d !! "output" = None →
   _validate_job_data P (VDict d) t =
     (Raise (ValueError "Missing required section: input"), t)).
Proof.
  split; [| split].
  - intros output_data Hin Hout. unfold _validate_job_data.
    cbn [truthy]. rewrite (size_lookup_nonzero _ _ _ Hout).
    cbn [negb when]. unfold required_sections, for_each, py_contains, has_key.
    rewrite Hin. reflexivity.
  - intros input_data Hin Hout. unfold _validate_job_data.
    cbn [truthy]. rewrite (size_lookup_nonzero _ _ _ Hin).
    cbn [negb when]. unfold required_sections, for_each, py_contains, has_key.
    rewrite Hin, Hout. reflexivity.
  - intros Hne Hin Hout. unfold _validate_job_data. cbn [truthy].
    assert (Hsize : (size d =? 0) = false).
    { apply Nat.eqb_neq. intros Hz. apply map_size_empty_iff in Hz. exact (Hne Hz). }
    rewrite Hsize. cbn [negb when].
    unfold required_sections, for_each, py_contains, has_key.
    rewrite Hin. reflexivity.
Qed.

(** The checks of the other sections do not read the combine section. *)
Lemma validate_input_section_combine (c : value) (d : gmap string value) :
  _validate_input_section P (VDict (<["combine" := c]> d)) =
  _validate_input_section P (VDict d).
Proof.
  unfold _validate_input_section, py_getitem.
  rewrite lookup_insert_ne by done. reflexivity.
Qed.

Lemma validate_output_section_combine (c : value) (d : gmap string value) :
  _validate_output_section P (VDict (<["combine" := c]> d)) =
  _validate_output_section P (VDict d).
Proof.
  unfold _validate_output_section, py_getitem.
  rewrite lookup_insert_ne by done. reflexivity.
Qed.

Lemma validate_options_section_combine (c : value) (d : gmap string value) :
  _validate_options_section P (VDict (<["combine" := c]> d)) =
  _validate_options_section P (VDict d).
Proof.
  unfold _validate_options_section, py_getitem.
  rewrite lookup_insert_ne by done. reflexivity.
Qed.

Lemma validate_documents_section_combine (c : value) (d : gmap string value) :
  _validate_documents_section P (VDict (<["combine" := c]> d)) =
  _validate_documents_section P (VDict d).
Proof.
  unfold _validate_documents_section, py_getitem.
  rewrite !(lookup_insert_ne _ "combine" "documents") by done.
  rewrite !(lookup_insert_ne _ "combine" "input") by done.
  reflexivity.
Qed.

(** What the combine check returns on a mapping with a boolean [enabled]. *)
Lemma validate_combine_section_bool (d combine_data : gmap string value)
    (enabled : bool) (t : list event) :
  d !! "combine" = Some (VDict combine_data) →
  combine_data !! "enabled" = Some (VBool enabled) →
  _validate_combine_section (VDict d) t =
    (if enabled && negb (has_key "output_file" combine_data)
     then Raise (ValueError
       "Missing required field: combine.output_file when combine.enabled is true")
     else Ok (), t).
Proof.
  intros Hc He. unfold _validate_combine_section, py_getitem, py_contains, has_key, bind, lift.
  rewrite Hc. cbn [isinstance_dict negb when ret]. rewrite He.
  cbn [isinstance_bool negb when ret truthy].
  destruct enabled; [| reflexivity].
  destruct (combine_data !! "output_file"); reflexivity.
Qed.

(** A combine section that passes its check is a mapping whose [enabled] is
    a boolean, with [output_file] present when it is true. *)
Lemma validate_combine_section_ok (d : gmap string value) (c : value)
    (t t' : list event) (u : unit) :
  d !! "combine" = Some c →
  _validate_combine_section (VDict d) t = (Ok u, t') →
  ∃ (combine_data : gmap string value) (enabled : bool),
    c = VDict combine_data ∧
    combine_data !! "enabled" = Some (VBool enabled) ∧
    (enabled = true → is_Some (combine_data !! "output_file")).
Proof.
  intros Hc. unfold _validate_combine_section, py_getitem, py_contains, has_key, bind, lift.
  rewrite Hc. destruct c as [| | | | | cd]; cbn [isinstance_dict negb when raise];
    try discriminate.
  cbn [ret]. destruct (cd !! "enabled") as [en |] eqn:He;
    cbn [negb when raise ret]; [| discriminate].
  destruct en as [| b | | | |]; cbn [isinstance_bool negb when raise ret];
    try discriminate.
  intros H. exists cd, b. split; [reflexivity | split; [exact He |]].
  intros ->. cbn [truthy ret] in H.
  destruct (cd !! "output_file"); [eauto | discriminate H].
Qed.

(** C7.  With a combine section present, validation succeeds only if the
    section is a mapping whose [enabled] is a boolean and whose
    [output_file] is present when [enabled] is true; and adding a combine
    section with a boolean [enabled] to a job that validates fails exactly
    when [enabled] is true and [output_file] is missing. *)
Theorem validate_combine_section_spec (d : gmap string value) (t t' : list event) :
  (∀ c : value,
     d !! "combine" = Some c →
     _validate_job_data P (VDict d) t = (Ok (), t') →
     ∃ (combine_data : gmap string value) (enabled : bool),
       c = VDict combine_data ∧
       combine_data !! "enabled" = Some (VBool enabled) ∧
       (enabled = true → is_Some (combine_data !! "output_file"))) ∧
  (∀ (combine_data : gmap string value) (enabled : bool),
     d !! "combine" = None →
     _validate_job_data P (VDict d) t = (Ok (), t') →
     combine_data !! "enabled" = Some (VBool enabled) →
     _validate_job_data P (VDict (<["combine" := VDict combine_data]> d)) t =
       (if enabled && negb (has_key "output_file" combine_data)
        then Raise (ValueError
          "Missing required field: combine.output_file when combine.enabled is true")
        else Ok (), t')).
Proof.
  split.
  - intros c Hc Hvalid. unfold _validate_job_data in Hvalid.
    do 8 (apply bind_ok_inv in Hvalid as (? & ? & _ & Hvalid)).
    apply bind_ok_inv in Hvalid as (has & ? & Hhas & Hvalid).
    apply lift_ok_inv in Hhas as [Hhas ->].
    unfold py_contains, has_key in Hhas. rewrite Hc in Hhas. injection Hhas as <-.
    cbn [when] in Hvalid. eapply validate_combine_section_ok; eassumption.
  - intros combine_data enabled Hnone Hvalid Hen.
    unfold _validate_job_data in *.
    rewrite validate_input_section_combine, validate_output_section_combine,
      validate_options_section_combine, validate_documents_section_combine.
    apply bind_ok_inv in Hvalid as (? & ? & Hstep & Hvalid).
    apply when_ok_inv in Hstep as [Htruthy ->].
    assert (truthy (VDict (<["combine" := VDict combine_data]> d)) = true) as ->.
    { cbn [truthy]. erewrite size_lookup_nonzero; [done | apply lookup_insert_eq]. }
    cbn [negb]. rewrite (bind_ok _ _ t t ()) by reflexivity.
    unfold required_sections, for_each, py_contains, has_key in *.
    rewrite !(lookup_insert_ne _ "combine" "input") by done.
    rewrite !(lookup_insert_ne _ "combine" "output") by done.
    rewrite !(lookup_insert_ne _ "combine" "options") by done.
    rewrite !(lookup_insert_ne _ "combine" "documents") by done.
    rewrite lookup_insert_eq. rewrite Hnone in Hvalid.
    do 7 (apply bind_ok_inv in Hvalid as (? & ? & Hstep & Hvalid);
          rewrite (bind_ok _ _ _ _ _ Hstep); clear Hstep).
    apply bind_ok_inv in Hvalid as (? & ? & Hstep & Hvalid).
    apply lift_ok_inv in Hstep as [Hhas ->]. injection Hhas as <-.
    cbn [when ret] in Hvalid. injection Hvalid as ->.
    rewrite (bind_ok _ _ _ _ true) by reflexivity. cbn [when].
    apply validate_combine_section_bool; [apply lookup_insert_eq | exact Hen].
Qed.
End Validation.

Section ValidationExamples.
Import JobParser Example.

(** The empty mapping. *)
Lemma validate_empty_job_witness :
  _validate_job_data host (VDict ∅) [] = (Raise (ValueError "Job data is empty"), []).
Proof. apply (validate_empty_job host). reflexivity. Defined.

(** Only an output section, with the unknown format [docx]. *)
Lemma validate_missing_section_first_witness :
  _validate_job_data host (VDict job_without_input) [] =
    (Raise (ValueError "Missing required section: input"), []).
Proof.
  apply (proj1 (validate_missing_section_first host job_without_input [])
           (section [("directory", VStr "out"); ("format", VStr "docx")]));
    reflexivity.
Defined.

(** Only an options section: of the two missing sections, input is the
    one reported. *)
Example validate_both_sections_missing :
  _validate_job_data host (VDict {["options" := VDict ∅]}) [] =
    (Raise (ValueError "Missing required section: input"), []).
Proof. reflexivity. Qed.

(** A valid job, plus a combine section that is enabled and names no
    output file. *)
Lemma validate_combine_section_spec_witness :
  _validate_job_data host
    (VDict (<["combine" := section [("enabled", VBool true)]]> md_to_pdf_job)) [] =
    (Raise (ValueError
       "Missing required field: combine.output_file when combine.enabled is true"), []).
Proof.
  exact (proj2 (validate_combine_section_spec host md_to_pdf_job [] [])
           (list_to_map [("enabled", VBool true)]) true eq_refl eq_refl eq_refl).
Defined.

Example validate_combine_disabled :
  validate host
    (VDict (<["combine" := section [("enabled", VBool false)]]> md_to_pdf_job)) = Ok ().
Proof. reflexivity. Qed.

Example validate_combine_enabled_with_output :
  validate host
    (VDict (<["combine" := section [("enabled", VBool true);
                                    ("output_file", VStr "out/book.pdf")]]>
              md_to_pdf_job)) = Ok ().
Proof. reflexivity. Qed.

Example validate_combine_enabled_not_boolean :
  validate host
    (VDict (<["combine" := section [("enabled", VStr "yes");
                                    ("output_file", VStr "out/book.pdf")]]>
              md_to_pdf_job)) = Raise (ValueError "combine.enabled must be a boolean").
Proof. reflexivity. Qed.
End ValidationExamples.

(** ** Input gathering *)

Section Gathering.
Import ConversionManager.
Context `{U : Unicode}.
Context (P : Platform).

Lemma emitted_emitted (evs1 evs2 : list event) (w : world) :
  emitted evs2 (emitted evs1 w) = emitted (evs1 ++ evs2) w.
Proof. unfold emitted. cbn. rewrite app_assoc. reflexivity. Qed.

Lemma emitted_nil (w : world) : emitted [] w = w.
Proof. destruct w. unfold emitted. cbn. rewrite app_nil_r. reflexivity. Qed.

Lemma with_input_files_same (w : world) : with_input_files (input_files (self w)) w = w.
Proof. destruct w as [[] ?]. reflexivity. Qed.

(** The [for file_path in input_data['files']] loop on a list of strings. *)
Lemma gather_files_loop (paths : list string) (w : world) :
  for_each (VStr <$> paths)
    (λ file_path,
       found <- lift (os_path_exists P file_path) ;;
       if found then append_input_file file_path
       else print ("Warning: Input file not found: " +:+ fmt P file_path)) w =
  (Ok (),
   emitted (missing_warnings P "Warning: Input file not found: " paths)
     (with_input_files
        (input_files (self w) ++ (VStr <$> List.filter (exists_path P) paths)) w)).
Proof.
  revert w. induction paths as [| path paths IH]; intros w.
  - cbn. rewrite app_nil_r, with_input_files_same, emitted_nil. reflexivity.
  - cbn [fmap list_fmap for_each]. unfold bind at 1. unfold bind at 1.
    unfold lift, os_path_exists, missing_warnings. cbn [List.filter].
    destruct (exists_path P path) eqn:Hfound; cbn [negb].
    + unfold append_input_file, bind, gets, set_input_files, modify.
      fold (@bind world). rewrite IH. unfold missing_warnings.
      cbn [with_input_files self input_files emitted trace job_data output_files].
      cbn [fmap list_fmap]. rewrite <- app_assoc. reflexivity.
    + unfold print, emit, modify. cbn [fmt].
      change (record_event ?e w) with (emitted [e] w).
      rewrite IH. unfold missing_warnings.
      cbn [fmap list_fmap]. unfold emitted, with_input_files. cbn.
      rewrite <- app_assoc. reflexivity.
Qed.
(** C9.  With [files] and no [directory] in the input section, the gathered
    files are the listed paths that exist, in listed order, one warning
    being printed for each missing path; no other section of the job is
    read, so a [documents] section has no effect. *)
Theorem gather_files_ignores_documents (d input_data : gmap string value)
    (format : string) (paths : list string) (m : manager) (t : list event) :
  job_data m = VDict d →
  d !! "input" = Some (VDict input_data) →
  input_data !! "format" = Some (VStr format) →
  input_data !! "directory" = None →
  input_data !! "files" = Some (VList (VStr <$> paths)) →
  _gather_input_files P {| self := m; trace := t |} =
    (Ok (),
     {| self := {| job_data := VDict d;
                   input_files := VStr <$> List.filter (exists_path P) paths;
                   output_files := output_files m |};
        trace := t ++ ECall "_gather_input_files" []
                   :: missing_warnings P "Warning: Input file not found: " paths
                   ++ [found_message (length (List.filter (exists_path P) paths))] |}).
Proof.
  intros Hjob Hinput Hformat Hdir Hfiles. unfold _gather_input_files.
  do 2 run_step. cbn [record_event world_traced self trace]. rewrite Hjob.
  rewrite (getitem_ok _ _ _ Hinput). run_step.
  rewrite (getitem_ok _ _ _ Hformat). run_step.
  cbn [py_lower]. run_step.
  rewrite (contains_none _ _ Hdir). run_step.
  rewrite (contains_some _ _ _ Hfiles). rewrite bind_assoc. run_step.
  rewrite bind_assoc. unfold set_input_files at 1. run_step.
  rewrite bind_assoc. rewrite (getitem_ok _ _ _ Hfiles). run_step.
  rewrite bind_assoc. cbn [py_iter]. run_step.
  unfold bind at 1. rewrite gather_files_loop.
  run_step. unfold print, emit, modify, emitted, with_input_files, found_message.
  cbn. rewrite Hjob, length_fmap. unfold record_event, world_traced.
  cbn [self trace]. rewrite <- !app_assoc. reflexivity.
Qed.
(** The [for doc in documents] loop on entries that each declare a file. *)
Lemma order_documents_declared (dir : string) (docs : list value)
    (names : list string) :
  Forall2 declares docs names →
  ∀ (acc : list (string * value)) (w : world),
  ∃ ordered : list (string * value),
    order_documents P (VStr dir) docs acc w =
      (Ok ordered,
       emitted (missing_warnings P "Warning: Document file not found: "
                  (path_join dir <$> names)) w) ∧
    ordered.*1 = acc.*1 ++ List.filter (exists_path P) (path_join dir <$> names).
Proof.
  induction 1 as [| doc name docs names (fields & -> & Hfile) _ IH]; intros acc w.
  - exists acc. cbn. rewrite emitted_nil, app_nil_r. done.
  - cbn [order_documents]. rewrite (getitem_ok _ _ _ Hfile). run_step.
    cbn [os_path_join]. run_step. cbn [os_path_exists]. run_step.
    unfold missing_warnings. cbn [fmap list_fmap List.filter].
    destruct (exists_path P (path_join dir name)) eqn:Hfound; cbn [negb].
    + cbn [py_get]. run_step.
      destruct (IH (acc ++ [(path_join dir name,
                             match fields !! "title" with
                             | Some x => x
                             | None => VNone
                             end)]) w) as (ordered & Hrun & Hfst).
      exists ordered. split; [exact Hrun |].
      rewrite Hfst, fmap_app, <- app_assoc. reflexivity.
    + run_step. change (record_event ?e w) with (emitted [e] w).
      destruct (IH acc (emitted [EPrint ("Warning: Document file not found: "
                                         +:+ path_join dir name)] w))
        as (ordered & Hrun & Hfst).
      exists ordered. split; [| exact Hfst].
      rewrite Hrun, emitted_emitted. reflexivity.
Qed.

(** C5.  With a directory and a [documents] list whose entries each declare
    a file, the gathered files are the declared names joined to the
    directory, in declared order, those that do not exist being left out
    with one warning each; the directory listing does not contribute. *)
Theorem gather_documents_order (d input_data : gmap string value)
    (format dir : string) (docs : list value) (names : list string)
    (m : manager) (t : list event) :
  job_data m = VDict d →
  d !! "input" = Some (VDict input_data) →
  input_data !! "format" = Some (VStr format) →
  input_data !! "directory" = Some (VStr dir) →
  exists_path P dir = true →
  d !! "documents" = Some (VList docs) →
  Forall2 declares docs names →
  _gather_input_files P {| self := m; trace := t |} =
    (Ok (),
     {| self := {| job_data := VDict d;
                   input_files :=
                     VStr <$> List.filter (exists_path P) (path_join dir <$> names);
                   output_files := output_files m |};
        trace := t ++ ECall "_gather_input_files" []
                   :: missing_warnings P "Warning: Document file not found: "
                        (path_join dir <$> names)
                   ++ [found_message
                         (length (List.filter (exists_path P)
                                    (path_join dir <$> names)))] |}).
Proof.
  intros Hjob Hinput Hformat Hdir Hexists Hdocs Hdeclared.
  unfold _gather_input_files. run.
  cbn [record_event world_traced self trace]. rewrite Hjob.
  rewrite (getitem_ok _ _ _ Hinput). run.
  rewrite (getitem_ok _ _ _ Hformat). run.
  cbn [py_lower]. run.
  rewrite (contains_some _ _ _ Hdir). run.
  rewrite (getitem_ok _ _ _ Hdir). run.
  cbn [os_path_exists]. rewrite Hexists. run.
  cbn [negb]. run. cbn [os_path_join]. run.
  unfold set_input_files at 1. run.
  rewrite (contains_some _ _ _ Hdocs). run.
  rewrite (getitem_ok _ _ _ Hdocs). run.
  cbn [py_iter]. run.
  match goal with
  | |- bind (order_documents _ _ _ ?acc) _ ?w = _ =>
      destruct (order_documents_declared dir docs names Hdeclared acc w)
        as (ordered & Hrun & Hfst)
  end.
  rewrite (bind_ok _ _ _ _ _ Hrun). unfold set_input_files. run_step.
  run_step. unfold print, emit, modify, emitted, with_input_files, found_message.
  cbn. rewrite length_fmap. unfold record_event, world_traced.
  cbn [self trace]. rewrite Hjob, <- !app_assoc.
  cbn [fmap list_fmap app] in Hfst.
  replace ((λ f : string * value, VStr f.1) <$> ordered) with (VStr <$> ordered.*1)
    by (rewrite <- list_fmap_compose; reflexivity).
  rewrite <- (length_fmap fst ordered), Hfst. reflexivity.
Qed.

(** C4 (amended).  With an existing input directory and no [documents]
    section, the gathered files are the single-level listing that [glob]
    returns for the pattern [*] followed by the extension of the input
    format, in the order [glob] returns it; no sorting is applied. *)
Theorem gather_directory_glob (d input_data : gmap string value)
    (format dir : string) (m : manager) (t : list event) :
  job_data m = VDict d →
  d !! "input" = Some (VDict input_data) →
  input_data !! "format" = Some (VStr format) →
  input_data !! "directory" = Some (VStr dir) →
  exists_path P dir = true →
  d !! "documents" = None →
  let listing := glob P (path_join dir ("*" +:+ extension_of format)) in
  _gather_input_files P {| self := m; trace := t |} =
    (Ok (),
     {| self := {| job_data := VDict d;
                   input_files := VStr <$> listing;
                   output_files := output_files m |};
        trace := t ++ [ECall "_gather_input_files" [];
                       found_message (length listing)] |}).
Proof.
  intros Hjob Hinput Hformat Hdir Hexists Hdocs listing.
  unfold _gather_input_files. run.
  cbn [record_event world_traced self trace]. rewrite Hjob.
  rewrite (getitem_ok _ _ _ Hinput). run.
  rewrite (getitem_ok _ _ _ Hformat). run.
  cbn [py_lower]. run.
  rewrite (contains_some _ _ _ Hdir). run.
  rewrite (getitem_ok _ _ _ Hdir). run.
  cbn [os_path_exists]. rewrite Hexists. run.
  cbn [negb]. run. cbn [os_path_join]. run.
  unfold set_input_files at 1. run.
  rewrite (contains_none _ _ Hdocs). run.
  unfold print, emit, modify, with_input_files, found_message.
  cbn. rewrite length_fmap. unfold record_event, world_traced.
  cbn [self trace]. rewrite Hjob, <- !app_assoc. reflexivity.
Qed.
End Gathering.

Section GatheringExamples.
Import ConversionManager Example.

(** The listing of [docs], in the order of the OS. *)
Lemma gather_directory_glob_witness :
  _gather_input_files host {| self := __init__ (VDict docs_job); trace := [] |} =
    (Ok (),
     {| self := {| job_data := VDict docs_job;
                   input_files := [VStr "docs/b.md"; VStr "docs/a.md"; VStr "docs/c.md"];
                   output_files := [] |};
        trace := [ECall "_gather_input_files" []; EPrint "Found 3 input files"] |}).
Proof.
  exact (gather_directory_glob host docs_job
           (list_to_map [("directory", VStr "docs"); ("format", VStr "markdown")])
           "markdown" "docs" (__init__ (VDict docs_job)) []
           eq_refl eq_refl eq_refl eq_refl eq_refl eq_refl).
Defined.

(** The directory holds [a.md], [b.md] and [c.md]; the gathered list keeps
    the order of the listing and is not the sorted one. *)
Lemma gather_directory_not_sorted :
  exists_path host "docs" = true ∧
  docs_job !! "documents" = None ∧
  sort_strings (glob host "docs/*.md") = ["docs/a.md"; "docs/b.md"; "docs/c.md"] ∧
  input_files (self (snd (_gather_input_files host
                            {| self := __init__ (VDict docs_job); trace := [] |}))) =
    VStr <$> ["docs/b.md"; "docs/a.md"; "docs/c.md"] ∧
  input_files (self (snd (_gather_input_files host
                            {| self := __init__ (VDict docs_job); trace := [] |}))) ≠
    VStr <$> sort_strings (glob host "docs/*.md").
Proof.
  split; [reflexivity | split; [reflexivity | split; [reflexivity |]]].
  split; [reflexivity |]. vm_compute. discriminate.
Qed.

(** Declared order [c.md], [missing.md], [a.md]: the missing file is
    warned about, and [b.md] does not appear. *)
Lemma gather_documents_order_witness :
  _gather_input_files host {| self := __init__ (VDict ordered_job); trace := [] |} =
    (Ok (),
     {| self := {| job_data := VDict ordered_job;
                   input_files := [VStr "docs/c.md"; VStr "docs/a.md"];
                   output_files := [] |};
        trace := [ECall "_gather_input_files" [];
                  EPrint "Warning: Document file not found: docs/missing.md";
                  EPrint "Found 2 input files"] |}).
Proof.
  refine (gather_documents_order host ordered_job
            (list_to_map [("directory", VStr "docs"); ("format", VStr "markdown")])
            "markdown" "docs" ordered_docs ["c.md"; "missing.md"; "a.md"]
            (__init__ (VDict ordered_job)) []
            eq_refl eq_refl eq_refl eq_refl eq_refl eq_refl _).
  repeat constructor; eexists; split; reflexivity.
Defined.

(** Three listed files, one missing; the [documents] section names
    [b.md], which is not gathered. *)
Lemma gather_files_ignores_documents_witness :
  _gather_input_files host {| self := __init__ (VDict listed_job); trace := [] |} =
    (Ok (),
     {| self := {| job_data := VDict listed_job;
                   input_files := [VStr "docs/c.md"; VStr "docs/a.md"];
                   output_files := [] |};
        trace := [ECall "_gather_input_files" [];
                  EPrint "Warning: Input file not found: notes/x.md";
                  EPrint "Found 2 input files"] |}).
Proof.
  exact (gather_files_ignores_documents host listed_job
           (list_to_map [("files", VList [VStr "docs/c.md"; VStr "notes/x.md"; VStr "docs/a.md"]);
                         ("format", VStr "md")])
           "md" ["docs/c.md"; "notes/x.md"; "docs/a.md"]
           (__init__ (VDict listed_job)) []
           eq_refl eq_refl eq_refl eq_refl eq_refl).
Defined.
End GatheringExamples.

(** ** Combining a directory of PDF files *)

Section Combining.
Import PdfCombiner.
Context (P : Platform).
Context (combine_files : list string → string → M (list event) string).

Lemma order_files_spec (dir : string) (order acc : list string) (t : list event) :
  order_files P dir order acc t =
    (Ok (acc ++ List.filter (exists_path P) (path_join dir <$> order)),
     t ++ missing_warnings P "Warning: Ordered file not found: " (path_join dir <$> order)).
Proof.
  revert acc t. induction order as [| name order IH]; intros acc t.
  - cbn. rewrite !app_nil_r. reflexivity.
  - cbn [order_files fmap list_fmap]. unfold missing_warnings.
    cbn [List.filter]. destruct (exists_path P (path_join dir name)); cbn [negb].
    + rewrite IH, <- app_assoc. reflexivity.
    + rewrite bind_print. unfold record_event, trace_traced.
      rewrite IH, <- app_assoc. reflexivity.
Qed.

Lemma filter_not_in_snoc (acc rest : list string) (file : string) :
  file ∉ rest →
  List.filter (λ f, negb (bool_decide (f ∈ acc ++ [file]))) rest =
  List.filter (λ f, negb (bool_decide (f ∈ acc))) rest.
Proof.
  intros Hfresh. induction rest as [| x rest IH]; [reflexivity |].
  apply not_elem_of_cons in Hfresh as [Hne Hfresh]. cbn [List.filter].
  rewrite (IH Hfresh).
  replace (bool_decide (x ∈ acc ++ [file])) with (bool_decide (x ∈ acc)); [reflexivity |].
  apply bool_decide_ext. rewrite elem_of_app, list_elem_of_singleton.
  split; [by left | intros [H | H]; [exact H | congruence]].
Qed.

Lemma add_remaining_spec (listing acc : list string) :
  NoDup listing →
  add_remaining listing acc =
    acc ++ List.filter (λ f, negb (bool_decide (f ∈ acc))) listing.
Proof.
  intros Hnodup. revert acc.
  induction Hnodup as [| file rest Hfresh _ IH]; intros acc.
  - cbn. rewrite app_nil_r. reflexivity.
  - cbn [add_remaining List.filter]. destruct (bool_decide (file ∈ acc)); cbn [negb].
    + apply IH.
    + rewrite IH, filter_not_in_snoc by exact Hfresh.
      rewrite <- app_assoc. reflexivity.
Qed.

(** C8.  For an existing directory, the combiner is handed: without a file
    order (none, or an empty one), the matched files sorted by name; with a
    file order, the listed files that exist, in list order, followed by the
    matched files that are not among them, in listing order. *)
Theorem combine_directory_order (dir out pattern : string) (t : list event) :
  exists_path P dir = true →
  (∀ order : option (list string),
     order = None ∨ order = Some [] →
     combine_directory P combine_files dir out pattern order t =
       combine_files (sort_strings (glob P (path_join dir pattern))) out t) ∧
  Sorted str_le (sort_strings (glob P (path_join dir pattern))) ∧
  sort_strings (glob P (path_join dir pattern)) ≡ₚ glob P (path_join dir pattern) ∧
  (∀ order : list string,
     order ≠ [] →
     NoDup (glob P (path_join dir pattern)) →
     combine_directory P combine_files dir out pattern (Some order) t =
       combine_files
         (List.filter (exists_path P) (path_join dir <$> order) ++
          List.filter
            (λ f, negb (bool_decide
                          (f ∈ List.filter (exists_path P) (path_join dir <$> order))))
            (glob P (path_join dir pattern)))
         out
         (t ++ missing_warnings P "Warning: Ordered file not found: "
                 (path_join dir <$> order))).
Proof.
  intros Hexists. split; [| split; [| split]].
  - intros order [-> | ->]; unfold combine_directory; rewrite Hexists;
      cbn [negb]; run; reflexivity.
  - apply Sorted_merge_sort, _.
  - apply merge_sort_Permutation.
  - intros order Hne Hnodup. unfold combine_directory. rewrite Hexists.
    cbn [negb]. run. destruct order as [| name order]; [done |].
    rewrite bind_assoc, (bind_ok _ _ _ _ _ (order_files_spec _ _ _ _)).
    run. rewrite add_remaining_spec by exact Hnodup. reflexivity.
Qed.
End Combining.

Section CombiningExamples.
Import PdfCombiner Example.

(** Directory files [1.pdf], [2.pdf], [3.pdf] with the order [3.pdf],
    [1.pdf]: the combiner is handed [3.pdf], [1.pdf], [2.pdf]. *)
Lemma combine_directory_order_witness :
  combine_directory host record_combine "pdfs" "book.pdf" "*.pdf"
    (Some ["3.pdf"; "1.pdf"]) [] =
    (Ok "book.pdf",
     [ECall "combine_files"
        [VList [VStr "pdfs/3.pdf"; VStr "pdfs/1.pdf"; VStr "pdfs/2.pdf"];
         VStr "book.pdf"]]).
Proof.
  refine (proj2 (proj2 (proj2
            (combine_directory_order host record_combine "pdfs" "book.pdf" "*.pdf" []
               eq_refl))) ["3.pdf"; "1.pdf"] _ _).
  - discriminate.
  - apply (bool_decide_unpack (NoDup (glob host (path_join "pdfs" "*.pdf")))).
    vm_compute. exact I.
Defined.

Example combine_directory_skips_missing :
  combine_directory host record_combine "pdfs" "book.pdf" "*.pdf"
    (Some ["3.pdf"; "9.pdf"]) [] =
    (Ok "book.pdf",
     [EPrint "Warning: Ordered file not found: pdfs/9.pdf";
      ECall "combine_files"
        [VList [VStr "pdfs/3.pdf"; VStr "pdfs/1.pdf"; VStr "pdfs/2.pdf"];
         VStr "book.pdf"]]).
Proof. reflexivity. Qed.
End CombiningExamples.

(** ** Orchestration *)

Section Orchestration.
Import ConversionManager.
Context `{U : Unicode}.
Context (P : Platform).

Lemma resolver_free_ret {A} (a : A) : resolver_free (ret a).
Proof. intros w. exists []. cbn. rewrite app_nil_r. done. Qed.

Lemma resolver_free_raise {A} (e : exn) : resolver_free (raise (A := A) e).
Proof. intros w. exists []. cbn. rewrite app_nil_r. done. Qed.

Lemma resolver_free_lift {A} (r : result A) : resolver_free (lift r).
Proof. intros w. exists []. cbn. rewrite app_nil_r. done. Qed.

Lemma resolver_free_gets {A} (f : world → A) : resolver_free (gets f).
Proof. intros w. exists []. cbn. rewrite app_nil_r. done. Qed.

Lemma resolver_free_modify (f : world → world) :
  (∀ w, trace (f w) = trace w) → resolver_free (modify f).
Proof. intros Hf w. exists []. cbn. rewrite Hf, app_nil_r. done. Qed.

Lemma resolver_free_emit (e : event) :
  is_resolver_call e = false → resolver_free (emit e).
Proof. intros He w. exists [e]. cbn. split; [reflexivity | by constructor]. Qed.

Lemma resolver_free_print (line : string) : resolver_free (print line).
Proof. apply resolver_free_emit. reflexivity. Qed.

Lemma resolver_free_bind {A B} (c : M world A) (k : A → M world B) :
  resolver_free c → (∀ a, resolver_free (k a)) → resolver_free (bind c k).
Proof.
  intros Hc Hk w. destruct (Hc w) as (evs1 & Htrace1 & Hfree1).
  unfold bind. destruct (c w) as [[a | e] w1]; cbn [snd] in *.
  - destruct (Hk a w1) as (evs2 & Htrace2 & Hfree2).
    exists (evs1 ++ evs2). rewrite Htrace2, Htrace1, app_assoc.
    split; [reflexivity | by apply Forall_app].
  - exists evs1. done.
Qed.

Lemma resolver_free_when (b : bool) (c : M world unit) :
  resolver_free c → resolver_free (when b c).
Proof. intros Hc. destruct b; [exact Hc | apply resolver_free_ret]. Qed.

Lemma resolver_free_for_each {A} (l : list A) (body : A → M world unit) :
  (∀ x, resolver_free (body x)) → resolver_free (for_each l body).
Proof.
  intros Hbody. induction l as [| x l IH]; cbn [for_each].
  - apply resolver_free_ret.
  - apply resolver_free_bind; [apply Hbody | intros _; exact IH].
Qed.

Lemma resolver_free_makedirs (v : value) : resolver_free (os_makedirs P v).
Proof.
  destruct v; cbn [os_makedirs]; try apply resolver_free_raise.
  destruct (makedirs_err P s); [apply resolver_free_raise |].
  apply resolver_free_emit. reflexivity.
Qed.

Ltac resolver_free_step :=
  first [ apply resolver_free_bind; [| intros ?]
        | apply resolver_free_ret | apply resolver_free_raise
        | apply resolver_free_lift | apply resolver_free_gets
        | apply resolver_free_print
        | apply resolver_free_emit; reflexivity
        | apply resolver_free_modify; reflexivity
        | apply resolver_free_when
        | apply resolver_free_makedirs
        | apply resolver_free_for_each; intros ?
        | match goal with
          | |- resolver_free (if ?b then _ else _) => destruct b
          end ].

Lemma resolver_free_order_documents (input_dir : value) (docs : list value)
    (acc : list (string * value)) :
  resolver_free (order_documents P input_dir docs acc).
Proof.
  revert acc. induction docs as [| doc docs IH]; intros acc; cbn [order_documents].
  - apply resolver_free_ret.
  - repeat resolver_free_step; apply IH.
Qed.

Lemma resolver_free_gather : resolver_free (_gather_input_files P).
Proof.
  unfold _gather_input_files, append_input_file, set_input_files. cbv zeta.
  repeat first [ apply resolver_free_order_documents | resolver_free_step ].
Qed.

Lemma resolver_free_prepare : resolver_free (prepare_conversion P).
Proof.
  unfold prepare_conversion, _prepare_output_directories.
  repeat first [ apply resolver_free_gather | resolver_free_step ].
Qed.
Lemma prepare_output_directories_self (w : world) :
  self (snd (_prepare_output_directories P w)) = self w.
Proof.
  unfold _prepare_output_directories. run.
  destruct (py_getitem (job_data (self (record_event
              (ECall "_prepare_output_directories" []) w))) "output")
    as [output_data | e]; [| reflexivity].
  run. destruct (py_contains "directory" output_data) as [[|] | e];
    [| reflexivity | reflexivity].
  run. destruct (py_getitem output_data "directory") as [output_dir | e];
    [| reflexivity].
  run. destruct output_dir as [| | | path | |]; try reflexivity.
  cbn [os_makedirs]. destruct (makedirs_err P path); reflexivity.
Qed.

Lemma section_format_truthy (d : gmap string value) (key format : string) :
  section_format (VDict d) key = Ok format → truthy (VDict d) = true.
Proof.
  unfold section_format, py_getitem. destruct (d !! key) as [v |] eqn:Hkey;
    [| discriminate].
  intros _. cbn [truthy]. rewrite (size_lookup_nonzero _ _ _ Hkey). reflexivity.
Qed.

(** The copy pass itself: print, [_copy_files], return [self.output_files]. *)
Lemma copy_pass (format : string) (w : world) :
  (print ("Input and output formats are the same (" +:+ format
          +:+ "). Copying files...") ;;;
   _copy_files ;;;
   gets (λ w, output_files (self w))) w =
  (Ok (input_files (self w)),
   with_output_files (input_files (self w)) (emitted (copy_events format) w)).
Proof.
  unfold _copy_files, set_output_files. run.
  unfold gets, with_output_files, emitted, copy_events, record_event, world_traced.
  cbn. rewrite <- !app_assoc. reflexivity.
Qed.

(** With equal normalized formats, a run is: prepare if no file has been
    gathered yet, then the copy pass. *)
Lemma run_same_format (d : gmap string value) (a b : string)
    (m : manager) (t : list event) :
  job_data m = VDict d →
  section_format (VDict d) "input" = Ok a →
  section_format (VDict d) "output" = Ok b →
  normalize a = normalize b →
  run_conversion P {| self := m; trace := t |} =
    (when (match input_files m with [] => true | _ => false end)
       (prepare_conversion P) ;;;
     print ("Input and output formats are the same (" +:+ normalize a
            +:+ "). Copying files...") ;;;
     _copy_files ;;;
     gets (λ w, output_files (self w)))
      {| self := m; trace := t ++ [ECall "run_conversion" []] |}.
Proof.
  intros Hjob Hin Hout Hnorm. unfold run_conversion. run.
  cbn [record_event world_traced self trace]. rewrite Hjob.
  rewrite (section_format_truthy _ _ _ Hin). cbn [negb]. run.
  cbn [self input_files]. rewrite Hin, Hout.
  apply bind_ext. intros _ w1.
  run. rewrite Hnorm, String.eqb_refl. reflexivity.
Qed.

(** C2.  When the normalized input and output formats of the job are equal,
    a run never calls the path resolver, whatever its outcome.  If files
    were gathered before, the copy pass returns them; otherwise the run
    gathers, creates the output directory, and the copy pass returns
    exactly what the gatherer collected. *)
Theorem run_same_format_copies (d : gmap string value) (a b : string)
    (m : manager) (t : list event) :
  job_data m = VDict d →
  section_format (VDict d) "input" = Ok a →
  section_format (VDict d) "output" = Ok b →
  normalize a = normalize b →
  (∃ evs : list event,
     trace (snd (run_conversion P {| self := m; trace := t |})) = t ++ evs ∧
     Forall (λ e, is_resolver_call e = false) evs) ∧
  (input_files m ≠ [] →
   run_conversion P {| self := m; trace := t |} =
     (Ok (input_files m),
      with_output_files (input_files m)
        (emitted (ECall "run_conversion" [] :: copy_events (normalize a))
           {| self := m; trace := t |}))) ∧
  (input_files m = [] →
   ∀ gathered prepared : world,
     _gather_input_files P
       {| self := m;
          trace := t ++ [ECall "run_conversion" []; ECall "prepare_conversion" []] |} =
       (Ok (), gathered) →
     _prepare_output_directories P gathered = (Ok (), prepared) →
     run_conversion P {| self := m; trace := t |} =
       (Ok (input_files (self gathered)),
        with_output_files (input_files (self gathered))
          (emitted (copy_events (normalize a)) prepared))).
Proof.
  intros Hjob Hin Hout Hnorm.
  rewrite (run_same_format d a b m t Hjob Hin Hout Hnorm).
  split; [| split].
  - match goal with
    | |- context [snd (?c ?w)] =>
        assert (resolver_free c) as Hfree
    end.
    { unfold _copy_files, set_output_files.
      repeat first [ apply resolver_free_prepare | resolver_free_step ]. }
    destruct (Hfree {| self := m; trace := t ++ [ECall "run_conversion" []] |})
      as (evs & Htrace & Hevs).
    exists (ECall "run_conversion" [] :: evs). rewrite Htrace. cbn [trace].
    rewrite <- app_assoc. split; [reflexivity |]. constructor; [reflexivity | exact Hevs].
  - intros Hfiles. destruct (input_files m) as [| file files] eqn:Hlist; [done |].
    rewrite bind_when_false. cbn beta. rewrite copy_pass.
    cbn [self input_files]. rewrite Hlist.
    unfold with_output_files, emitted. cbn. rewrite Hlist, <- app_assoc. reflexivity.
  - intros Hfiles gathered prepared Hgather Hprepare. rewrite Hfiles.
    unfold prepare_conversion. run.
    cbn [record_event world_traced self trace]. rewrite Hjob.
    rewrite (section_format_truthy _ _ _ Hin). cbn [negb]. run.
    unfold record_event, world_traced. cbn [self trace].
    rewrite <- app_assoc. cbn [app].
    rewrite (bind_ok _ _ _ _ _ Hgather). cbn beta.
    rewrite (bind_ok _ _ _ _ _ Hprepare). cbn beta. rewrite copy_pass.
    pose proof (prepare_output_directories_self gathered) as Hself.
    rewrite Hprepare in Hself. cbn [snd] in Hself.
    unfold with_output_files. rewrite Hself. reflexivity.
Qed.
(** A section that passes its format check has a readable format. *)
Lemma validate_input_section_format (job : value) (t t' : list event) :
  JobParser._validate_input_section P job t = (Ok (), t') →
  ∃ a, section_format job "input" = Ok a ∧ a ∈ JobParser.valid_formats.
Proof.
  unfold JobParser._validate_input_section. intros H.
  apply bind_ok_inv in H as (input_data & ? & Hinput & H).
  apply lift_ok_inv in Hinput as [Hinput ->].
  do 5 (apply bind_ok_inv in H as (? & ? & _ & H)).
  apply bind_ok_inv in H as (format & ? & Hformat & H).
  apply lift_ok_inv in Hformat as [Hformat ->].
  apply bind_ok_inv in H as (lowered & ? & Hlower & H).
  apply lift_ok_inv in Hlower as [Hlower ->].
  apply when_ok_inv in H as [Hvalid _].
  exists lowered. unfold section_format. rewrite Hinput, Hformat, Hlower.
  split; [reflexivity |]. apply negb_false_iff, bool_decide_eq_true in Hvalid. exact Hvalid.
Qed.

Lemma validate_output_section_format (job : value) (t t' : list event) :
  JobParser._validate_output_section P job t = (Ok (), t') →
  ∃ b, section_format job "output" = Ok b ∧ b ∈ JobParser.valid_formats.
Proof.
  unfold JobParser._validate_output_section. intros H.
  apply bind_ok_inv in H as (output_data & ? & Houtput & H).
  apply lift_ok_inv in Houtput as [Houtput ->].
  do 5 (apply bind_ok_inv in H as (? & ? & _ & H)).
  apply bind_ok_inv in H as (format & ? & Hformat & H).
  apply lift_ok_inv in Hformat as [Hformat ->].
  apply bind_ok_inv in H as (lowered & ? & Hlower & H).
  apply lift_ok_inv in Hlower as [Hlower ->].
  apply when_ok_inv in H as [Hvalid _].
  exists lowered. unfold section_format. rewrite Houtput, Hformat, Hlower.
  split; [reflexivity |]. apply negb_false_iff, bool_decide_eq_true in Hvalid. exact Hvalid.
Qed.

(** Every job that validates is a mapping whose two formats can be read
    and are valid, so the hypotheses on the formats made above hold of
    every valid job. *)
Lemma valid_job_formats (job : value) (t t' : list event) :
  JobParser._validate_job_data P job t = (Ok (), t') →
  ∃ (d : gmap string value) (a b : string),
    job = VDict d ∧
    section_format job "input" = Ok a ∧ a ∈ JobParser.valid_formats ∧
    section_format job "output" = Ok b ∧ b ∈ JobParser.valid_formats.
Proof.
  unfold JobParser._validate_job_data. intros H.
  do 2 (apply bind_ok_inv in H as (? & ? & _ & H)).
  apply bind_ok_inv in H as ([] & ? & Hin & H).
  apply bind_ok_inv in H as ([] & ? & Hout & _).
  destruct (validate_input_section_format _ _ _ Hin) as (a & Ha & Hva).
  destruct (validate_output_section_format _ _ _ Hout) as (b & Hb & Hvb).
  destruct job as [| | | | | d]; try discriminate Ha.
  exists d, a, b. done.
Qed.
End Orchestration.

Section OrchestrationExamples.
Import ConversionManager Example.

Example copy_job_valid : JobParser.validate host (VDict copy_job) = Ok ().
Proof. reflexivity. Qed.

(** A first run on [docs]: gather, create [out], copy; the result is the
    gathered list. *)
Lemma run_same_format_copies_witness :
  run host (VDict copy_job) =
    (Ok [VStr "docs/b.md"; VStr "docs/a.md"; VStr "docs/c.md"],
     {| self := {| job_data := VDict copy_job;
                   input_files := [VStr "docs/b.md"; VStr "docs/a.md"; VStr "docs/c.md"];
                   output_files := [VStr "docs/b.md"; VStr "docs/a.md"; VStr "docs/c.md"] |};
        trace := [ECall "run_conversion" [];
                  ECall "prepare_conversion" [];
                  ECall "_gather_input_files" [];
                  EPrint "Found 3 input files";
                  ECall "_prepare_output_directories" [];
                  EMakedirs "out";
                  EPrint "Created output directory: out";
                  EPrint "Input and output formats are the same (markdown). Copying files...";
                  ECall "_copy_files" [];
                  EPrint "Copying files"] |}).
Proof.
  exact (proj2 (proj2 (run_same_format_copies host copy_job "markdown" "md"
                         (__init__ (VDict copy_job)) []
                         eq_refl eq_refl eq_refl eq_refl))
           eq_refl
           (snd (_gather_input_files host
                   {| self := __init__ (VDict copy_job);
                      trace := [ECall "run_conversion" []; ECall "prepare_conversion" []] |}))
           (snd (prepare_conversion host
                   {| self := __init__ (VDict copy_job);
                      trace := [ECall "run_conversion" []] |}))
           eq_refl eq_refl).
Defined.

(** Different formats do go through the path resolver. *)
Example run_md_to_html_resolves :
  ECall "_determine_conversion_path" [VStr "markdown"; VStr "html"]
    ∈ trace (snd (run host (VDict docs_job))).
Proof. vm_compute. repeat constructor. Qed.
End OrchestrationExamples.

(** ** Jobs synthesized from the command line *)

Section CommandLine.
Import Cli.
Context `{U : Unicode}.
Context (P : Platform).

(** C3.  The flags [--input-dir docs --from md --output-dir out --to pdf
    --combine] pass [validate_args], yet the job synthesized from them has
    [combine.enabled] true and no [combine.output_file], and the validator
    of job files rejects it. *)
Theorem cli_combine_without_output_file :
  validate_args combine_to_directory = true ∧
  parsed combine_to_directory ∧
  create_job_data_from_args combine_to_directory =
    VDict (list_to_map
      [("input", VDict (list_to_map [("directory", VStr "docs"); ("format", VStr "md")]));
       ("output", VDict (list_to_map [("directory", VStr "out"); ("format", VStr "pdf")]));
       ("options", VDict ∅);
       ("combine", VDict (list_to_map [("enabled", VBool true)]))]) ∧
  JobParser.validate P (create_job_data_from_args combine_to_directory) =
    Raise (ValueError
      "Missing required field: combine.output_file when combine.enabled is true").
Proof.
  split; [reflexivity | split; [| split; [reflexivity | reflexivity]]].
  split; intros f Hf; injection Hf as <-; unfold format_choices;
    rewrite !elem_of_cons; auto.
Qed.
(** What the other flag combinations give. *)

Lemma set_if_given_other (key key' : string) (a : option string)
    (d : gmap string value) :
  key ≠ key' → set_if_given key a d !! key' = d !! key'.
Proof.
  intros Hne. unfold set_if_given. destruct a as [s |]; [| reflexivity].
  destruct (given (Some s)); [| reflexivity]. apply lookup_insert_ne, Hne.
Qed.

Lemma set_if_given_same (key : string) (a : option string) (d : gmap string value) :
  given a = true → ∃ s, a = Some s ∧ set_if_given key a d !! key = Some (VStr s).
Proof.
  intros Hgiven. destruct a as [s |]; [| discriminate]. exists s.
  unfold set_if_given. rewrite Hgiven, lookup_insert_eq. done.
Qed.

Lemma set_if_given_strings (key key' : string) (a : option string)
    (d : gmap string value) (v : value) :
  (∀ v, d !! key' = Some v → ∃ s, v = VStr s) →
  set_if_given key a d !! key' = Some v → ∃ s, v = VStr s.
Proof.
  intros Hd. unfold set_if_given. destruct a as [s |]; [| apply Hd].
  destruct (given (Some s)); [| apply Hd].
  destruct (decide (key = key')) as [-> | Hne].
  - rewrite lookup_insert_eq. intros [= <-]. eauto.
  - rewrite lookup_insert_ne by exact Hne. apply Hd.
Qed.

Lemma choice_is_valid (f : string) :
  f ∈ format_choices → lower f ∈ JobParser.valid_formats.
Proof.
  unfold format_choices, JobParser.valid_formats. rewrite !elem_of_cons, elem_of_nil.
  intros [-> | [-> | [-> | [-> | [-> | []]]]]]; vm_compute (lower _); auto 10.
Qed.

Lemma validate_input_section_ok (d input : gmap string value) (f : string)
    (t : list event) :
  d !! "input" = Some (VDict input) →
  input !! "format" = Some (VStr f) →
  lower f ∈ JobParser.valid_formats →
  has_key "directory" input || has_key "files" input = true →
  JobParser._validate_input_section P (VDict d) t = (Ok (), t).
Proof.
  intros Hinput Hformat Hvalid Hsource. unfold JobParser._validate_input_section.
  rewrite (getitem_ok _ _ _ Hinput). run.
  rewrite (contains_some _ _ _ Hformat). run. cbn [negb]. run.
  cbn [py_contains]. run.
  destruct (has_key "directory" input); cbn [orb] in Hsource; run.
  - rewrite (getitem_ok _ _ _ Hformat). run. cbn [py_lower]. run.
    rewrite (bool_decide_eq_true_2 _ Hvalid). reflexivity.
  - rewrite Hsource. cbn [negb]. run.
    rewrite (getitem_ok _ _ _ Hformat). run. cbn [py_lower]. run.
    rewrite (bool_decide_eq_true_2 _ Hvalid). reflexivity.
Qed.

Lemma validate_output_section_ok (d output : gmap string value) (f : string)
    (t : list event) :
  d !! "output" = Some (VDict output) →
  output !! "format" = Some (VStr f) →
  lower f ∈ JobParser.valid_formats →
  has_key "directory" output || has_key "file" output = true →
  JobParser._validate_output_section P (VDict d) t = (Ok (), t).
Proof.
  intros Houtput Hformat Hvalid Hsource. unfold JobParser._validate_output_section.
  rewrite (getitem_ok _ _ _ Houtput). run.
  rewrite (contains_some _ _ _ Hformat). run. cbn [negb]. run.
  cbn [py_contains]. run.
  destruct (has_key "directory" output); cbn [orb] in Hsource; run.
  - rewrite (getitem_ok _ _ _ Hformat). run. cbn [py_lower]. run.
    rewrite (bool_decide_eq_true_2 _ Hvalid). reflexivity.
  - rewrite Hsource. cbn [negb]. run.
    rewrite (getitem_ok _ _ _ Hformat). run. cbn [py_lower]. run.
    rewrite (bool_decide_eq_true_2 _ Hvalid). reflexivity.
Qed.

Lemma fst_ok_run {A} (x : result A * list event) (a : A) :
  fst x = Ok a → ∃ t', x = (Ok a, t').
Proof. destruct x as [r t']. cbn. intros ->. eauto. Qed.

(** The options that the flags [--css], [--toc] and [--embed-images] build
    pass the options check; a missing CSS file is only warned about. *)
Lemma validate_options_cli (d : gmap string value) (css_arg : option string)
    (toc_arg embed_arg : bool) (t : list event) :
  let options : gmap string value := set_if_given "css" css_arg ∅ in
  let options := if toc_arg then <["toc" := VBool true]> options else options in
  let options :=
    if embed_arg then
      <["images" := VDict (<["formats" := VList (VStr <$> ["jpg"; "jpeg"; "png"; "webp"; "svg"])]>
                            (<["embed" := VBool true]> ∅))]> options
    else options in
  d !! "options" = Some (VDict options) →
  ∃ t', JobParser._validate_options_section P (VDict d) t = (Ok (), t').
Proof.
  intros options0 options1 options Hoptions. apply fst_ok_run.
  unfold JobParser._validate_options_section.
  rewrite (getitem_ok _ _ _ Hoptions). run.
  subst options options1 options0. unfold set_if_given. clear Hoptions.
  generalize P. intros [exists_p ? ? ? ?].
  destruct embed_arg, toc_arg, css_arg as [s |]; try destruct (given (Some s));
    vm_compute; try destruct (exists_p s); reflexivity.
Qed.

(** The [documents] that [--files] builds pass the documents check. *)
Lemma validate_documents_cli (d input : gmap string value) (names : list string)
    (t : list event) :
  d !! "documents" =
    Some (VList ((λ file, VDict (<["file" := VStr file]> ∅)) <$> names)) →
  d !! "input" = Some (VDict input) →
  (∀ v, input !! "directory" = Some v → ∃ s, v = VStr s) →
  ∃ t', JobParser._validate_documents_section P (VDict d) t = (Ok (), t').
Proof.
  intros Hdocs Hinput Hdir.
  assert ((∃ dir, input !! "directory" = Some (VStr dir)) ∨
          input !! "directory" = None) as Hcases.
  { destruct (input !! "directory") as [v |]; [left | right; reflexivity].
    destruct (Hdir v eq_refl) as [dir ->]. eauto. }
  unfold JobParser._validate_documents_section.
  rewrite (getitem_ok _ _ _ Hdocs). run. cbn [isinstance_list negb]. run.
  cbn [py_iter]. run. clear Hdocs Hdir.
  rewrite !(getitem_ok _ _ _ Hinput).
  destruct Hcases as [[dir Hv] | Hv].
  - generalize 0 as i. revert t.
    induction names as [| name names IH]; intros t i; [eexists; reflexivity |].
    cbn [fmap list_fmap for_enumerate]. run. cbn [isinstance_dict negb]. run.
    cbn [py_contains]. unfold has_key at 1. rewrite lookup_insert_eq. run.
    cbn [negb]. run. rewrite (contains_some _ _ _ Hv). run.
    rewrite (getitem_ok _ _ _ Hv). run.
    rewrite (getitem_ok _ "file" (VStr name)) by apply lookup_insert_eq. run.
    cbn [os_path_join]. run. cbn [os_path_exists]. run.
    destruct (exists_path P (path_join dir name)); cbn [negb]; run; apply IH.
  - generalize 0 as i. revert t.
    induction names as [| name names IH]; intros t i; [eexists; reflexivity |].
    cbn [fmap list_fmap for_enumerate]. run. cbn [isinstance_dict negb]. run.
    cbn [py_contains]. unfold has_key at 1. rewrite lookup_insert_eq. run.
    cbn [negb]. run. rewrite (contains_none _ _ Hv). run. apply IH.
Qed.

(** A job validates when its input and output sections are well formed
    and each optional section that is present passes its own check. *)
Lemma validate_job_by_sections (d input output : gmap string value)
    (fi fo : string) :
  d !! "input" = Some (VDict input) →
  input !! "format" = Some (VStr fi) →
  lower fi ∈ JobParser.valid_formats →
  has_key "directory" input || has_key "files" input = true →
  d !! "output" = Some (VDict output) →
  output !! "format" = Some (VStr fo) →
  lower fo ∈ JobParser.valid_formats →
  has_key "directory" output || has_key "file" output = true →
  (∀ t, ∃ t', when (has_key "options" d)
                (JobParser._validate_options_section P (VDict d)) t = (Ok (), t')) →
  (∀ t, ∃ t', when (has_key "documents" d)
                (JobParser._validate_documents_section P (VDict d)) t = (Ok (), t')) →
  (∀ t, ∃ t', when (has_key "combine" d)
                (JobParser._validate_combine_section (VDict d)) t = (Ok (), t')) →
  JobParser.validate P (VDict d) = Ok ().
Proof.
  intros Hinput Hfi Hvi Hsi Houtput Hfo Hvo Hso Hoptions Hdocuments Hcombine.
  unfold JobParser.validate, JobParser._validate_job_data.
  cbn [truthy]. rewrite (size_lookup_nonzero _ _ _ Hinput). cbn [negb]. run.
  unfold JobParser.required_sections. cbn [for_each].
  rewrite (contains_some _ _ _ Hinput). run. cbn [negb]. run.
  rewrite (contains_some _ _ _ Houtput). run. cbn [negb]. run.
  rewrite (bind_ok _ _ _ _ _
             (validate_input_section_ok d input fi [] Hinput Hfi Hvi Hsi)).
  rewrite (bind_ok _ _ _ _ _
             (validate_output_section_ok d output fo [] Houtput Hfo Hvo Hso)).
  cbn [py_contains]. run.
  destruct (Hoptions []) as [t1 H1]. rewrite (bind_ok _ _ _ _ _ H1). run.
  destruct (Hdocuments t1) as [t2 H2]. rewrite (bind_ok _ _ _ _ _ H2). run.
  destruct (Hcombine t2) as [t3 H3]. rewrite H3. reflexivity.
Qed.

(** X14.  Apart from [--combine] without [--output-file], every job
    synthesized from flags that [validate_args] accepts passes the
    validator. *)
Lemma cli_job_valid (a : args) :
  given (job_file a) = false →
  validate_args a = true →
  parsed a →
  (combine a = true → given (output_file a) = true) →
  JobParser.validate P (create_job_data_from_args a) = Ok ().
Proof.
  destruct a as [jf idir ifile from odir ofile to comb fl cs tc emb].
  unfold validate_args, parsed. cbn. intros -> Hargs [Hfrom Hto] Hcombine.
  destruct (given idir || given ifile) eqn:Hsource; [| discriminate].
  destruct (given odir || given ofile) eqn:Htarget; [| discriminate].
  destruct (given from) eqn:Hgfrom; [| discriminate].
  destruct (given to) eqn:Hgto; [| discriminate]. clear Hargs.
  unfold create_job_data_from_args. cbn [input_dir input_file from_format
    output_dir output_file to_format combine files css toc embed_images].
  cbv zeta.
  set (input_source :=
         if given idir then set_if_given "directory" idir ∅
         else match ifile with
              | Some f => if given ifile
                          then <["files" := VList [VStr f]]> (∅ : gmap string value)
                          else ∅
              | None => ∅
              end).
  set (input := set_if_given "format" from input_source).
  set (output_target :=
         if given odir then set_if_given "directory" odir ∅
         else set_if_given "file" ofile ∅).
  set (output := set_if_given "format" to output_target).
  set (options := if emb then _ else _).
  set (base := <["options" := VDict options]>
                 (<["output" := VDict output]> (<["input" := VDict input]> ∅))).
  (* the input section *)
  destruct (set_if_given_same "format" from input_source Hgfrom) as (fi & -> & Hfi).
  fold input in Hfi.
  assert (has_key "directory" input || has_key "files" input = true) as Hsi.
  { unfold has_key, input. rewrite !set_if_given_other by done. unfold input_source.
    destruct (given idir) eqn:Hgi.
    - destruct (set_if_given_same "directory" idir ∅ Hgi) as (s & _ & ->). reflexivity.
    - cbn [orb] in Hsource. destruct ifile as [f |]; [| discriminate].
      rewrite Hsource. rewrite lookup_insert_eq. apply orb_true_r. }
  assert (∀ v, input !! "directory" = Some v → ∃ s, v = VStr s) as Hdi.
  { intros v. unfold input. apply set_if_given_strings. clear v. intros v.
    unfold input_source. destruct (given idir).
    - apply set_if_given_strings. intros v'. rewrite lookup_empty. discriminate.
    - destruct ifile as [f |]; [destruct (given (Some f)) |];
        rewrite ?lookup_insert_ne by done; rewrite lookup_empty; discriminate. }
  (* the output section *)
  destruct (set_if_given_same "format" to output_target Hgto) as (fo & -> & Hfo).
  fold output in Hfo.
  assert (has_key "directory" output || has_key "file" output = true) as Hso.
  { unfold has_key, output. rewrite !set_if_given_other by done. unfold output_target.
    destruct (given odir) eqn:Hgo.
    - destruct (set_if_given_same "directory" odir ∅ Hgo) as (s & _ & ->). reflexivity.
    - cbn [orb] in Htarget.
      destruct (set_if_given_same "file" ofile ∅ Htarget) as (s & _ & ->).
      apply orb_true_r. }
  pose proof (choice_is_valid fi (Hfrom fi eq_refl)) as Hvi.
  pose proof (choice_is_valid fo (Hto fo eq_refl)) as Hvo.
  clearbody input output. clear Hfrom Hto input_source output_target Hsource Htarget.
  destruct comb.
  - (* --combine: the combine section carries the output file *)
    specialize (Hcombine eq_refl).
    destruct (set_if_given_same "output_file" ofile (<["enabled" := VBool true]> ∅) Hcombine)
      as (out & _ & Hout).
    set (combine_data := set_if_given "output_file" ofile (<["enabled" := VBool true]> ∅)) in *.
    assert (combine_data !! "enabled" = Some (VBool true)) as Henabled.
    { unfold combine_data. rewrite set_if_given_other by done. apply lookup_insert_eq. }
    clearbody combine_data.
    assert (∀ d : gmap string value,
              d !! "combine" = Some (VDict combine_data) →
              ∀ t, ∃ t', when (has_key "combine" d)
                           (JobParser._validate_combine_section (VDict d)) t = (Ok (), t'))
      as Hcombine_ok.
    { intros d Hd t. unfold has_key. rewrite Hd. cbn [when]. exists t.
      rewrite (validate_combine_section_bool d combine_data true t Hd Henabled).
      unfold has_key. rewrite Hout. reflexivity. }
    destruct fl as [[| name names] |]; cbn [given_list].
    + apply (validate_job_by_sections _ input output fi fo); try assumption.
      * subst base. rewrite !lookup_insert_ne by done. apply lookup_insert_eq.
      * subst base. rewrite !lookup_insert_ne by done. apply lookup_insert_eq.
      * intros t. unfold has_key. subst base.
        rewrite lookup_insert_ne, lookup_insert_eq by done. cbn [when].
        eapply validate_options_cli.
        rewrite lookup_insert_ne, lookup_insert_eq by done. reflexivity.
      * intros t. unfold has_key. subst base. rewrite !lookup_insert_ne by done.
        rewrite lookup_empty. eexists. reflexivity.
      * apply Hcombine_ok, lookup_insert_eq.
    + apply (validate_job_by_sections _ input output fi fo); try assumption.
      * subst base. rewrite !lookup_insert_ne by done. apply lookup_insert_eq.
      * subst base. rewrite !lookup_insert_ne by done. apply lookup_insert_eq.
      * intros t. unfold has_key. subst base.
        rewrite !(lookup_insert_ne _ _ "options") by done.
        rewrite lookup_insert_eq. cbn [when].
        eapply validate_options_cli.
        rewrite !(lookup_insert_ne _ _ "options") by done.
        rewrite lookup_insert_eq. reflexivity.
      * intros t. unfold has_key. rewrite lookup_insert_eq. cbn [when].
        eapply validate_documents_cli; [apply lookup_insert_eq | | exact Hdi].
        subst base. rewrite !lookup_insert_ne by done. apply lookup_insert_eq.
      * apply Hcombine_ok. rewrite lookup_insert_ne by done. apply lookup_insert_eq.
    + apply (validate_job_by_sections _ input output fi fo); try assumption.
      * subst base. rewrite !lookup_insert_ne by done. apply lookup_insert_eq.
      * subst base. rewrite !lookup_insert_ne by done. apply lookup_insert_eq.
      * intros t. unfold has_key. subst base.
        rewrite lookup_insert_ne, lookup_insert_eq by done. cbn [when].
        eapply validate_options_cli.
        rewrite lookup_insert_ne, lookup_insert_eq by done. reflexivity.
      * intros t. unfold has_key. subst base. rewrite !lookup_insert_ne by done.
        rewrite lookup_empty. eexists. reflexivity.
      * apply Hcombine_ok, lookup_insert_eq.
  - (* no combine section, and then no documents either *)
    apply (validate_job_by_sections _ input output fi fo); try assumption.
    + subst base. rewrite !lookup_insert_ne by done. apply lookup_insert_eq.
    + subst base. rewrite !lookup_insert_ne by done. apply lookup_insert_eq.
    + intros t. unfold has_key. subst base. rewrite lookup_insert_eq. cbn [when].
      eapply validate_options_cli. rewrite lookup_insert_eq. reflexivity.
    + intros t. unfold has_key. subst base. rewrite !lookup_insert_ne by done.
      rewrite lookup_empty. eexists. reflexivity.
    + intros t. unfold has_key. subst base. rewrite !lookup_insert_ne by done.
      rewrite lookup_empty. eexists. reflexivity.
Qed.
End CommandLine.

Section CommandLineExamples.
Import Cli Example.

(** The same job makes a run fail where the combine step reads the
    missing [output_file]. *)
Example run_combine_without_output_file :
  fst (ConversionManager.run host (create_job_data_from_args combine_to_directory)) =
    Raise (KeyError "output_file").
Proof. reflexivity. Qed.

(** With [--output-file] the synthesized job validates. *)
Example cli_combine_with_output_file :
  JobParser.validate host
    (create_job_data_from_args
       {| job_file := None; input_dir := Some "pdfs"; input_file := None;
          from_format := Some "pdf"; output_dir := None;
          output_file := Some "combined.pdf"; to_format := Some "pdf";
          combine := true; files := Some ["3.pdf"; "1.pdf"];
          css := None; toc := false; embed_images := false |}) = Ok ().
Proof. reflexivity. Qed.
End CommandLineExamples.

(** * Further properties of the validator *)

Section SectionChecks.
Import JobParser.
Context `{U : Unicode}.
Context (P : Platform).


(** X2.  The output section is checked in the same order, with [file] in
    the place of [files]. *)
Theorem validate_output_section_order (d output : gmap string value) (t : list event) :
  d !! "output" = Some (VDict output) →
  _validate_output_section P (VDict d) t =
    (match output !! "format" with
     | None => Raise (ValueError "Missing required field: output.format")
     | Some format =>
         if negb (has_key "directory" output || has_key "file" output) then
           Raise (ValueError "Either output.directory or output.file must be specified")
         else
           match format with
           | VStr f =>
               if bool_decide (lower f ∈ valid_formats) then Ok ()
               else Raise (ValueError
                      ("Invalid output format: " +:+ f
                       +:+ ". Must be one of: markdown, md, html, pdf, odt"))
           | _ => Raise AttributeError
           end
     end, t).
Proof.
  intros Houtput. unfold _validate_output_section.
  rewrite (getitem_ok _ _ _ Houtput). run. cbn [py_contains]. unfold has_key at 1.
  destruct (output !! "format") as [format |] eqn:Hformat; run; [| reflexivity].
  cbn [negb]. run. cbn [py_contains]. run.
  destruct (has_key "directory" output); cbn [orb negb]; run.
  - rewrite (getitem_ok _ _ _ Hformat). run.
    destruct format as [| | | f | |]; cbn [py_lower]; run; try reflexivity.
    destruct (bool_decide (lower f ∈ valid_formats)); reflexivity.
  - destruct (has_key "file" output); cbn [negb]; run; [| reflexivity].
    rewrite (getitem_ok _ _ _ Hformat). run.
    destruct format as [| | | f | |]; cbn [py_lower]; run; try reflexivity.
    destruct (bool_decide (lower f ∈ valid_formats)); reflexivity.
Qed.
End SectionChecks.

Section OptionalSections.
Import JobParser.
Context `{U : Unicode}.
Context (P : Platform).

(** The [for fmt in images_data['formats']] loop on a list of strings. *)
Lemma image_formats_loop (fmts : list string) (t : list event) :
  for_each (VStr <$> fmts)
    (λ f, lowered <- lift (py_lower f) ;;
          when (negb (bool_decide (lowered ∈ valid_image_formats)))
            (raise (ValueError ("Invalid image format: " +:+ fmt P f
                                +:+ must_be_one_of valid_image_formats)))) t =
  (match List.find (λ f, negb (bool_decide (lower f ∈ valid_image_formats))) fmts with
   | Some f => Raise (ValueError ("Invalid image format: " +:+ f
                                  +:+ ". Must be one of: jpg, jpeg, png, webp, svg"))
   | None => Ok ()
   end, t).
Proof.
  induction fmts as [| f fmts IH]; [reflexivity |].
  cbn [fmap list_fmap for_each List.find]. run. cbn [py_lower]. run.
  destruct (bool_decide (lower f ∈ valid_image_formats)); cbn [negb]; run.
  - exact IH.
  - reflexivity.
Qed.

(** X3.  In the images options, an [embed] that is not a boolean is
    rejected before the formats are looked at; otherwise a [formats] list
    of strings is accepted exactly when every entry, in lower case, is a
    known extension, and the error names the first entry that is not, as
    written. *)
Theorem validate_images_formats (images : gmap string value) (fmts : list string)
    (t : list event) :
  (∀ v, images !! "embed" = Some v → isinstance_bool v = false →
     _validate_images_section P (VDict images) t =
       (Raise (ValueError "options.images.embed must be a boolean"), t)) ∧
  ((∀ v, images !! "embed" = Some v → isinstance_bool v = true) →
   images !! "formats" = Some (VList (VStr <$> fmts)) →
   _validate_images_section P (VDict images) t =
     (match List.find (λ f, negb (bool_decide (lower f ∈ valid_image_formats))) fmts with
      | Some f => Raise (ValueError ("Invalid image format: " +:+ f
                                     +:+ ". Must be one of: jpg, jpeg, png, webp, svg"))
      | None => Ok ()
      end, t)).
Proof.
  split.
  - intros v Hembed Hbool. unfold _validate_images_section.
    rewrite (contains_some _ _ _ Hembed). run.
    rewrite (getitem_ok _ _ _ Hembed). run. rewrite Hbool. reflexivity.
  - intros Hembed Hformats. unfold _validate_images_section.
    destruct (images !! "embed") as [v |] eqn:Hv.
    + rewrite (contains_some _ _ _ Hv). run.
      rewrite (getitem_ok _ _ _ Hv). run. rewrite (Hembed v eq_refl). cbn [negb]. run.
      rewrite (contains_some _ _ _ Hformats). run.
      rewrite (getitem_ok _ _ _ Hformats). run. cbn [isinstance_list negb]. run.
      cbn [py_iter]. run. apply image_formats_loop.
    + rewrite (contains_none _ _ Hv). run.
      rewrite (contains_some _ _ _ Hformats). run.
      rewrite (getitem_ok _ _ _ Hformats). run. cbn [isinstance_list negb]. run.
      cbn [py_iter]. run. apply image_formats_loop.
Qed.

Lemma warn_if_missing_string (options : gmap string value) (key warning : string)
    (t : list event) :
  (∀ v, options !! key = Some v → ∃ s, v = VStr s) →
  warn_if_missing P (VDict options) key warning t =
    (Ok (), t ++ missing_warnings P warning (option_path options key)).
Proof.
  intros Hstring. unfold warn_if_missing, option_path.
  cbn [py_contains]. unfold has_key. run.
  destruct (options !! key) as [v |] eqn:Hv; run.
  - destruct (Hstring v eq_refl) as [s ->].
    rewrite (getitem_ok _ _ _ Hv). run. cbn [os_path_exists]. run.
    unfold missing_warnings. cbn [List.filter fmt].
    destruct (exists_path P s); cbn [negb when fmap list_fmap].
    + unfold ret. rewrite app_nil_r. reflexivity.
    + reflexivity.
  - unfold missing_warnings. cbn. rewrite app_nil_r. reflexivity.
Qed.

(** X4.  A CSS file or a cover page that does not exist never fails the
    options check: each missing one is warned about, CSS first, and the
    outcome is that of the images check, if there is an images section. *)
Theorem validate_options_warnings (d options : gmap string value) (t : list event) :
  d !! "options" = Some (VDict options) →
  (∀ v, options !! "css" = Some v → ∃ s, v = VStr s) →
  (∀ v, options !! "cover_page" = Some v → ∃ s, v = VStr s) →
  _validate_options_section P (VDict d) t =
    match options !! "images" with
    | Some images_data =>
        _validate_images_section P images_data
          (t ++ missing_warnings P "Warning: CSS file not found: "
                  (option_path options "css")
             ++ missing_warnings P "Warning: Cover page file not found: "
                  (option_path options "cover_page"))
    | None =>
        (Ok (),
         t ++ missing_warnings P "Warning: CSS file not found: "
                (option_path options "css")
           ++ missing_warnings P "Warning: Cover page file not found: "
                (option_path options "cover_page"))
    end.
Proof.
  intros Hoptions Hcss Hcover. unfold _validate_options_section.
  rewrite (getitem_ok _ _ _ Hoptions). run.
  rewrite (bind_ok _ _ _ _ _ (warn_if_missing_string options "css" _ t Hcss)).
  rewrite (bind_ok _ _ _ _ _ (warn_if_missing_string options "cover_page" _ _ Hcover)).
  rewrite <- app_assoc. cbn [py_contains]. unfold has_key. run.
  destruct (options !! "images") as [images_data |] eqn:Himages; run.
  - rewrite (getitem_ok _ _ _ Himages). run. reflexivity.
  - reflexivity.
Qed.
End OptionalSections.

Section DocumentsSection.
Import JobParser.
Context `{U : Unicode}.
Context (P : Platform).

Lemma validate_documents_section_loop (d : gmap string value) (docs : list value)
    (t : list event) :
  d !! "documents" = Some (VList docs) →
  _validate_documents_section P (VDict d) t =
    for_enumerate 0 docs (check_document P (VDict d)) t.
Proof.
  intros Hdocs. unfold _validate_documents_section.
  rewrite (getitem_ok _ _ _ Hdocs). run. cbn [isinstance_list negb]. run.
  cbn [py_iter]. run. reflexivity.
Qed.

(** Entries that declare a file pass, leaving one warning per missing file. *)
Lemma check_documents_declared (d input : gmap string value) (dir : string)
    (good : list value) (names : list string) :
  d !! "input" = Some (VDict input) →
  input !! "directory" = Some (VStr dir) →
  Forall2 ConversionManager.declares good names →
  ∀ (rest : list value) (i : nat) (t : list event),
    for_enumerate i (good ++ rest) (check_document P (VDict d)) t =
    for_enumerate (i + length good) rest (check_document P (VDict d))
      (t ++ missing_warnings P "Warning: Document file not found: "
              (path_join dir <$> names)).
Proof.
  intros Hinput Hdir.
  induction 1 as [| doc name good names (fields & -> & Hfile) _ IH]; intros rest i t.
  - cbn. rewrite Nat.add_0_r, app_nil_r. reflexivity.
  - cbn [app for_enumerate length]. unfold check_document at 1. run.
    cbn [isinstance_dict negb]. run. rewrite (contains_some _ _ _ Hfile). run.
    cbn [negb]. run. rewrite (getitem_ok _ _ _ Hinput). run.
    rewrite (contains_some _ _ _ Hdir). run.
    rewrite (getitem_ok _ _ _ Hdir). run. rewrite (getitem_ok _ _ _ Hfile). run.
    cbn [os_path_join]. run. cbn [os_path_exists]. run.
    unfold missing_warnings. cbn [fmap list_fmap List.filter].
    replace (i + S (length good)) with (S i + length good) by lia.
    destruct (exists_path P (path_join dir name)); cbn [negb]; run.
    + apply IH.
    + unfold record_event, trace_traced. rewrite IH.
      cbn [fmap list_fmap]. rewrite <- app_assoc. reflexivity.
Qed.

(** X5.  With an input directory, a [documents] list whose entries each
    declare a file always passes its check: every declared file that does
    not exist under the directory is warned about, in declared order, and
    nothing is raised. *)
Theorem validate_documents_missing_files (d input : gmap string value) (dir : string)
    (docs : list value) (names : list string) (t : list event) :
  d !! "documents" = Some (VList docs) →
  d !! "input" = Some (VDict input) →
  input !! "directory" = Some (VStr dir) →
  Forall2 ConversionManager.declares docs names →
  _validate_documents_section P (VDict d) t =
    (Ok (), t ++ missing_warnings P "Warning: Document file not found: "
                   (path_join dir <$> names)).
Proof.
  intros Hdocs Hinput Hdir Hdeclared.
  rewrite (validate_documents_section_loop d docs t Hdocs).
  rewrite <- (app_nil_r docs).
  rewrite (check_documents_declared d input dir docs names Hinput Hdir Hdeclared).
  reflexivity.
Qed.

(** X6.  The documents check stops at the first entry that is not a
    mapping or has no [file], and its error carries the index of that
    entry; the entries before it have been checked, and warned about,
    as usual. *)
Theorem validate_documents_first_bad (d input : gmap string value) (dir : string)
    (good rest : list value) (names : list string) (bad : value) (t : list event) :
  d !! "documents" = Some (VList (good ++ bad :: rest)) →
  d !! "input" = Some (VDict input) →
  input !! "directory" = Some (VStr dir) →
  Forall2 ConversionManager.declares good names →
  (isinstance_dict bad = false →
   _validate_documents_section P (VDict d) t =
     (Raise (ValueError ("Document at index " +:+ pretty (length good)
                         +:+ " must be an object")),
      t ++ missing_warnings P "Warning: Document file not found: "
             (path_join dir <$> names))) ∧
  (∀ fields : gmap string value,
     bad = VDict fields → fields !! "file" = None →
     _validate_documents_section P (VDict d) t =
       (Raise (ValueError ("Missing required field: documents["
                           +:+ pretty (length good) +:+ "].file")),
        t ++ missing_warnings P "Warning: Document file not found: "
               (path_join dir <$> names))).
Proof.
  intros Hdocs Hinput Hdir Hdeclared.
  rewrite (validate_documents_section_loop d _ t Hdocs).
  rewrite (check_documents_declared d input dir good names Hinput Hdir Hdeclared).
  cbn [Nat.add for_enumerate]. split.
  - intros Hbad. unfold check_document at 1. rewrite Hbad. reflexivity.
  - intros fields -> Hfile. unfold check_document at 1. run.
    cbn [isinstance_dict negb]. run. rewrite (contains_none _ _ Hfile). reflexivity.
Qed.
End DocumentsSection.

Section ValidatedJobs.
Import JobParser.
Context `{U : Unicode}.
Context (P : Platform).

Lemma getitem_ok_inv (v : value) (key : string) (x : value) :
  py_getitem v key = Ok x → ∃ d, v = VDict d ∧ d !! key = Some x.
Proof.
  destruct v as [| | | | | d]; try discriminate. unfold py_getitem.
  destruct (d !! key) as [y |] eqn:Hy; [| discriminate].
  intros [= <-]. eauto.
Qed.

Lemma validate_input_section_inv (job : value) (t t' : list event) :
  _validate_input_section P job t = (Ok (), t') →
  ∃ (d input : gmap string value) (f : string),
    job = VDict d ∧ d !! "input" = Some (VDict input) ∧
    input !! "format" = Some (VStr f) ∧ lower f ∈ valid_formats ∧
    has_key "directory" input || has_key "files" input = true.
Proof.
  unfold _validate_input_section. intros H.
  apply bind_ok_inv in H as (input_data & ? & Hinput & H).
  apply lift_ok_inv in Hinput as [Hinput ->].
  apply bind_ok_inv in H as (has_format & ? & _ & H).
  apply bind_ok_inv in H as (? & ? & _ & H).
  apply bind_ok_inv in H as (has_directory & ? & Hdir & H).
  apply lift_ok_inv in Hdir as [Hdir ->].
  apply bind_ok_inv in H as (neither & ? & Hneither & H).
  apply bind_ok_inv in H as (? & ? & Hwhen & H).
  apply when_ok_inv in Hwhen as [-> ->].
  apply bind_ok_inv in H as (format & ? & Hformat & H).
  apply lift_ok_inv in Hformat as [Hformat ->].
  apply bind_ok_inv in H as (lowered & ? & Hlower & H).
  apply lift_ok_inv in Hlower as [Hlower ->].
  apply when_ok_inv in H as [Hvalid _].
  apply getitem_ok_inv in Hinput as (d & -> & Hinput).
  apply getitem_ok_inv in Hformat as (input & -> & Hformat).
  destruct format as [| | | f | |]; try discriminate Hlower.
  injection Hlower as <-. exists d, input, f.
  split; [reflexivity | split; [exact Hinput | split; [exact Hformat |]]].
  split; [apply negb_false_iff, bool_decide_eq_true in Hvalid; exact Hvalid |].
  cbn [py_contains] in Hdir. injection Hdir as <-.
  destruct (has_key "directory" input); [reflexivity |].
  apply bind_ok_inv in Hneither as (has_files & ? & Hfiles & Hneither).
  apply lift_ok_inv in Hfiles as [Hfiles ->]. cbn [py_contains] in Hfiles.
  injection Hfiles as <-. unfold ret in Hneither. injection Hneither as Hneither _.
  apply negb_false_iff in Hneither. rewrite Hneither. reflexivity.
Qed.

Lemma validate_output_section_inv (job : value) (t t' : list event) :
  _validate_output_section P job t = (Ok (), t') →
  ∃ (d output : gmap string value) (f : string),
    job = VDict d ∧ d !! "output" = Some (VDict output) ∧
    output !! "format" = Some (VStr f) ∧ lower f ∈ valid_formats ∧
    has_key "directory" output || has_key "file" output = true.
Proof.
  unfold _validate_output_section. intros H.
  apply bind_ok_inv in H as (output_data & ? & Houtput & H).
  apply lift_ok_inv in Houtput as [Houtput ->].
  apply bind_ok_inv in H as (has_format & ? & _ & H).
  apply bind_ok_inv in H as (? & ? & _ & H).
  apply bind_ok_inv in H as (has_directory & ? & Hdir & H).
  apply lift_ok_inv in Hdir as [Hdir ->].
  apply bind_ok_inv in H as (neither & ? & Hneither & H).
  apply bind_ok_inv in H as (? & ? & Hwhen & H).
  apply when_ok_inv in Hwhen as [-> ->].
  apply bind_ok_inv in H as (format & ? & Hformat & H).
  apply lift_ok_inv in Hformat as [Hformat ->].
  apply bind_ok_inv in H as (lowered & ? & Hlower & H).
  apply lift_ok_inv in Hlower as [Hlower ->].
  apply when_ok_inv in H as [Hvalid _].
  apply getitem_ok_inv in Houtput as (d & -> & Houtput).
  apply getitem_ok_inv in Hformat as (output & -> & Hformat).
  destruct format as [| | | f | |]; try discriminate Hlower.
  injection Hlower as <-. exists d, output, f.
  split; [reflexivity | split; [exact Houtput | split; [exact Hformat |]]].
  split; [apply negb_false_iff, bool_decide_eq_true in Hvalid; exact Hvalid |].
  cbn [py_contains] in Hdir. injection Hdir as <-.
  destruct (has_key "directory" output); [reflexivity |].
  apply bind_ok_inv in Hneither as (has_file & ? & Hfile & Hneither).
  apply lift_ok_inv in Hfile as [Hfile ->]. cbn [py_contains] in Hfile.
  injection Hfile as <-. unfold ret in Hneither. injection Hneither as Hneither _.
  apply negb_false_iff in Hneither. rewrite Hneither. reflexivity.
Qed.

(** X7.  Whatever passes validation is a mapping whose input and output
    sections are mappings, each with a format that is a string naming a
    valid format (up to case) and with a source ([directory] or [files])
    respectively a destination ([directory] or [file]). *)
Theorem validated_job_shape (job : value) (t t' : list event) :
  _validate_job_data P job t = (Ok (), t') →
  ∃ (d input output : gmap string value) (fi fo : string),
    job = VDict d ∧
    d !! "input" = Some (VDict input) ∧
    input !! "format" = Some (VStr fi) ∧ lower fi ∈ valid_formats ∧
    has_key "directory" input || has_key "files" input = true ∧
    d !! "output" = Some (VDict output) ∧
    output !! "format" = Some (VStr fo) ∧ lower fo ∈ valid_formats ∧
    has_key "directory" output || has_key "file" output = true.
Proof.
  unfold _validate_job_data. intros H.
  do 2 (apply bind_ok_inv in H as (? & ? & _ & H)).
  apply bind_ok_inv in H as ([] & ? & Hin & H).
  apply bind_ok_inv in H as ([] & ? & Hout & _).
  apply validate_input_section_inv in Hin as (d & input & fi & -> & Hinput & Hfi & Hvi & Hsi).
  apply validate_output_section_inv in Hout
    as (d' & output & fo & [= <-] & Houtput & Hfo & Hvo & Hso).
  exists d, input, output, fi, fo. done.
Qed.
End ValidatedJobs.

(** * Further properties of the orchestrator *)

Section JobInvariant.
Import ConversionManager.
Context `{U : Unicode}.
Context (P : Platform).

Lemma keeps_job_ret {A} (a : A) : keeps_job (ret a).
Proof. intros w. reflexivity. Qed.

Lemma keeps_job_raise {A} (e : exn) : keeps_job (raise (A := A) e).
Proof. intros w. reflexivity. Qed.

Lemma keeps_job_lift {A} (r : result A) : keeps_job (lift r).
Proof. intros w. reflexivity. Qed.

Lemma keeps_job_gets {A} (f : world → A) : keeps_job (gets f).
Proof. intros w. reflexivity. Qed.

Lemma keeps_job_emit (e : event) : keeps_job (emit e).
Proof. intros w. reflexivity. Qed.

Lemma keeps_job_set_input_files (files : list value) : keeps_job (set_input_files files).
Proof. intros w. reflexivity. Qed.

Lemma keeps_job_set_output_files (files : list value) : keeps_job (set_output_files files).
Proof. intros w. reflexivity. Qed.

Lemma keeps_job_bind {A B} (c : M world A) (k : A → M world B) :
  keeps_job c → (∀ a, keeps_job (k a)) → keeps_job (bind c k).
Proof.
  intros Hc Hk w. specialize (Hc w). unfold bind.
  destruct (c w) as [[a | e] w1]; cbn [snd] in *.
  - rewrite (Hk a w1). exact Hc.
  - exact Hc.
Qed.

Lemma keeps_job_when (b : bool) (c : M world unit) : keeps_job c → keeps_job (when b c).
Proof. intros Hc. destruct b; [exact Hc | apply keeps_job_ret]. Qed.

Lemma keeps_job_for_each {A} (l : list A) (body : A → M world unit) :
  (∀ x, keeps_job (body x)) → keeps_job (for_each l body).
Proof.
  intros Hbody. induction l as [| x l IH]; cbn [for_each].
  - apply keeps_job_ret.
  - apply keeps_job_bind; [apply Hbody | intros _; exact IH].
Qed.

Lemma keeps_job_makedirs (v : value) : keeps_job (os_makedirs P v).
Proof.
  destruct v; cbn [os_makedirs]; try apply keeps_job_raise.
  destruct (makedirs_err P s); [apply keeps_job_raise | apply keeps_job_emit].
Qed.

Ltac keeps_job_step :=
  first [ apply keeps_job_bind; [| intros ?]
        | apply keeps_job_ret | apply keeps_job_raise
        | apply keeps_job_lift | apply keeps_job_gets
        | apply keeps_job_emit
        | apply keeps_job_set_input_files | apply keeps_job_set_output_files
        | apply keeps_job_when
        | apply keeps_job_makedirs
        | apply keeps_job_for_each; intros ?
        | match goal with
          | |- keeps_job (if ?b then _ else _) => destruct b
          | |- keeps_job (match ?x with _ => _ end) => destruct x
          end ].

Lemma keeps_job_order_documents (input_dir : value) (docs : list value)
    (acc : list (string * value)) :
  keeps_job (order_documents P input_dir docs acc).
Proof.
  revert acc. induction docs as [| doc docs IH]; intros acc; cbn [order_documents].
  - apply keeps_job_ret.
  - repeat first [ apply IH | keeps_job_step ].
Qed.

Lemma keeps_job_gather : keeps_job (_gather_input_files P).
Proof.
  unfold _gather_input_files, append_input_file, print. cbv zeta.
  repeat first [ apply keeps_job_order_documents | keeps_job_step ].
Qed.

Lemma keeps_job_prepare : keeps_job (prepare_conversion P).
Proof.
  unfold prepare_conversion, _prepare_output_directories, print.
  repeat first [ apply keeps_job_gather | keeps_job_step ].
Qed.

Lemma keeps_job_determine (a b : string) : keeps_job (_determine_conversion_path a b).
Proof. unfold _determine_conversion_path. repeat keeps_job_step. Qed.

(** X8.  A run never changes [self.job_data], whether it returns or
    raises, and whichever branch it takes. *)
Theorem run_conversion_keeps_job (w : world) :
  job_data (self (snd (run_conversion P w))) = job_data (self w).
Proof.
  revert w. change (keeps_job (run_conversion P)).
  unfold run_conversion, _copy_files, _convert_files, _combine_files, print.
  cbv zeta.
  repeat first [ apply keeps_job_prepare | apply keeps_job_determine | keeps_job_step ].
Qed.
End JobInvariant.

Section Routes.
Import ConversionManager.

Lemma resolve_ok_in_table (w : world) (src dst : string) (route : list string) :
  resolve w src dst = Ok route → ((src, dst), route) ∈ direct_paths.
Proof.
  unfold resolve, _determine_conversion_path. rewrite bind_emit. cbn beta.
  unfold direct_paths_dict.
  destruct (list_to_map direct_paths !! (src, dst)) as [steps |] eqn:Hlookup;
    [| discriminate].
  apply (elem_of_list_to_map_2 (M := gmap (string * string))) in Hlookup.
  destruct steps; [discriminate |]. cbn. intros [= <-]. exact Hlookup.
Qed.

(** X9.  Every route of the table starts at the source format and ends at
    the destination; it is either direct or passes through html alone, and
    then each of its two hops is itself a direct route of the table. *)
Theorem route_hops_are_direct (w : world) (src dst : string) (route : list string) :
  resolve w src dst = Ok route →
  head route = Some src ∧ last route = Some dst ∧
  (route = [src; dst] ∨
   route = [src; "html"; dst] ∧
   resolve w src "html" = Ok [src; "html"] ∧
   resolve w "html" dst = Ok ["html"; dst]).
Proof.
  intros Hroute. apply resolve_ok_in_table in Hroute. unfold direct_paths in Hroute.
  rewrite !elem_of_cons, elem_of_nil in Hroute.
  repeat destruct Hroute as [Hroute | Hroute]; try done;
    injection Hroute as -> -> ->;
    (split; [reflexivity | split; [reflexivity |]]);
    first [ left; reflexivity | right; repeat split; reflexivity ].
Qed.

Lemma determine_conversion_path_ok (w w' : world) (src dst : string)
    (route : list string) :
  resolve w src dst = Ok route →
  _determine_conversion_path src dst w' =
    (Ok route, emitted [ECall "_determine_conversion_path" [VStr src; VStr dst]] w').
Proof.
  unfold resolve, _determine_conversion_path. rewrite !bind_emit. cbn beta.
  destruct (direct_paths_dict !! (src, dst)) as [[| step steps] |]; try discriminate.
  cbn. intros [= <-]. reflexivity.
Qed.

Lemma determine_conversion_path_fails (w : world) (src dst : string) :
  ¬ (src ∈ formats ∧ dst ∈ formats ∧ src ≠ dst) →
  _determine_conversion_path src dst w =
    (Raise (ValueError (no_path_message src dst)),
     emitted [ECall "_determine_conversion_path" [VStr src; VStr dst]] w).
Proof.
  intros Hout. pose proof (resolve_outside_table w src dst Hout) as Hresolve.
  unfold resolve, _determine_conversion_path in *. rewrite bind_emit in *. cbn beta in *.
  destruct (direct_paths_dict !! (src, dst)) as [[| step steps] |]; try discriminate;
    reflexivity.
Qed.
End Routes.

Section ValidRoutes.
Import ConversionManager.
Context `{U : Unicode}.
Context (P : Platform).

(** X10.  A job that passes validation always has a way through: its two
    formats can be read, and after normalization they are either equal, so
    that the run copies, or joined by a route of the table, so that path
    resolution cannot fail. *)
Theorem valid_job_has_route (job : value) (t t' : list event) :
  JobParser._validate_job_data P job t = (Ok (), t') →
  ∃ a b : string,
    section_format job "input" = Ok a ∧
    section_format job "output" = Ok b ∧
    (normalize a = normalize b ∨
     ∃ route, ∀ w, resolve w (normalize a) (normalize b) = Ok route).
Proof.
  intros Hvalid.
  destruct (valid_job_formats P job t t' Hvalid) as (d & a & b & -> & Ha & Hva & Hb & Hvb).
  exists a, b. split; [exact Ha | split; [exact Hb |]].
  unfold JobParser.valid_formats in Hva, Hvb.
  rewrite !elem_of_cons, elem_of_nil in Hva, Hvb.
  destruct Hva as [-> | [-> | [-> | [-> | [-> | []]]]]];
    destruct Hvb as [-> | [-> | [-> | [-> | [-> | []]]]]];
    first [ left; reflexivity | right; eexists; intros w; reflexivity ].
Qed.
End ValidRoutes.

Section Runs.
Import ConversionManager.
Context `{U : Unicode}.
Context (P : Platform).

(** X11.  A first run on a job whose input directory does not exist raises
    the missing-directory error from the gatherer: the manager is left as
    it was and no output directory has been created. *)
Theorem run_missing_input_directory (d input : gmap string value)
    (format dir : string) (m : manager) (t : list event) :
  job_data m = VDict d →
  input_files m = [] →
  d !! "input" = Some (VDict input) →
  input !! "format" = Some (VStr format) →
  input !! "directory" = Some (VStr dir) →
  exists_path P dir = false →
  run_conversion P {| self := m; trace := t |} =
    (Raise (ValueError ("Input directory does not exist: " +:+ dir)),
     {| self := m;
        trace := t ++ [ECall "run_conversion" []; ECall "prepare_conversion" [];
                       ECall "_gather_input_files" []] |}).
Proof.
  intros Hjob Hfiles Hinput Hformat Hdir Hmissing. unfold run_conversion. run.
  cbn [record_event world_traced self trace]. rewrite Hjob. cbn [truthy].
  rewrite (size_lookup_nonzero _ _ _ Hinput). cbn [negb]. run.
  unfold record_event, world_traced. cbn [self input_files]. rewrite Hfiles. run.
  unfold prepare_conversion. run.
  unfold record_event, world_traced. cbn [self trace]. rewrite Hjob. cbn [truthy].
  rewrite (size_lookup_nonzero _ _ _ Hinput). cbn [negb]. run.
  unfold _gather_input_files. run.
  unfold record_event, world_traced. cbn [self trace]. rewrite Hjob.
  rewrite (getitem_ok _ _ _ Hinput). run.
  rewrite (getitem_ok _ _ _ Hformat). run. cbn [py_lower]. run.
  rewrite (contains_some _ _ _ Hdir). run.
  rewrite (getitem_ok _ _ _ Hdir). run.
  cbn [os_path_exists]. rewrite Hmissing. run. cbn [negb when fmt].
  unfold bind, raise. rewrite <- !app_assoc. reflexivity.
Qed.

(** With different normalized formats, a run is: prepare if needed, resolve
    the path, convert, and combine if the job enables it. *)
Lemma run_other_format (d : gmap string value) (a b : string)
    (m : manager) (t : list event) :
  job_data m = VDict d →
  section_format (VDict d) "input" = Ok a →
  section_format (VDict d) "output" = Ok b →
  normalize a ≠ normalize b →
  run_conversion P {| self := m; trace := t |} =
    (prepare_if_needed P ;;;
     conversion_path <- _determine_conversion_path (normalize a) (normalize b) ;;
     print ("Conversion path: " +:+ join_with " -> " conversion_path) ;;;
     _convert_files P conversion_path ;;;
     has_combine <- lift (py_contains "combine" (VDict d)) ;;
     enabled <- (if has_combine then
                   combine_data <- lift (py_getitem (VDict d) "combine") ;;
                   flag <- lift (py_get combine_data "enabled" (VBool false)) ;;
                   ret (truthy flag)
                 else ret false) ;;
     when enabled (_combine_files P) ;;;
     gets (λ w, output_files (self w)))
      {| self := m; trace := t ++ [ECall "run_conversion" []] |}.
Proof.
  intros Hjob Hin Hout Hnorm. unfold run_conversion, prepare_if_needed. run.
  cbn [record_event world_traced self trace]. rewrite Hjob.
  rewrite (section_format_truthy _ _ _ Hin). cbn [negb]. run.
  rewrite Hin, Hout. apply bind_ext. intros _ w1. run.
  apply String.eqb_neq in Hnorm. rewrite Hnorm. reflexivity.
Qed.

Lemma convert_files_run (route : list string) (w : world) :
  _convert_files P route w =
    (Ok (),
     with_output_files (input_files (self w))
       (emitted [ECall "_convert_files" [VList (VStr <$> route)];
                 EPrint ("Converting files: " +:+ py_repr P (VList (VStr <$> route)))] w)).
Proof.
  unfold _convert_files, set_output_files. run.
  unfold modify, with_output_files, emitted, record_event, world_traced.
  cbn. rewrite <- app_assoc. reflexivity.
Qed.

(** X12.  When the normalized formats differ and the table has a route, a
    run that is prepared (or whose preparation succeeds) resolves the
    route once and returns the gathered files, in order; with a combine
    section that is enabled and names an output file the combine step
    runs after the conversion, and the returned list is the same
    per-file list as without it. *)
Theorem run_converts_then_combines (d : gmap string value) (a b : string)
    (route : list string) (m : manager) (t : list event) (prepared : world) :
  job_data m = VDict d →
  section_format (VDict d) "input" = Ok a →
  section_format (VDict d) "output" = Ok b →
  normalize a ≠ normalize b →
  resolve prepared (normalize a) (normalize b) = Ok route →
  prepare_if_needed P {| self := m; trace := t ++ [ECall "run_conversion" []] |} =
    (Ok (), prepared) →
  (d !! "combine" = None →
   run_conversion P {| self := m; trace := t |} =
     (Ok (input_files (self prepared)),
      with_output_files (input_files (self prepared))
        (emitted (convert_events P (normalize a) (normalize b) route) prepared))) ∧
  (∀ (combine_data : gmap string value) (flag output_file : value),
     d !! "combine" = Some (VDict combine_data) →
     combine_data !! "enabled" = Some flag →
     truthy flag = true →
     combine_data !! "output_file" = Some output_file →
     run_conversion P {| self := m; trace := t |} =
       (Ok (input_files (self prepared)),
        with_output_files (input_files (self prepared))
          (emitted (convert_events P (normalize a) (normalize b) route
                    ++ combine_events P output_file) prepared))).
Proof.
  intros Hjob Hin Hout Hnorm Hroute Hprepared.
  rewrite (run_other_format d a b m t Hjob Hin Hout Hnorm).
  rewrite (bind_ok _ _ _ _ _ Hprepared).
  rewrite (bind_ok _ _ _ _ _
             (determine_conversion_path_ok prepared prepared _ _ route Hroute)).
  run. rewrite (bind_ok _ _ _ _ _ (convert_files_run route _)).
  assert (job_data (self prepared) = VDict d) as Hkept.
  { pose proof (keeps_job_bind
                  (gets (λ w, input_files (self w)))
                  (λ files, when (match files with [] => true | _ => false end)
                              (prepare_conversion P))
                  (keeps_job_gets _)
                  (λ files, keeps_job_when _ _ (keeps_job_prepare P))
                  {| self := m; trace := t ++ [ECall "run_conversion" []] |}) as Hkeep.
    unfold prepare_if_needed in Hprepared. rewrite Hprepared in Hkeep.
    cbn [snd self job_data] in Hkeep. rewrite Hkeep. exact Hjob. }
  split.
  - intros Hcombine. rewrite (contains_none _ _ Hcombine). run.
    unfold gets, with_output_files, emitted, convert_events, record_event, world_traced.
    cbn. rewrite <- !app_assoc. reflexivity.
  - intros combine_data flag output_file Hcombine Hflag Htruthy Hfile.
    rewrite (contains_some _ _ _ Hcombine). run.
    rewrite (getitem_ok _ _ _ Hcombine). run. cbn [py_get]. rewrite Hflag. run.
    rewrite Htruthy. run. unfold _combine_files. run.
    cbn [with_output_files emitted record_event world_traced self job_data trace].
    rewrite Hkept. rewrite (getitem_ok _ _ _ Hcombine). run.
    rewrite (getitem_ok _ _ _ Hfile). run.
    unfold gets, print, emit, modify, with_output_files, emitted, convert_events,
      combine_events, record_event, world_traced.
    cbn. rewrite <- !app_assoc. reflexivity.
Qed.

Lemma bind_raise_at {St A B} (c : M St A) (k : A → M St B) (s s1 : St) (e : exn) :
  c s = (Raise e, s1) → bind c k s = (Raise e, s1).
Proof. intros H. unfold bind. rewrite H. reflexivity. Qed.

(** X13.  When the normalized formats differ and the table has no route
    for them, the run raises the no-path error only after preparation:
    what preparation did, the created output directory included, stays
    done, and no file is converted. *)
Theorem run_no_route_after_prepare (d : gmap string value) (a b : string)
    (m : manager) (t : list event) (prepared : world) :
  job_data m = VDict d →
  section_format (VDict d) "input" = Ok a →
  section_format (VDict d) "output" = Ok b →
  normalize a ≠ normalize b →
  ¬ (normalize a ∈ formats ∧ normalize b ∈ formats) →
  prepare_if_needed P {| self := m; trace := t ++ [ECall "run_conversion" []] |} =
    (Ok (), prepared) →
  run_conversion P {| self := m; trace := t |} =
    (Raise (ValueError ("No conversion path available from " +:+ normalize a
                        +:+ " to " +:+ normalize b)),
     emitted [ECall "_determine_conversion_path"
                [VStr (normalize a); VStr (normalize b)]] prepared).
Proof.
  intros Hjob Hin Hout Hnorm Hunknown Hprepared.
  rewrite (run_other_format d a b m t Hjob Hin Hout Hnorm).
  rewrite (bind_ok _ _ _ _ _ Hprepared).
  rewrite (bind_raise_at _ _ _ _ _
             (determine_conversion_path_fails prepared _ _
                (λ H, Hunknown (conj (proj1 H) (proj1 (proj2 H)))))).
  reflexivity.
Qed.
End Runs.

(** * Further properties of the command line *)

Section SynthesizedJobs.
Import Cli.

Lemma has_key_set_if_given_other (key key' : string) (a : option string)
    (d : gmap string value) :
  key ≠ key' → has_key key' (set_if_given key a d) = has_key key' d.
Proof. intros Hne. unfold has_key. rewrite set_if_given_other by exact Hne. done. Qed.

Lemma has_key_set_if_given_same (key : string) (a : option string) :
  has_key key (set_if_given key a ∅) = given a.
Proof.
  unfold has_key, set_if_given. destruct a as [s |]; [| reflexivity].
  destruct (given (Some s)); [rewrite lookup_insert_eq | rewrite lookup_empty];
    reflexivity.
Qed.

(** X15.  The job synthesized from flags always has an input, an output
    and an options section.  A directory flag takes precedence over the
    corresponding file flag, which is then left out; a combine section is
    there exactly with [--combine], and a documents section exactly with
    [--combine] and a non-empty [--files]: without [--combine], [--files]
    is ignored. *)
Theorem cli_job_sections (a : args) :
  ∃ d input output options : gmap string value,
    create_job_data_from_args a = VDict d ∧
    d !! "input" = Some (VDict input) ∧
    d !! "output" = Some (VDict output) ∧
    d !! "options" = Some (VDict options) ∧
    has_key "directory" input = given (input_dir a) ∧
    has_key "files" input = negb (given (input_dir a)) && given (input_file a) ∧
    has_key "directory" output = given (output_dir a) ∧
    has_key "file" output = negb (given (output_dir a)) && given (output_file a) ∧
    has_key "combine" d = combine a ∧
    has_key "documents" d = combine a && given_list (files a).
Proof.
  destruct a as [jf idir ifile from odir ofile to comb fl cs tc emb].
  unfold create_job_data_from_args. cbn [input_dir input_file from_format
    output_dir output_file to_format combine files css toc embed_images].
  cbv zeta.
  set (input_source :=
         if given idir then set_if_given "directory" idir ∅
         else match ifile with
              | Some f => if given ifile
                          then <["files" := VList [VStr f]]> (∅ : gmap string value)
                          else ∅
              | None => ∅
              end).
  set (input := set_if_given "format" from input_source).
  set (output_target :=
         if given odir then set_if_given "directory" odir ∅
         else set_if_given "file" ofile ∅).
  set (output := set_if_given "format" to output_target).
  set (options := if emb then _ else _).
  set (base := <["options" := VDict options]>
                 (<["output" := VDict output]> (<["input" := VDict input]> ∅))).
  eexists _, input, output, options. split; [reflexivity |].
  assert (has_key "directory" input = given idir) as Hdi.
  { unfold input. rewrite has_key_set_if_given_other by done. unfold input_source.
    destruct (given idir) eqn:Hgi.
    - rewrite has_key_set_if_given_same. exact Hgi.
    - destruct ifile as [f |]; [destruct (given (Some f)) |]; reflexivity. }
  assert (has_key "files" input = negb (given idir) && given ifile) as Hfi.
  { unfold input. rewrite has_key_set_if_given_other by done. unfold input_source.
    destruct (given idir) eqn:Hgi; cbn [negb andb].
    - unfold has_key. rewrite set_if_given_other by done. reflexivity.
    - destruct ifile as [f |]; [| reflexivity].
      destruct (given (Some f)); unfold has_key;
        [rewrite lookup_insert_eq | rewrite lookup_empty]; reflexivity. }
  assert (has_key "directory" output = given odir) as Hdo.
  { unfold output. rewrite has_key_set_if_given_other by done. unfold output_target.
    destruct (given odir) eqn:Hgo.
    - rewrite has_key_set_if_given_same. exact Hgo.
    - unfold has_key. rewrite set_if_given_other by done. reflexivity. }
  assert (has_key "file" output = negb (given odir) && given ofile) as Hfo.
  { unfold output. rewrite has_key_set_if_given_other by done. unfold output_target.
    destruct (given odir) eqn:Hgo; cbn [negb andb].
    - unfold has_key. rewrite set_if_given_other by done. reflexivity.
    - apply has_key_set_if_given_same. }
  clearbody input output options.
  destruct comb; [destruct fl as [[| name names] |] |]; cbn [given_list andb];
    unfold has_key, base;
    repeat (rewrite lookup_insert_eq || rewrite lookup_insert_ne by done);
    rewrite ?lookup_empty; done.
Qed.
End SynthesizedJobs.

(** * Loading job files *)

Section JobFiles.
Import JobFile.
Context `{U : Unicode}.
Context (P : Platform) (L : Library).

Lemma first_with_extension_none (dir ext : string) (names : list string) :
  first_with_extension dir ext names = None ↔
  ∀ name, name ∈ names → PosixPath.ends_with ext name = false.
Proof.
  induction names as [| file names IH]; cbn [first_with_extension].
  - split; [intros _ name Hin; inversion Hin | done].
  - destruct (PosixPath.ends_with ext file) eqn:Hext.
    + split; [discriminate |]. intros Hall.
      rewrite (Hall file) in Hext by left. discriminate.
    + rewrite IH. split.
      * intros Hall name Hin. apply elem_of_cons in Hin as [-> | Hin]; auto.
      * intros Hall name Hin. apply Hall. by right.
Qed.

Lemma first_with_extension_some (dir ext path : string) (names : list string) :
  first_with_extension dir ext names = Some path →
  ∃ name, name ∈ names ∧ PosixPath.ends_with ext name = true ∧
          path = path_join dir name.
Proof.
  induction names as [| file names IH]; cbn [first_with_extension]; [discriminate |].
  destruct (PosixPath.ends_with ext file) eqn:Hext.
  - intros [= <-]. exists file. split; [by left | done].
  - intros H. destruct (IH H) as (name & Hin & Hname & ->).
    exists name. split; [by right | done].
Qed.

Lemma find_job_file_listed (dir : string) (names : list string) :
  listdir L dir = Ok names →
  find_job_file L dir =
    Ok (match first_with_extension dir ".yaml" names with
        | Some path => Some path
        | None =>
            match first_with_extension dir ".yml" names with
            | Some path => Some path
            | None => first_with_extension dir ".json" names
            end
        end).
Proof.
  intros Hlist. unfold find_job_file, job_file_extensions.
  cbn [find_with_extensions]. rewrite Hlist.
  destruct (first_with_extension dir ".yaml" names); [reflexivity |].
  destruct (first_with_extension dir ".yml" names); [reflexivity |].
  destruct (first_with_extension dir ".json" names); reflexivity.
Qed.

(** X16.  In a directory that can be listed, [find_job_file] finds nothing
    exactly when no entry ends in [.yaml], [.yml] or [.json]; what it
    finds is an entry of the listing with one of these endings, joined to
    the directory; and as soon as some entry ends in [.yaml], the result
    is a [.yaml] entry, wherever the others stand in the listing. *)
Theorem find_job_file_priority (dir : string) (names : list string) :
  listdir L dir = Ok names →
  (find_job_file L dir = Ok None ↔
   ∀ name ext, name ∈ names → ext ∈ job_file_extensions →
               PosixPath.ends_with ext name = false) ∧
  (∀ path, find_job_file L dir = Ok (Some path) →
     ∃ name ext, name ∈ names ∧ ext ∈ job_file_extensions ∧
                 PosixPath.ends_with ext name = true ∧ path = path_join dir name) ∧
  (∀ name, name ∈ names → PosixPath.ends_with ".yaml" name = true →
     ∃ first, first ∈ names ∧ PosixPath.ends_with ".yaml" first = true ∧
              find_job_file L dir = Ok (Some (path_join dir first))).
Proof.
  intros Hlist. rewrite (find_job_file_listed dir names Hlist).
  unfold job_file_extensions. split; [| split].
  - destruct (first_with_extension dir ".yaml" names) as [p |] eqn:Hyaml.
    { split; [discriminate |]. intros Hnone.
      apply first_with_extension_some in Hyaml as (name & Hin & Hext & _).
      rewrite (Hnone name ".yaml" Hin) in Hext by (rewrite !elem_of_cons; auto).
      discriminate. }
    destruct (first_with_extension dir ".yml" names) as [p |] eqn:Hyml.
    { split; [discriminate |]. intros Hnone.
      apply first_with_extension_some in Hyml as (name & Hin & Hext & _).
      rewrite (Hnone name ".yml" Hin) in Hext by (rewrite !elem_of_cons; auto).
      discriminate. }
    destruct (first_with_extension dir ".json" names) as [p |] eqn:Hjson.
    { split; [discriminate |]. intros Hnone.
      apply first_with_extension_some in Hjson as (name & Hin & Hext & _).
      rewrite (Hnone name ".json" Hin) in Hext by (rewrite !elem_of_cons; auto).
      discriminate. }
    split; [| reflexivity]. intros _ name ext Hin Hext.
    rewrite !elem_of_cons, elem_of_nil in Hext.
    destruct Hext as [-> | [-> | [-> | []]]];
      eapply first_with_extension_none; eassumption.
  - intros path Hfound.
    destruct (first_with_extension dir ".yaml" names) as [p |] eqn:Hyaml.
    { injection Hfound as ->.
      apply first_with_extension_some in Hyaml as (name & Hin & Hext & ->).
      exists name, ".yaml". rewrite !elem_of_cons. auto. }
    destruct (first_with_extension dir ".yml" names) as [p |] eqn:Hyml.
    { injection Hfound as ->.
      apply first_with_extension_some in Hyml as (name & Hin & Hext & ->).
      exists name, ".yml". rewrite !elem_of_cons. auto. }
    injection Hfound as Hjson.
    apply first_with_extension_some in Hjson as (name & Hin & Hext & ->).
    exists name, ".json". rewrite !elem_of_cons. auto 6.
  - intros name Hin Hext.
    destruct (first_with_extension dir ".yaml" names) as [p |] eqn:Hyaml.
    + apply first_with_extension_some in Hyaml as (first & Hfirst & Hfext & ->).
      exists first. done.
    + rewrite first_with_extension_none in Hyaml.
      rewrite (Hyaml name Hin) in Hext. discriminate.
Qed.

(** What [parse_file] returns has passed the validator. *)
Lemma parse_file_ok_inv (path : string) (job : value) (t t' : list event) :
  parse_file P L path t = (Ok job, t') →
  JobParser._validate_job_data P job t = (Ok (), t').
Proof.
  unfold parse_file. cbv zeta. intros H.
  apply bind_ok_inv in H as (? & t1 & Hexists & H).
  destruct (exists_path P path); [| discriminate Hexists].
  cbn [negb when] in Hexists. injection Hexists as _ <-.
  apply bind_ok_inv in H as (? & t2 & Hopen & H).
  destruct (open_err L path); [discriminate Hopen |]. injection Hopen as _ <-.
  apply bind_ok_inv in H as (loaded_job & t3 & Hload & H).
  assert (t3 = t) as ->.
  { revert Hload. unfold load_with.
    repeat match goal with
           | |- context [if ?b then _ else _] => destruct b
           | |- context [match ?x with _ => _ end] => destruct x
           end; try discriminate; by intros [= _ ->]. }
  apply bind_ok_inv in H as ([] & t4 & Hvalid & H).
  injection H as <- <-. exact Hvalid.
Qed.

(** X17.  A job that [parse_file] returns is the data that the YAML or the
    JSON loader produced for a file that exists, and it has passed the
    validator: nothing is returned unvalidated. *)
Theorem parse_file_validates (path : string) (job : value) (t t' : list event) :
  parse_file P L path t = (Ok job, t') →
  exists_path P path = true ∧
  (yaml_safe_load L path = Loaded job ∨ json_load L path = Loaded job) ∧
  JobParser._validate_job_data P job t = (Ok (), t').
Proof.
  intros Hparse. split; [| split; [| exact (parse_file_ok_inv path job t t' Hparse)]].
  - unfold parse_file in Hparse. destruct (exists_path P path); [reflexivity |].
    discriminate Hparse.
  - revert Hparse. unfold parse_file. cbv zeta. intros H.
    apply bind_ok_inv in H as (? & t1 & _ & H).
    apply bind_ok_inv in H as (? & t2 & _ & H).
    apply bind_ok_inv in H as (loaded_job & t3 & Hload & H).
    apply bind_ok_inv in H as ([] & t4 & _ & H). injection H as -> _.
    revert Hload. unfold load_with.
    destruct (_ || _).
    + destruct (yaml_safe_load L path); try discriminate. intros [= -> _]. by left.
    + destruct (String.eqb _ ".json"); [| discriminate].
      destruct (json_load L path); try discriminate. intros [= -> _]. by right.
Qed.

(** X18.  How [parse_file] fails before validation: a path that does not
    exist raises [FileNotFoundError]; otherwise the extension decides, in
    lower case: anything but [.yaml], [.yml] and [.json] is an unsupported
    format, named in the error, and a file the loader rejects is reported
    as invalid YAML or invalid JSON with the loader's text. *)
Theorem parse_file_errors (path : string) (t : list event) :
  (exists_path P path = false →
   parse_file P L path t =
     (Raise (FileNotFoundError ("Job file not found: " +:+ path)), t)) ∧
  (exists_path P path = true → open_err L path = None →
   let ext := lower (PosixPath.splitext path).2 in
   (ext ∉ job_file_extensions →
    parse_file P L path t =
      (Raise (ValueError ("Unsupported job file format: " +:+ ext)), t)) ∧
   (∀ text, ext = ".yaml" ∨ ext = ".yml" →
      yaml_safe_load L path = Malformed text →
      parse_file P L path t =
        (Raise (ValueError ("Invalid YAML format: " +:+ text)), t)) ∧
   (∀ text, ext = ".json" →
      json_load L path = Malformed text →
      parse_file P L path t =
        (Raise (ValueError ("Invalid JSON format: " +:+ text)), t))).
Proof.
  split.
  - intros Hmissing. unfold parse_file. rewrite Hmissing. reflexivity.
  - intros Hexists Hopen ext. unfold parse_file. cbv zeta. fold ext.
    rewrite Hexists, Hopen. cbn [negb]. run. split; [| split].
    + intros Hext. unfold job_file_extensions in Hext.
      rewrite !not_elem_of_cons in Hext. destruct Hext as (Hyaml & Hyml & Hjson & _).
      apply String.eqb_neq in Hyaml, Hyml, Hjson. rewrite Hyaml, Hyml, Hjson.
      reflexivity.
    + intros text Hext Hload.
      assert (String.eqb ext ".yaml" || String.eqb ext ".yml" = true) as ->.
      { destruct Hext as [-> | ->]; reflexivity. }
      rewrite Hload. reflexivity.
    + intros text -> Hload. cbn [String.eqb orb]. rewrite Hload. reflexivity.
Qed.
End JobFiles.

(** * [convert_documents] and [main] *)

Section Driving.
Import ConversionManager Driver.
Context `{U : Unicode}.
Context (P : Platform) (L : Library).

Lemma given_path_some (path : string) : path ≠ "" → given_path (Some path) = Some path.
Proof.
  intros Hne. unfold given_path. apply String.eqb_neq in Hne. rewrite Hne. reflexivity.
Qed.

Lemma bind_on_trace {A B} (c : M (list event) A) (k : A → M world B) (w : world) :
  bind (on_trace c) k w =
    match c (trace w) with
    | (Ok a, t1) => k a {| self := self w; trace := t1 |}
    | (Raise e, t1) => (Raise e, {| self := self w; trace := t1 |})
    end.
Proof. unfold bind, on_trace. destruct (c (trace w)) as [[a | e] t1]; reflexivity. Qed.

(** X19.  With a job file, [convert_documents] ignores the job data it is
    given: a failure to load or validate the file is its outcome and
    nothing is run; otherwise the loaded job has passed the validator and
    the outcome is that of a run of a new manager on it. *)
Theorem convert_documents_job_file (path : string) (job : value) (t : list event) :
  path ≠ "" →
  (∀ e t1,
     JobFile.load_job_file P L path (t ++ [ECall "load_job_file" [VStr path]]) =
       (Raise e, t1) →
     convert_documents P L (Some path) job t = (Raise e, t1)) ∧
  (∀ loaded_job t1,
     JobFile.load_job_file P L path (t ++ [ECall "load_job_file" [VStr path]]) =
       (Ok loaded_job, t1) →
     JobParser._validate_job_data P loaded_job
       (t ++ [ECall "load_job_file" [VStr path]]) = (Ok (), t1) ∧
     convert_documents P L (Some path) job t =
       (let (r, w) := run_conversion P {| self := __init__ loaded_job; trace := t1 |} in
        (r, trace w))).
Proof.
  intros Hne. unfold convert_documents, convert_with_manager.
  rewrite (given_path_some path Hne). unfold load_job_file. split.
  - intros e t1 Hload. run. rewrite bind_on_trace.
    unfold record_event, world_traced. cbn [self trace]. rewrite Hload. reflexivity.
  - intros loaded_job t1 Hload. split; [exact (parse_file_ok_inv P L _ _ _ _ Hload) |].
    run. rewrite bind_on_trace.
    unfold record_event, world_traced. cbn [self trace]. rewrite Hload.
    run. reflexivity.
Qed.

(** X20.  Without a job file, job data that is false in a condition, such
    as [None] or the empty mapping, counts as not given: the current
    directory is searched, and when it holds no job file the call raises
    the nothing-provided error without running anything. *)
Theorem convert_documents_nothing_provided (job_file : option string) (job : value)
    (t : list event) :
  given_path job_file = None →
  truthy job = false →
  JobFile.find_job_file L "." = Ok None →
  convert_documents P L job_file job t =
    (Raise (ValueError "No job file or job data provided"),
     t ++ [ECall "auto_detect_job_file" []]).
Proof.
  intros Hfile Hjob Hfind. unfold convert_documents, convert_with_manager.
  rewrite Hfile, Hjob. unfold auto_detect_job_file. run. rewrite Hfind. run.
  reflexivity.
Qed.

(** X21.  With job data that is true in a condition and no job file, the
    data is run as it is: the validator is not consulted, and the outcome
    is that of a run of a manager holding the data. *)
Theorem convert_documents_job_data (job_file : option string) (job : value)
    (t : list event) :
  given_path job_file = None →
  truthy job = true →
  convert_documents P L job_file job t =
    (let (r, w) := run_conversion P
                     {| self := __init__ job;
                        trace := t ++ [ECall "set_job_data" [job]] |} in
     (r, trace w)).
Proof.
  intros Hfile Hjob. unfold convert_documents, convert_with_manager.
  rewrite Hfile, Hjob. unfold set_job_data. run. reflexivity.
Qed.

Lemma main_body_codes {St} (c : M St (list value)) (k : list value → M St unit)
    (s s' : St) (code : Z) :
  (output_files <- c ;; k output_files ;;; ret 0%Z) s = (Ok code, s') → code = 0%Z.
Proof.
  intros H. apply bind_ok_inv in H as (? & ? & _ & H).
  apply bind_ok_inv in H as (? & ? & _ & H). by injection H as <-.
Qed.

(** The [try] statement of [main] always returns, with 0 or 1. *)
Lemma main_try_codes (a : Cli.args) (t : list event) :
  ∃ (code : Z) (t' : list event),
    main_try P L a t = (Ok code, t') ∧ (code = 0 ∨ code = 1)%Z.
Proof.
  unfold main_try, try_except.
  match goal with
  | |- context [match ?body t with _ => _ end] =>
      destruct (body t) as [[code | e] t1] eqn:Hbody
  end.
  - exists code, t1. split; [reflexivity |].
    destruct (given_path (Cli.job_file a)).
    + left. exact (main_body_codes _ _ _ _ _ Hbody).
    + destruct (Cli.validate_args a).
      * left. exact (main_body_codes _ _ _ _ _ Hbody).
      * apply bind_ok_inv in Hbody as (found & ? & _ & Hbody).
        destruct (given_path found).
        -- apply bind_ok_inv in Hbody as (? & ? & _ & Hbody).
           left. exact (main_body_codes _ _ _ _ _ Hbody).
        -- right. unfold usage in Hbody. by injection Hbody as <-.
  - eexists _, _. split; [reflexivity | by right].
Qed.

(** X22.  No exception of the conversion leaves [main]: on the namespace
    that [parse_args] returns it returns exit code 0 or 1, whatever the
    flags, the file system and the libraries do.  The one other way out is
    the [SystemExit] of argparse itself, on arguments it refuses or
    [--help]: [parse_args] is called before the [try], so it passes through
    with what argparse printed, and nothing else is done. *)
Theorem main_exit_code (command_line : parsing) (t : list event) :
  (∀ a, command_line = Namespace a →
     ∃ (code : Z) (t' : list event),
       main P L command_line t = (Returned code, t') ∧ (code = 0 ∨ code = 1)%Z) ∧
  (∀ printed status, command_line = ArgparseExit printed status →
     main P L command_line t = (SystemExit status, t ++ printed)) ∧
  (∀ e t', main P L command_line t ≠ (Raised e, t')).
Proof.
  split; [| split].
  - intros a ->. destruct (main_try_codes a t) as (code & t' & Htry & Hcode).
    exists code, t'. cbn [main]. rewrite Htry. done.
  - intros printed status ->. reflexivity.
  - intros e t'. destruct command_line as [a | printed status]; cbn [main].
    + destruct (main_try_codes a t) as (code & t1 & -> & _). discriminate.
    + discriminate.
Qed.

(** X23.  With [--job-file], [main] looks at no other argument: it exits
    with 0 after printing the produced files when the conversion of that
    file returns, and with 1 after printing the error on standard error
    when it raises. *)
Theorem main_job_file (a : Cli.args) (path : string) (t : list event) :
  Cli.job_file a = Some path → path ≠ "" →
  main P L (Namespace a) t =
    match convert_documents P L (Some path) VNone t with
    | (Ok output_files, t1) =>
        (Returned 0%Z, t1 ++ [EPrint ("Conversion completed. Output files: "
                                     +:+ py_repr P (VList output_files))])
    | (Raise e, t1) =>
        (Returned 1%Z, t1 ++ [ECall "print_stderr" [VStr ("Error: " +:+ exn_str L e)];
                             ECall "traceback.print_exc" []])
    end.
Proof.
  intros Hfile Hne. unfold main, main_try, try_except.
  rewrite Hfile, (given_path_some path Hne).
  unfold bind at 1.
  destruct (convert_documents P L (Some path) VNone t) as [[files | e] t1].
  - reflexivity.
  - unfold print_stderr, print_exc. run. unfold record_event, trace_traced.
    rewrite <- app_assoc. reflexivity.
Qed.

(** X24.  Without [--job-file], with flags that [validate_args] refuses and
    no job file in the current directory, [main] prints the three lines
    of the usage error on standard output and exits with 1. *)
Theorem main_usage_error (a : Cli.args) (t : list event) :
  given_path (Cli.job_file a) = None →
  Cli.validate_args a = false →
  JobFile.find_job_file L "." = Ok None →
  main P L (Namespace a) t =
    (Returned 1%Z,
     t ++ [EPrint "Error: No job file found and insufficient command-line arguments provided.";
           EPrint "Please specify a job file or provide the required command-line arguments.";
           EPrint "Run 'python doctool.py --help' for more information."]).
Proof.
  intros Hfile Hargs Hfind. unfold main, main_try, try_except.
  rewrite Hfile, Hargs, Hfind.
  run. cbn [given_path]. unfold usage. run. unfold record_event, trace_traced, ret.
  rewrite <- !app_assoc. reflexivity.
Qed.
End Driving.

(** * Merging PDF files *)

Section Merging.
Import CombineFiles.
Context (P : Platform) (L : Library).

Lemma check_inputs_exist (input_files : list string) (t : list event) :
  Forall (λ f, exists_path P f = true) input_files →
  check_inputs P input_files t = (Ok (), t).
Proof.
  unfold check_inputs. induction 1 as [| f files Hf _ IH]; [reflexivity |].
  cbn [for_each]. rewrite Hf. cbn [negb]. run. exact IH.
Qed.

Lemma check_inputs_missing (pre post : list string) (f : string) (t : list event) :
  Forall (λ f, exists_path P f = true) pre →
  exists_path P f = false →
  check_inputs P (pre ++ f :: post) t =
    (Raise (FileNotFoundError ("Input file not found: " +:+ f)), t).
Proof.
  unfold check_inputs. intros Hpre Hf.
  induction Hpre as [| g pre Hg _ IH]; cbn [app for_each].
  - rewrite Hf. reflexivity.
  - rewrite Hg. cbn [negb]. run. exact IH.
Qed.

(** X25.  [combine_files] first checks that every input exists: the first
    one that does not is named in a [FileNotFoundError], raised before
    anything is created or printed.  When all inputs exist, whatever goes
    wrong afterwards surfaces as an [IOError] whose message starts with
    the combining-error text; no other exception leaves the function. *)
Theorem combine_files_errors (options : value) (input_files : list string)
    (output_file : string) (t : list event) :
  (∀ pre post f,
     input_files = pre ++ f :: post →
     Forall (λ f, exists_path P f = true) pre →
     exists_path P f = false →
     combine_files P L options input_files output_file t =
       (Raise (FileNotFoundError ("Input file not found: " +:+ f)), t)) ∧
  (Forall (λ f, exists_path P f = true) input_files →
   ∃ t',
     combine_files P L options input_files output_file t = (Ok output_file, t') ∨
     ∃ text,
       combine_files P L options input_files output_file t =
         (Raise (IOError ("Error combining PDF files: " +:+ text)), t')).
Proof.
  split.
  - intros pre post f -> Hpre Hf. unfold combine_files.
    fold (check_inputs P (pre ++ f :: post)).
    rewrite (bind_raise_at _ _ _ _ _ (check_inputs_missing pre post f t Hpre Hf)).
    reflexivity.
  - intros Hall. unfold combine_files. fold (check_inputs P input_files).
    rewrite (bind_ok _ _ _ _ _ (check_inputs_exist input_files t Hall)).
    unfold try_except.
    destruct (merge P L options input_files output_file t) as [[out | e] t1] eqn:Hmerge.
    + exists t1. left. f_equal. f_equal. unfold merge in Hmerge.
      repeat (apply bind_ok_inv in Hmerge as (? & ? & _ & Hmerge)).
      by injection Hmerge as <-.
    + exists t1. right. exists (exn_str L e). reflexivity.
Qed.

Lemma append_loop_ok (files : list string) (t : list event) :
  Forall (λ f, append_err L f = None) files →
  for_each files (λ input_file,
    print ("Adding " +:+ input_file +:+ " to the combined PDF") ;;;
    try_except
      (foreign_call "append" [VStr input_file] (append_err L input_file))
      (λ e, print ("Error adding " +:+ input_file +:+ ": " +:+ exn_str L e) ;;;
            raise e)) t =
  (Ok (), t ++ append_events files).
Proof.
  intros Hall. revert t. induction Hall as [| f files Hf _ IH]; intros t.
  - cbn. rewrite app_nil_r. reflexivity.
  - cbn [for_each]. run. unfold try_except at 1. rewrite Hf. cbn [foreign_call].
    unfold emit at 1, modify at 1. unfold bind at 1.
    rewrite IH. unfold record_event, trace_traced. cbn [append_events flat_map].
    rewrite <- !app_assoc. reflexivity.
Qed.

Lemma append_loop_fails (pre post : list string) (f text : string) (t : list event) :
  Forall (λ f, append_err L f = None) pre →
  append_err L f = Some text →
  for_each (pre ++ f :: post) (λ input_file,
    print ("Adding " +:+ input_file +:+ " to the combined PDF") ;;;
    try_except
      (foreign_call "append" [VStr input_file] (append_err L input_file))
      (λ e, print ("Error adding " +:+ input_file +:+ ": " +:+ exn_str L e) ;;;
            raise e)) t =
  (Raise (OSError text),
   t ++ append_events pre
     ++ [EPrint ("Adding " +:+ f +:+ " to the combined PDF");
         EPrint ("Error adding " +:+ f +:+ ": " +:+ text)]).
Proof.
  intros Hpre Hf. revert t. induction Hpre as [| g pre Hg _ IH]; intros t.
  - cbn [app for_each append_events flat_map]. run. unfold try_except at 1.
    rewrite Hf. cbn [foreign_call raise]. run. unfold bind, raise.
    unfold record_event, trace_traced. cbn [exn_str]. rewrite <- !app_assoc.
    reflexivity.
  - cbn [app for_each]. run. unfold try_except at 1. rewrite Hg. cbn [foreign_call].
    unfold emit at 1, modify at 1. unfold bind at 1.
    rewrite IH. unfold record_event, trace_traced. cbn [append_events flat_map].
    rewrite <- !app_assoc. reflexivity.
Qed.

(** X26.  When every input exists, the options hold no metadata and no
    library call fails, [combine_files] returns the output path, having
    created the directory of the output, appended the inputs to one merger
    in the order given, and written and closed it once, in that order. *)
Theorem combine_files_merges_in_order (options : gmap string value)
    (input_files : list string) (output_file : string) (t : list event) :
  Forall (λ f, exists_path P f = true) input_files →
  options !! "metadata" = None →
  makedirs_err P (PosixPath.dirname (abspath L output_file)) = None →
  merger_new_err L = None →
  Forall (λ f, append_err L f = None) input_files →
  write_err L output_file = None →
  close_err L = None →
  combine_files P L (VDict options) input_files output_file t =
    (Ok output_file,
     t ++ [EMakedirs (PosixPath.dirname (abspath L output_file));
           ECall "PdfMerger" []]
       ++ append_events input_files
       ++ [EPrint ("Writing combined PDF to " +:+ output_file);
           ECall "write" [VStr output_file];
           ECall "close" []]).
Proof.
  intros Hexist Hmeta Hmk Hnew Happend Hwrite Hclose.
  unfold combine_files. fold (check_inputs P input_files).
  rewrite (bind_ok _ _ _ _ _ (check_inputs_exist input_files t Hexist)).
  unfold try_except, merge. cbn [os_makedirs]. rewrite Hmk, Hnew. cbn [foreign_call].
  run. rewrite (contains_none _ _ Hmeta). run.
  rewrite (bind_ok _ _ _ _ _ (append_loop_ok input_files _ Happend)).
  run. rewrite Hwrite, Hclose. cbn [foreign_call]. run.
  unfold ret, record_event, trace_traced. rewrite <- !app_assoc. reflexivity.
Qed.

(** X27.  When appending one of the inputs fails, the inputs before it have
    been appended, the failure is printed and then raised as the
    combining [IOError] with the library's text; no later input is
    touched and nothing is written. *)
Theorem combine_files_append_failure (options : gmap string value)
    (pre post : list string) (f text output_file : string) (t : list event) :
  Forall (λ f, exists_path P f = true) (pre ++ f :: post) →
  options !! "metadata" = None →
  makedirs_err P (PosixPath.dirname (abspath L output_file)) = None →
  merger_new_err L = None →
  Forall (λ f, append_err L f = None) pre →
  append_err L f = Some text →
  combine_files P L (VDict options) (pre ++ f :: post) output_file t =
    (Raise (IOError ("Error combining PDF files: " +:+ text)),
     t ++ [EMakedirs (PosixPath.dirname (abspath L output_file));
           ECall "PdfMerger" []]
       ++ append_events pre
       ++ [EPrint ("Adding " +:+ f +:+ " to the combined PDF");
           EPrint ("Error adding " +:+ f +:+ ": " +:+ text)]).
Proof.
  intros Hexist Hmeta Hmk Hnew Hpre Hf.
  unfold combine_files. fold (check_inputs P (pre ++ f :: post)).
  rewrite (bind_ok _ _ _ _ _ (check_inputs_exist _ t Hexist)).
  unfold try_except, merge. cbn [os_makedirs]. rewrite Hmk, Hnew. cbn [foreign_call].
  run. rewrite (contains_none _ _ Hmeta). run.
  rewrite (bind_raise_at _ _ _ _ _ (append_loop_fails pre post f text _ Hpre Hf)).
  unfold raise. cbn [exn_str]. unfold record_event, trace_traced.
  rewrite <- !app_assoc. reflexivity.
Qed.
End Merging.

(** * Worked examples *)

Section ValidatorExamples.
Import JobParser Example Samples.


(** An output section with a destination and the format [DOCX]. *)
Lemma validate_output_section_order_witness :
  _validate_output_section host
    (VDict {["output" := section [("file", VStr "out.docx"); ("format", VStr "DOCX")]]}) [] =
    (Raise (ValueError
       "Invalid output format: DOCX. Must be one of: markdown, md, html, pdf, odt"), []).
Proof.
  exact (validate_output_section_order host
           {["output" := section [("file", VStr "out.docx"); ("format", VStr "DOCX")]]}
           (list_to_map [("file", VStr "out.docx"); ("format", VStr "DOCX")]) [] eq_refl).
Defined.

(** [PNG] is accepted in any case; [tiff] is the first unknown entry. *)
Lemma validate_images_formats_witness :
  _validate_images_section host
    (section [("embed", VBool false);
              ("formats", VList [VStr "PNG"; VStr "tiff"; VStr "bmp"])]) [] =
    (Raise (ValueError
       "Invalid image format: tiff. Must be one of: jpg, jpeg, png, webp, svg"), []).
Proof.
  refine (proj2 (validate_images_formats host
                   (list_to_map [("embed", VBool false);
                                 ("formats", VList [VStr "PNG"; VStr "tiff"; VStr "bmp"])])
                   ["PNG"; "tiff"; "bmp"] []) _ eq_refl).
  intros v Hv. injection Hv as <-. reflexivity.
Defined.

(** The style sheet exists, the cover page does not. *)
Lemma validate_options_warnings_witness :
  _validate_options_section workdir (VDict styled_job) [] =
    (Ok (), [EPrint "Warning: Cover page file not found: cover.html"]).
Proof.
  refine (validate_options_warnings workdir styled_job styled_options [] eq_refl _ _).
  - intros v Hv. injection Hv as <-. eexists. reflexivity.
  - intros v Hv. injection Hv as <-. eexists. reflexivity.
Defined.

(** Of the three declared documents, [missing.md] is not in [docs]. *)
Lemma validate_documents_missing_files_witness :
  _validate_documents_section host (VDict ordered_job) [] =
    (Ok (), [EPrint "Warning: Document file not found: docs/missing.md"]).
Proof.
  refine (validate_documents_missing_files host ordered_job
            (list_to_map [("directory", VStr "docs"); ("format", VStr "markdown")])
            "docs" ordered_docs ["c.md"; "missing.md"; "a.md"] [] eq_refl eq_refl eq_refl _).
  repeat constructor; eexists; split; reflexivity.
Defined.
End ValidatorExamples.

Section ValidatorExamples2.
Import JobParser Example Samples.

(** The second entry is a bare string. *)
Lemma validate_documents_first_bad_witness :
  _validate_documents_section host
    (VDict (<["documents" := VList [section [("file", VStr "missing.md")];
                                    VStr "a.md";
                                    section [("file", VStr "c.md")]]]> docs_job)) [] =
    (Raise (ValueError "Document at index 1 must be an object"),
     [EPrint "Warning: Document file not found: docs/missing.md"]).
Proof.
  refine (proj1 (validate_documents_first_bad host
                   (<["documents" := VList [section [("file", VStr "missing.md")];
                                            VStr "a.md";
                                            section [("file", VStr "c.md")]]]> docs_job)
                   (list_to_map [("directory", VStr "docs"); ("format", VStr "markdown")])
                   "docs" [section [("file", VStr "missing.md")]]
                   [section [("file", VStr "c.md")]] ["missing.md"] (VStr "a.md") []
                   eq_refl eq_refl eq_refl _) eq_refl).
  repeat constructor; eexists; split; reflexivity.
Defined.

Example characters_kelvin :
  characters ("a" +:+ kelvin +:+ "b") = ["a"; kelvin; "b"].
Proof. reflexivity. Qed.

(** [str.lower] takes the Kelvin sign to [k]: the format is accepted. *)
Example validate_kelvin_format : validate host (VDict kelvin_job) = Ok ().
Proof. reflexivity. Qed.

(** [docs_job] passes, so it has the shape. *)
Lemma validated_job_shape_witness :
  ∃ (d input output : gmap string value) (fi fo : string),
    VDict docs_job = VDict d ∧
    d !! "input" = Some (VDict input) ∧
    input !! "format" = Some (VStr fi) ∧ lower fi ∈ valid_formats ∧
    has_key "directory" input || has_key "files" input = true ∧
    d !! "output" = Some (VDict output) ∧
    output !! "format" = Some (VStr fo) ∧ lower fo ∈ valid_formats ∧
    has_key "directory" output || has_key "file" output = true.
Proof. exact (validated_job_shape host (VDict docs_job) [] [] eq_refl). Defined.
End ValidatorExamples2.

Section RunExamples.
Import ConversionManager Example Samples.

(** Markdown to PDF goes through html. *)
Lemma route_hops_are_direct_witness :
  head ["markdown"; "html"; "pdf"] = Some "markdown" ∧
  last ["markdown"; "html"; "pdf"] = Some "pdf" ∧
  (["markdown"; "html"; "pdf"] = ["markdown"; "pdf"] ∨
   ["markdown"; "html"; "pdf"] = ["markdown"; "html"; "pdf"] ∧
   resolve {| self := __init__ VNone; trace := [] |} "markdown" "html" =
     Ok ["markdown"; "html"] ∧
   resolve {| self := __init__ VNone; trace := [] |} "html" "pdf" = Ok ["html"; "pdf"]).
Proof.
  exact (route_hops_are_direct {| self := __init__ VNone; trace := [] |}
           "markdown" "pdf" ["markdown"; "html"; "pdf"] eq_refl).
Defined.

(** [md_to_pdf_job] is valid. *)
Lemma valid_job_has_route_witness :
  ∃ a b : string,
    section_format (VDict md_to_pdf_job) "input" = Ok a ∧
    section_format (VDict md_to_pdf_job) "output" = Ok b ∧
    (normalize a = normalize b ∨
     ∃ route, ∀ w, resolve w (normalize a) (normalize b) = Ok route).
Proof. exact (valid_job_has_route host (VDict md_to_pdf_job) [] [] eq_refl). Defined.

(** With the Kelvin sign the two formats are the same after lower-casing:
    the run copies. *)
Example run_kelvin_copies :
  run host (VDict kelvin_job) =
    (Ok [VStr "docs/b.md"; VStr "docs/a.md"; VStr "docs/c.md"],
     {| self := {| job_data := VDict kelvin_job;
                   input_files := [VStr "docs/b.md"; VStr "docs/a.md"; VStr "docs/c.md"];
                   output_files := [VStr "docs/b.md"; VStr "docs/a.md"; VStr "docs/c.md"] |};
        trace := [ECall "run_conversion" [];
                  ECall "prepare_conversion" [];
                  ECall "_gather_input_files" [];
                  EPrint "Found 3 input files";
                  ECall "_prepare_output_directories" [];
                  EMakedirs "out";
                  EPrint "Created output directory: out";
                  EPrint "Input and output formats are the same (markdown). Copying files...";
                  ECall "_copy_files" [];
                  EPrint "Copying files"] |}).
Proof. reflexivity. Qed.

(** There is no directory [drafts]. *)
Lemma run_missing_input_directory_witness :
  run_conversion host {| self := __init__ (VDict lost_job); trace := [] |} =
    (Raise (ValueError "Input directory does not exist: drafts"),
     {| self := __init__ (VDict lost_job);
        trace := [ECall "run_conversion" []; ECall "prepare_conversion" [];
                  ECall "_gather_input_files" []] |}).
Proof.
  exact (run_missing_input_directory host lost_job
           (list_to_map [("directory", VStr "drafts"); ("format", VStr "md")])
           "md" "drafts" (__init__ (VDict lost_job)) []
           eq_refl eq_refl eq_refl eq_refl eq_refl eq_refl).
Defined.

(** A first run of [book_job]: the three files of [docs] come back, and
    the combine step runs last. *)
Lemma run_converts_then_combines_witness :
  run host (VDict book_job) =
    (Ok [VStr "docs/b.md"; VStr "docs/a.md"; VStr "docs/c.md"],
     {| self := {| job_data := VDict book_job;
                   input_files := [VStr "docs/b.md"; VStr "docs/a.md"; VStr "docs/c.md"];
                   output_files := [VStr "docs/b.md"; VStr "docs/a.md"; VStr "docs/c.md"] |};
        trace := [ECall "run_conversion" [];
                  ECall "prepare_conversion" [];
                  ECall "_gather_input_files" [];
                  EPrint "Found 3 input files";
                  ECall "_prepare_output_directories" [];
                  ECall "_determine_conversion_path" [VStr "markdown"; VStr "pdf"];
                  EPrint "Conversion path: markdown -> html -> pdf";
                  ECall "_convert_files" [VList [VStr "markdown"; VStr "html"; VStr "pdf"]];
                  EPrint "Converting files: [...]";
                  ECall "_combine_files" [];
                  EPrint "Combining files";
                  EPrint "Combined output file: out/book.pdf"] |}).
Proof.
  refine (proj2 (run_converts_then_combines host book_job "md" "pdf"
                   ["markdown"; "html"; "pdf"] (__init__ (VDict book_job)) []
                   (snd (prepare_if_needed host
                           {| self := __init__ (VDict book_job);
                              trace := [ECall "run_conversion" []] |}))
                   eq_refl eq_refl eq_refl _ eq_refl eq_refl)
            (list_to_map [("enabled", VBool true); ("output_file", VStr "out/book.pdf")])
            (VBool true) (VStr "out/book.pdf") eq_refl eq_refl eq_refl eq_refl).
  discriminate.
Defined.

(** Markdown to [docx]: the output directory has been created when the
    route is found missing. *)
Lemma run_no_route_after_prepare_witness :
  run host (VDict (<["output" := section [("directory", VStr "out");
                                          ("format", VStr "docx")]]> docs_job)) =
    (Raise (ValueError "No conversion path available from markdown to docx"),
     {| self := {| job_data :=
                     VDict (<["output" := section [("directory", VStr "out");
                                                   ("format", VStr "docx")]]> docs_job);
                   input_files := [VStr "docs/b.md"; VStr "docs/a.md"; VStr "docs/c.md"];
                   output_files := [] |};
        trace := [ECall "run_conversion" [];
                  ECall "prepare_conversion" [];
                  ECall "_gather_input_files" [];
                  EPrint "Found 3 input files";
                  ECall "_prepare_output_directories" [];
                  EMakedirs "out";
                  EPrint "Created output directory: out";
                  ECall "_determine_conversion_path" [VStr "markdown"; VStr "docx"]] |}).
Proof.
  refine (run_no_route_after_prepare host
            (<["output" := section [("directory", VStr "out");
                                    ("format", VStr "docx")]]> docs_job)
            "markdown" "docx"
            (__init__ (VDict (<["output" := section [("directory", VStr "out");
                                                     ("format", VStr "docx")]]> docs_job))) []
            (snd (prepare_if_needed host
                    {| self := __init__ (VDict (<["output" :=
                                   section [("directory", VStr "out");
                                            ("format", VStr "docx")]]> docs_job));
                       trace := [ECall "run_conversion" []] |}))
            eq_refl eq_refl eq_refl _ _ eq_refl).
  - discriminate.
  - intros [_ Hin]. change (normalize "docx") with "docx" in Hin. unfold formats in Hin.
    repeat (apply elem_of_cons in Hin as [Hin | Hin]; [discriminate Hin |]).
    apply elem_of_nil in Hin. exact Hin.
Defined.
End RunExamples.

Section CommandLineExamples2.
Import Cli Example Samples.

(** [--combine] together with [--output-file]. *)
Lemma cli_job_valid_witness :
  JobParser.validate host (create_job_data_from_args combine_to_file) = Ok ().
Proof.
  refine (cli_job_valid host combine_to_file eq_refl eq_refl (conj _ _) (λ _, eq_refl)).
  - intros f Hf. injection Hf as <-. unfold format_choices. set_solver.
  - intros f Hf. injection Hf as <-. unfold format_choices. set_solver.
Defined.
End CommandLineExamples2.

Section JobFileExamples.
Import JobFile Example Samples.

(** [jobs] lists a JSON and a YML file before its two YAML files. *)
Lemma find_job_file_priority_witness :
  ∃ first, first ∈ ["b.json"; "a.yml"; "z.yaml"; "c.yaml"] ∧
           PosixPath.ends_with ".yaml" first = true ∧
           find_job_file library "jobs" = Ok (Some (path_join "jobs" first)).
Proof.
  refine (proj2 (proj2 (find_job_file_priority library "jobs"
                          ["b.json"; "a.yml"; "z.yaml"; "c.yaml"] eq_refl))
            "c.yaml" _ eq_refl).
  set_solver.
Defined.

Example find_job_file_first_yaml :
  find_job_file library "jobs" = Ok (Some "jobs/z.yaml").
Proof. reflexivity. Qed.

(** [jobs/z.yaml] holds [docs_job]. *)
Lemma parse_file_validates_witness :
  exists_path workdir "jobs/z.yaml" = true ∧
  (yaml_safe_load library "jobs/z.yaml" = Loaded (VDict docs_job) ∨
   json_load library "jobs/z.yaml" = Loaded (VDict docs_job)) ∧
  JobParser._validate_job_data workdir (VDict docs_job) [] = (Ok (), []).
Proof.
  exact (parse_file_validates workdir library "jobs/z.yaml" (VDict docs_job) [] [] eq_refl).
Defined.

(** A TOML file is not a job file. *)
Lemma parse_file_errors_witness :
  parse_file workdir library "jobs/job.toml" [] =
    (Raise (ValueError "Unsupported job file format: .toml"), []).
Proof.
  refine (proj1 (proj2 (parse_file_errors workdir library "jobs/job.toml" [])
                   eq_refl eq_refl) _).
  unfold job_file_extensions. intros Hin.
  repeat (apply elem_of_cons in Hin as [Hin | Hin]; [discriminate Hin |]).
  apply elem_of_nil in Hin. exact Hin.
Defined.

(** The extension is named in lower case, whatever its script. *)
Example parse_file_latin_extension :
  parse_file workdir library ("jobs/x." +:+ capital_a_diaeresis +:+ "ML") [] =
    (Raise (ValueError ("Unsupported job file format: ." +:+ small_a_diaeresis +:+ "ml")),
     []).
Proof. reflexivity. Qed.

Example parse_file_broken_yaml :
  parse_file workdir library "jobs/broken.yaml" [] =
    (Raise (ValueError "Invalid YAML format: mapping values are not allowed here"), []).
Proof. reflexivity. Qed.

Example parse_file_missing :
  parse_file workdir library "jobs/none.yaml" [] =
    (Raise (FileNotFoundError "Job file not found: jobs/none.yaml"), []).
Proof. reflexivity. Qed.
End JobFileExamples.

Section DriverExamples.
Import ConversionManager Driver Example Samples.

(** The job file wins over the job data passed along. *)
Lemma convert_documents_job_file_witness :
  JobParser._validate_job_data workdir (VDict docs_job)
    [ECall "load_job_file" [VStr "jobs/z.yaml"]] =
    (Ok (), [ECall "load_job_file" [VStr "jobs/z.yaml"]]) ∧
  convert_documents workdir library (Some "jobs/z.yaml") (VDict lost_job) [] =
    (let (r, w) := run_conversion workdir
                     {| self := __init__ (VDict docs_job);
                        trace := [ECall "load_job_file" [VStr "jobs/z.yaml"]] |} in
     (r, trace w)).
Proof.
  refine (proj2 (convert_documents_job_file workdir library "jobs/z.yaml"
                   (VDict lost_job) [] _)
            (VDict docs_job) [ECall "load_job_file" [VStr "jobs/z.yaml"]] eq_refl).
  discriminate.
Defined.

(** An empty mapping is no job data, and the current directory holds no
    job file. *)
Lemma convert_documents_nothing_provided_witness :
  convert_documents workdir library None (VDict ∅) [] =
    (Raise (ValueError "No job file or job data provided"),
     [ECall "auto_detect_job_file" []]).
Proof.
  exact (convert_documents_nothing_provided workdir library None (VDict ∅) []
           eq_refl eq_refl eq_refl).
Defined.

(** [lost_job] is handed over as data and run as it is. *)
Lemma convert_documents_job_data_witness :
  convert_documents workdir library None (VDict lost_job) [] =
    (let (r, w) := run_conversion workdir
                     {| self := __init__ (VDict lost_job);
                        trace := [ECall "set_job_data" [VDict lost_job]] |} in
     (r, trace w)).
Proof.
  exact (convert_documents_job_data workdir library None (VDict lost_job) []
           eq_refl eq_refl).
Defined.

(** [--job-file jobs/z.yaml]: markdown to html, exit code 0. *)
Lemma main_job_file_witness :
  main workdir library (Namespace with_job_file) [] =
    (Returned 0%Z,
     [ECall "load_job_file" [VStr "jobs/z.yaml"];
      ECall "run_conversion" [];
      ECall "prepare_conversion" [];
      ECall "_gather_input_files" [];
      EPrint "Found 3 input files";
      ECall "_prepare_output_directories" [];
      EMakedirs "out";
      EPrint "Created output directory: out";
      ECall "_determine_conversion_path" [VStr "markdown"; VStr "html"];
      EPrint "Conversion path: markdown -> html";
      ECall "_convert_files" [VList [VStr "markdown"; VStr "html"]];
      EPrint "Converting files: [...]";
      EPrint "Conversion completed. Output files: [...]"]).
Proof.
  refine (main_job_file workdir library with_job_file "jobs/z.yaml" [] eq_refl _).
  discriminate.
Defined.

(** [--input-dir docs] alone, in a directory without a job file. *)
Lemma main_usage_error_witness :
  main workdir library (Namespace only_input_dir) [] =
    (Returned 1%Z,
     [EPrint "Error: No job file found and insufficient command-line arguments provided.";
      EPrint "Please specify a job file or provide the required command-line arguments.";
      EPrint "Run 'python doctool.py --help' for more information."]).
Proof.
  exact (main_usage_error workdir library only_input_dir [] eq_refl eq_refl eq_refl).
Defined.

(** An option that argparse does not know: its usage message, and
    [SystemExit] with status 2. *)
Lemma main_exit_code_witness :
  main workdir library
    (ArgparseExit [ECall "print_stderr"
                     [VStr "doctool.py: error: unrecognized arguments: --pdf"]] 2) [] =
    (SystemExit 2,
     [ECall "print_stderr" [VStr "doctool.py: error: unrecognized arguments: --pdf"]]).
Proof.
  exact (proj1 (proj2 (main_exit_code workdir library
                         (ArgparseExit
                            [ECall "print_stderr"
                               [VStr "doctool.py: error: unrecognized arguments: --pdf"]] 2)
                         []))
           _ 2%Z eq_refl).
Defined.

(** A job file that does not exist: the error goes to standard error and
    the exit code is 1. *)
Example main_missing_job_file :
  main workdir library
    (Namespace
       {| Cli.job_file := Some "jobs/none.yaml"; Cli.input_dir := None;
          Cli.input_file := None; Cli.from_format := None; Cli.output_dir := None;
          Cli.output_file := None; Cli.to_format := None; Cli.combine := false;
          Cli.files := None; Cli.css := None; Cli.toc := false;
          Cli.embed_images := false |}) [] =
    (Returned 1%Z,
     [ECall "load_job_file" [VStr "jobs/none.yaml"];
      ECall "print_stderr" [VStr "Error: Job file not found: jobs/none.yaml"];
      ECall "traceback.print_exc" []]).
Proof. reflexivity. Qed.
End DriverExamples.

Section MergingExamples.
Import CombineFiles Example Samples.

(** [pdfs/4.pdf] does not exist; nothing is done. *)
Lemma combine_files_errors_witness :
  combine_files host library (VDict ∅) ["pdfs/1.pdf"; "pdfs/4.pdf"; "pdfs/5.pdf"]
    "out/all.pdf" [] =
    (Raise (FileNotFoundError "Input file not found: pdfs/4.pdf"), []).
Proof.
  refine (proj1 (combine_files_errors host library (VDict ∅)
                   ["pdfs/1.pdf"; "pdfs/4.pdf"; "pdfs/5.pdf"] "out/all.pdf" [])
            ["pdfs/1.pdf"] ["pdfs/5.pdf"] "pdfs/4.pdf" eq_refl _ eq_refl).
  repeat constructor.
Defined.

(** [3.pdf] before [1.pdf], as asked. *)
Lemma combine_files_merges_in_order_witness :
  combine_files host library (VDict ∅) ["pdfs/3.pdf"; "pdfs/1.pdf"] "out/all.pdf" [] =
    (Ok "out/all.pdf",
     [EMakedirs "/work/out";
      ECall "PdfMerger" [];
      EPrint "Adding pdfs/3.pdf to the combined PDF";
      ECall "append" [VStr "pdfs/3.pdf"];
      EPrint "Adding pdfs/1.pdf to the combined PDF";
      ECall "append" [VStr "pdfs/1.pdf"];
      EPrint "Writing combined PDF to out/all.pdf";
      ECall "write" [VStr "out/all.pdf"];
      ECall "close" []]).
Proof.
  refine (combine_files_merges_in_order host library ∅ ["pdfs/3.pdf"; "pdfs/1.pdf"]
            "out/all.pdf" [] _ eq_refl eq_refl eq_refl _ eq_refl eq_refl).
  - repeat constructor.
  - repeat constructor.
Defined.

(** [pdfs/2.pdf] cannot be read: [3.pdf] is never touched. *)
Lemma combine_files_append_failure_witness :
  combine_files host library (VDict ∅) ["pdfs/1.pdf"; "pdfs/2.pdf"; "pdfs/3.pdf"]
    "out/all.pdf" [] =
    (Raise (IOError "Error combining PDF files: EOF marker not found"),
     [EMakedirs "/work/out";
      ECall "PdfMerger" [];
      EPrint "Adding pdfs/1.pdf to the combined PDF";
      ECall "append" [VStr "pdfs/1.pdf"];
      EPrint "Adding pdfs/2.pdf to the combined PDF";
      EPrint "Error adding pdfs/2.pdf: EOF marker not found"]).
Proof.
  refine (combine_files_append_failure host library ∅ ["pdfs/1.pdf"] ["pdfs/3.pdf"]
            "pdfs/2.pdf" "EOF marker not found" "out/all.pdf" []
            _ eq_refl eq_refl eq_refl _ eq_refl).
  - repeat constructor.
  - repeat constructor.
Defined.

(** Metadata is added before the first file. *)
Example combine_files_metadata :
  combine_files host library
    (section [("metadata", section [("title", VStr "Book"); ("keywords", VStr "a, b")])])
    ["pdfs/1.pdf"] "all.pdf" [] =
    (Ok "all.pdf",
     [EMakedirs "/work";
      ECall "PdfMerger" [];
      ECall "add_metadata" [VStr "/Title"; VStr "Book"];
      ECall "add_metadata" [VStr "/Keywords"; VStr "a, b"];
      EPrint "Adding pdfs/1.pdf to the combined PDF";
      ECall "append" [VStr "pdfs/1.pdf"];
      EPrint "Writing combined PDF to all.pdf";
      ECall "write" [VStr "all.pdf"];
      ECall "close" []]).
Proof. reflexivity. Qed.
End MergingExamples.

Section PathExamples.
Import PosixPath.

Example splitext_job : splitext "jobs/my.job.YAML" = ("jobs/my.job", ".YAML").
Proof. reflexivity. Qed.

Example splitext_hidden : splitext "conf.d/.yaml" = ("conf.d/.yaml", "").
Proof. reflexivity. Qed.

Example splitext_dotted_directory : splitext "v1.2/job" = ("v1.2/job", "").
Proof. reflexivity. Qed.

Example basename_dirname :
  basename "/work/out/all.pdf" = "all.pdf" ∧ dirname "/work/out/all.pdf" = "/work/out"
  ∧ dirname "/all.pdf" = "/" ∧ dirname "all.pdf" = "" ∧ dirname "a//b" = "a".
Proof. repeat split. Qed.

Example ends_with_suffix :
  ends_with ".yaml" "job.yaml" = true ∧ ends_with ".yaml" "job.yaml.bak" = false
  ∧ ends_with ".yaml" ".yaml" = true.
Proof. repeat split. Qed.
End PathExamples.

(** * Runs without a job, and runs after preparation *)

Section PreparedRuns.
Import ConversionManager.
Context `{U : Unicode}.

(** X28.  Without job data, or with job data that is false in a condition
    such as the empty mapping, both [run_conversion] and
    [prepare_conversion] raise the job-not-set error at once: the manager
    is left as it was and nothing is gathered, created or printed. *)
Theorem run_without_job (P : Platform) (m : manager) (t : list event) :
  truthy (job_data m) = false →
  run_conversion P {| self := m; trace := t |} =
    (Raise (ValueError "Job data not set. Load a job file or set job data directly."),
     {| self := m; trace := t ++ [ECall "run_conversion" []] |}) ∧
  prepare_conversion P {| self := m; trace := t |} =
    (Raise (ValueError "Job data not set. Load a job file or set job data directly."),
     {| self := m; trace := t ++ [ECall "prepare_conversion" []] |}).
Proof.
  intros Hjob. split.
  - unfold run_conversion. run. cbn [record_event world_traced self trace].
    rewrite Hjob. reflexivity.
  - unfold prepare_conversion. run. cbn [record_event world_traced self trace].
    rewrite Hjob. reflexivity.
Qed.

(** X29.  Once input files have been gathered, a run does not look at the
    file system again: it neither gathers nor creates a directory, so that
    its outcome is the same on any two hosts that render values alike. *)
Theorem run_prepared_ignores_file_system (P1 P2 : Platform) (w : world) :
  py_repr P1 = py_repr P2 →
  input_files (self w) ≠ [] →
  run_conversion P1 w = run_conversion P2 w.
Proof.
  intros Hrepr Hfiles. destruct w as [m t].
  destruct P1 as [ex1 fd1 gl1 mk1 r1], P2 as [ex2 fd2 gl2 mk2 r2].
  cbn [py_repr] in Hrepr. subst r2.
  unfold run_conversion. run. cbn [record_event world_traced self trace] in *.
  destruct (truthy (job_data m)); cbn [negb]; run; [| reflexivity].
  unfold record_event, world_traced. cbn [self trace] in *.
  destruct (input_files m) as [| f files] eqn:Hm; [done |].
  run. reflexivity.
Qed.
End PreparedRuns.

Section PreparedRunExamples.
Import ConversionManager Example Samples.

(** The empty mapping is no job. *)
Lemma run_without_job_witness :
  run_conversion host {| self := __init__ (VDict ∅); trace := [] |} =
    (Raise (ValueError "Job data not set. Load a job file or set job data directly."),
     {| self := __init__ (VDict ∅); trace := [ECall "run_conversion" []] |}) ∧
  prepare_conversion host {| self := __init__ (VDict ∅); trace := [] |} =
    (Raise (ValueError "Job data not set. Load a job file or set job data directly."),
     {| self := __init__ (VDict ∅); trace := [ECall "prepare_conversion" []] |}).
Proof. exact (run_without_job host (__init__ (VDict ∅)) [] eq_refl). Defined.

(** The run of a prepared manager on [host] and on a host where nothing
    exists. *)
Lemma run_prepared_ignores_file_system_witness :
  run_conversion host gathered = run_conversion blank gathered.
Proof.
  refine (run_prepared_ignores_file_system host blank gathered eq_refl _).
  discriminate.
Defined.

(** On the blank host an unprepared run of the same job fails. *)
Example run_unprepared_on_blank :
  fst (run blank (VDict docs_job)) =
    Raise (ValueError "Input directory does not exist: docs").
Proof. reflexivity. Qed.
End PreparedRunExamples.

(** * Merging a directory *)

Section MergingDirectories.
Import PdfCombiner CombineFiles.
Context (P : Platform) (L : Library).

(** X30.  [combine_directory] on a directory that does not exist raises
    [FileNotFoundError] naming it, before anything is listed or merged.
    On a combiner created without options, with no file order and no
    failing library call, the files matching the pattern are merged in
    sorted order, whatever the order of the listing. *)
Theorem combine_directory_merges_sorted (options : value)
    (input_dir output_file file_pattern : string) (t : list event) :
  (∀ file_order,
     exists_path P input_dir = false →
     combine_directory P (combine_files P L (__init__ options))
       input_dir output_file file_pattern file_order t =
       (Raise (FileNotFoundError ("Input directory not found: " +:+ input_dir)), t)) ∧
  (truthy options = false →
   exists_path P input_dir = true →
   Forall (λ f, exists_path P f = true ∧ append_err L f = None)
     (glob P (path_join input_dir file_pattern)) →
   makedirs_err P (PosixPath.dirname (abspath L output_file)) = None →
   merger_new_err L = None →
   write_err L output_file = None →
   close_err L = None →
   combine_directory P (combine_files P L (__init__ options))
     input_dir output_file file_pattern None t =
     (Ok output_file,
      t ++ [EMakedirs (PosixPath.dirname (abspath L output_file));
            ECall "PdfMerger" []]
        ++ append_events (sort_strings (glob P (path_join input_dir file_pattern)))
        ++ [EPrint ("Writing combined PDF to " +:+ output_file);
            ECall "write" [VStr output_file];
            ECall "close" []])).
Proof.
  split.
  - intros file_order Hdir. unfold combine_directory. rewrite Hdir. reflexivity.
  - intros Hoptions Hdir Hfiles Hmk Hnew Hwrite Hclose.
    unfold combine_directory, __init__. rewrite Hdir, Hoptions. cbn [negb]. run.
    assert (Hsorted : Forall (λ f, exists_path P f = true ∧ append_err L f = None)
                        (sort_strings (glob P (path_join input_dir file_pattern)))).
    { unfold sort_strings. rewrite merge_sort_Permutation. exact Hfiles. }
    apply Forall_and in Hsorted as [Hexist Happend].
    unfold combine_files.
    fold (check_inputs P (sort_strings (glob P (path_join input_dir file_pattern)))).
    rewrite (bind_ok _ _ _ _ _ (check_inputs_exist P _ t Hexist)).
    unfold try_except, merge. cbn [os_makedirs]. rewrite Hmk, Hnew. cbn [foreign_call].
    run. cbn [py_contains]. unfold has_key. rewrite lookup_empty. run.
    rewrite (bind_ok _ _ _ _ _ (append_loop_ok L _ _ Happend)).
    run. rewrite Hwrite, Hclose. cbn [foreign_call]. run.
    unfold ret, record_event, trace_traced. rewrite <- !app_assoc. reflexivity.
Qed.
End MergingDirectories.

Section MergingDirectoryExamples.
Import PdfCombiner CombineFiles Example Samples.

(** There is no directory [scans]. *)
Lemma combine_directory_merges_sorted_witness :
  combine_directory host (combine_files host library (__init__ VNone))
    "scans" "all.pdf" "*.pdf" (Some ["2.pdf"]) [] =
    (Raise (FileNotFoundError "Input directory not found: scans"), []).
Proof.
  exact (proj1 (combine_directory_merges_sorted host library VNone
                  "scans" "all.pdf" "*.pdf" [])
           (Some ["2.pdf"]) eq_refl).
Defined.

(** [docs] is listed as b, a, c and merged as a, b, c. *)
Example combine_directory_sorted_appends :
  combine_directory host (combine_files host library (__init__ (VDict ∅)))
    "docs" "all.pdf" "*.md" None [] =
    (Ok "all.pdf",
     [EMakedirs "/work";
      ECall "PdfMerger" [];
      EPrint "Adding docs/a.md to the combined PDF";
      ECall "append" [VStr "docs/a.md"];
      EPrint "Adding docs/b.md to the combined PDF";
      ECall "append" [VStr "docs/b.md"];
      EPrint "Adding docs/c.md to the combined PDF";
      ECall "append" [VStr "docs/c.md"];
      EPrint "Writing combined PDF to all.pdf";
      ECall "write" [VStr "all.pdf"];
      ECall "close" []]).
Proof. reflexivity. Qed.
End MergingDirectoryExamples.
